(** * Task-Management backend: a shallow embedding of the Express/Mongoose
    handlers and the properties of its specification.

    The embedding follows the backend sources:
    - [backend/models/{Task,Comment,File}.js]         -> modules [Task], [Comment], [File]
    - [backend/middleware/validation.js]              -> section "Joi schemas"
    - [backend/controllers/taskController.js]         -> [createTask] ... [deleteTask]
    - [backend/controllers/commentController.js]      -> [addComment] ... [deleteComment]
    - [backend/controllers/fileController.js]         -> [uploadFiles] ... [deleteFile]
    - [backend/controllers/analyticsController.js]    -> [getOverview], [getPerformance],
                                                         [getTrends], [exportTasks]
    - [frontend/src/components/{FileUpload,BulkCreateTasks,TaskList}.tsx]
                                                      -> modules [FileUpload], [BulkForm], [TaskList]

    Handlers are functions of the request, the authenticated identity
    ([req.user]), the time of the call and the store; they return the HTTP
    reply together with the store after the call.

    [middleware/auth.js] and [models/User.js] are not among the sources:
    [req.user] is taken to be the user document the bearer token resolves
    to, so that [req.user._id] is its ObjectId and [req.user.id] the same
    id as a string.  Strings are sequences of 8-bit characters. *)

From Stdlib Require Import List String Ascii ZArith QArith Bool Lia.
From stdpp Require Import base gmap strings.
From Stdlib Require Import Sorted.
Import ListNotations.

Close Scope Q_scope.
Local Open Scope string_scope.
Local Open Scope Z_scope.

(** ** Primitive data *)

(** A MongoDB ObjectId (the 96-bit value; its 24-digit hexadecimal rendering
    is injective, so [a.toString() !== b.toString()] is disequality here). *)
Definition ObjectId := N.
Bind Scope N_scope with ObjectId.

(** A JavaScript [Date], in milliseconds since the epoch. *)
Definition Date := Z.

(** What the runtime and the libraries decide and the repository does not:
    which strings Mongoose casts to an ObjectId ([ObjectId.isValid] and the
    cast of [_id]/[assignedTo] in a filter or a document), and the regular
    expression engine ([new RegExp(p, flags)] throws on [None]; otherwise the
    resulting matcher is the one the store applies for [$regex]), and the
    count the store reads for a [NaN] skip or limit ([None]: it rejects the
    query). *)
Class Env := {
  castObjectId : string -> option ObjectId;
  regexCompile : string -> string -> option (string -> bool);
  nanAsCount : option Z
}.

(** ** JavaScript values the handlers compute with *)

(** Numbers the pagination arithmetic produces: an integer or [NaN].
    Doubles are exact on the integers that occur here. *)
Inductive JsNum :=
| Num (z : Z)
| NaN.

Definition digit_of (c : ascii) : option Z :=
  let n := Z.of_nat (nat_of_ascii c) in
  if (48 <=? n) && (n <=? 57) then Some (n - 48) else None.

Fixpoint digits (s : string) (acc : Z) : option Z :=
  match s with
  | EmptyString => Some acc
  | String c s' =>
      match digit_of c with
      | Some d => digits s' (10 * acc + d)
      | None => None
      end
  end.

(** [Number(s)] on a query-string value, for the integer literals
    (an optional minus sign and decimal digits); every other text is [NaN]
    here (fractions and exponents are outside this model). *)
Definition ToNumber (s : string) : JsNum :=
  match s with
  | EmptyString => Num 0
  | String "-"%char s' =>
      match s' with
      | EmptyString => NaN
      | _ => match digits s' 0 with Some z => Num (- z) | None => NaN end
      end
  | _ => match digits s 0 with Some z => Num z | None => NaN end
  end.

(** A query-string parameter is a string or [undefined]. *)
Definition ToNumber_opt (v : option string) : JsNum :=
  match v with
  | Some s => ToNumber s
  | None => NaN
  end.

(** [parseInt(v)]: on the integer literals it agrees with [Number];
    [parseInt(undefined)] and [parseInt("")] are [NaN].  As for [Number],
    other texts read [NaN] here. *)
Definition parseInt (v : option string) : JsNum :=
  match v with
  | Some EmptyString => NaN
  | Some s => ToNumber s
  | None => NaN
  end.

Definition js_sub (a b : JsNum) : JsNum :=
  match a, b with
  | Num x, Num y => Num (x - y)
  | _, _ => NaN
  end.

Definition js_mul (a b : JsNum) : JsNum :=
  match a, b with
  | Num x, Num y => Num (x * y)
  | _, _ => NaN
  end.

(** [Math.ceil(total / limit)] for a count [total] and a number [limit].
    Division by 0 gives [Infinity] or [NaN]; JSON renders both as [null] and
    both are [NaN] here. *)
Definition js_ceil_div (total : Z) (limit : JsNum) : JsNum :=
  match limit with
  | Num l => if l =? 0 then NaN else Num (- ((- total) / l))
  | NaN => NaN
  end.

(** Truthiness of a string-or-undefined value: [if (v)]. *)
Definition truthy (v : option string) : bool :=
  match v with
  | Some EmptyString => false
  | Some _ => true
  | None => false
  end.

(** ** [String.prototype.trim], for the [trim: true] schema option *)

Definition is_space (c : ascii) : bool :=
  let n := nat_of_ascii c in
  (Nat.eqb n 32 || Nat.eqb n 9 || Nat.eqb n 10 || Nat.eqb n 11
   || Nat.eqb n 12 || Nat.eqb n 13)%bool.

Fixpoint trim_left (s : string) : string :=
  match s with
  | EmptyString => EmptyString
  | String c s' => if is_space c then trim_left s' else s
  end.

Fixpoint trim_right (s : string) : string :=
  match s with
  | EmptyString => EmptyString
  | String c s' =>
      match trim_right s' with
      | EmptyString => if is_space c then EmptyString else String c EmptyString
      | r => String c r
      end
  end.

Definition trim (s : string) : string := trim_right (trim_left s).

(** ** Replies *)

(** [res.status(code).json(body)] with a payload, or with [{ message }]. *)
Inductive Reply (A : Type) :=
| Ok (code : nat) (body : A)
| Err (code : nat) (message : string).
Arguments Ok {A} code body.
Arguments Err {A} code message.

Definition code_of {A} (r : Reply A) : nat :=
  match r with
  | Ok c _ => c
  | Err c _ => c
  end.

Definition BadRequest : nat := 400%nat.
Definition Forbidden : nat := 403%nat.
Definition NotFound : nat := 404%nat.
Definition ServerError : nat := 500%nat.

(** ** The document store (the part of MongoDB/Mongoose the handlers use) *)

(** Field values as the store compares them. *)
Inductive Bson :=
| BUndef
| BBool (b : bool)
| BNum (z : Z)
| BStr (s : string)
| BDate (d : Date)
| BOid (i : ObjectId)
| BStrs (l : list string).

Definition bson_eqb (a b : Bson) : bool :=
  match a, b with
  | BUndef, BUndef => true
  | BBool x, BBool y => Bool.eqb x y
  | BNum x, BNum y => x =? y
  | BStr x, BStr y => String.eqb x y
  | BDate x, BDate y => x =? y
  | BOid x, BOid y => N.eqb x y
  | BStrs x, BStrs y => if decide (x = y) then true else false
  | _, _ => false
  end.

(** A model's documents expose their fields by name. *)
Class Document (A : Type) := field : A -> string -> Bson.

(** The conditions the handlers put on a field. *)
Inductive Cond :=
| Eq (v : Bson)                        (* { f: v } *)
| Ne (v : Bson)                        (* { f: { $ne: v } } *)
| Lt (v : Bson)                        (* { f: { $lt: v } } *)
| Regex (pattern options : string)     (* { f: { $regex, $options } } *)
| InRegex (res : list (string * string)). (* { f: { $in: [RegExp, ...] } } *)

(** A filter document: field conditions and [$or] clauses, all conjoined. *)
Inductive Clause :=
| Field (name : string) (c : Cond)
| Or (alternatives : list (list (string * Cond))).

Definition Filter := list Clause.

Section Store.
Context `{Env}.

Definition regex_test (pattern options subject : string) : bool :=
  match regexCompile pattern options with
  | Some m => m subject
  | None => false
  end.

(** A condition against a field value; on an array field a condition
    holds when it holds of some element. *)
Definition cond_holds (c : Cond) (x : Bson) : bool :=
  match c with
  | Eq v =>
      match x with
      | BStrs l => bson_eqb x v || existsb (fun s => bson_eqb (BStr s) v) l
      | _ => bson_eqb x v
      end
  | Ne v =>
      negb match x with
           | BStrs l => bson_eqb x v || existsb (fun s => bson_eqb (BStr s) v) l
           | _ => bson_eqb x v
           end
  | Lt v =>
      match x, v with
      | BDate a, BDate b => a <? b
      | BNum a, BNum b => a <? b
      | BStr a, BStr b => String.ltb a b
      | _, _ => false
      end
  | Regex p o =>
      match x with
      | BStr s => regex_test p o s
      | BStrs l => existsb (regex_test p o) l
      | _ => false
      end
  | InRegex res =>
      match x with
      | BStr s => existsb (fun po => regex_test (fst po) (snd po) s) res
      | BStrs l =>
          existsb (fun s => existsb (fun po => regex_test (fst po) (snd po) s) res) l
      | _ => false
      end
  end.

Definition clause_holds {A} `{Document A} (d : A) (c : Clause) : bool :=
  match c with
  | Field f c => cond_holds c (field d f)
  | Or alts =>
      existsb (forallb (fun fc => cond_holds (snd fc) (field d (fst fc)))) alts
  end.

Definition matches {A} `{Document A} (q : Filter) (d : A) : bool :=
  forallb (clause_holds d) q.

(** [Model.find(q)], in the collection's natural (insertion) order. *)
Definition find {A} `{Document A} (q : Filter) (coll : list A) : list A :=
  List.filter (matches q) coll.

(** [Model.findOne(q)]. *)
Definition findOne {A} `{Document A} (q : Filter) (coll : list A) : option A :=
  List.find (matches q) coll.

(** [Model.countDocuments(q)]. *)
Definition countDocuments {A} `{Document A} (q : Filter) (coll : list A) : nat :=
  length (find q coll).

(** [Model.findOneAndUpdate(q, u, { new: true })]: the first matching
    document is replaced by [u] of it; the new document is returned. *)
Fixpoint findOneAndUpdate {A} `{Document A} (q : Filter) (u : A -> A)
    (coll : list A) : option A * list A :=
  match coll with
  | [] => (None, [])
  | d :: rest =>
      if matches q d then (Some (u d), u d :: rest)
      else let '(r, rest') := findOneAndUpdate q u rest in (r, d :: rest')
  end.
End Store.

(** *** Sorting *)

(** The store's order across types, for the types that occur:
    missing/null < numbers < strings < arrays < ObjectId < booleans < dates. *)
Definition bson_rank (x : Bson) : Z :=
  match x with
  | BUndef => 0
  | BNum _ => 1
  | BStr _ => 2
  | BStrs _ => 3
  | BOid _ => 4
  | BBool _ => 5
  | BDate _ => 6
  end.

Definition bson_leb (a b : Bson) : bool :=
  match a, b with
  | BNum x, BNum y => x <=? y
  | BStr x, BStr y => String.leb x y
  | BOid x, BOid y => N.leb x y
  | BBool x, BBool y => implb x y
  | BDate x, BDate y => x <=? y
  | _, _ => bson_rank a <=? bson_rank b
  end.

(** A single-key sort specification [{ key: dir }], [dir] being 1 or -1. *)
Record SortSpec := { sort_key : string; sort_dir : Z }.

Section Sorting.
Context {A : Type} `{Document A}.

(** [before s x y]: [x] may stay in front of [y]. *)
Definition before (s : SortSpec) (x y : A) : bool :=
  if sort_dir s =? 1
  then bson_leb (field x (sort_key s)) (field y (sort_key s))
  else bson_leb (field y (sort_key s)) (field x (sort_key s)).

Fixpoint insert_sorted (s : SortSpec) (x : A) (l : list A) : list A :=
  match l with
  | [] => [x]
  | y :: l' => if before s x y then x :: l else y :: insert_sorted s x l'
  end.

(** [.sort(s)]: rows with equal keys keep their natural order. *)
Definition sortBy (s : SortSpec) (l : list A) : list A :=
  fold_right (insert_sorted s) [] l.
End Sorting.

(** ** Models *)

(** An id as a handler passes it to Mongoose: a string a client sent, or
    an ObjectId the server already holds ([req.user.id], [req.user._id]). *)
Inductive IdVal :=
| Raw (s : string)
| Oid (i : ObjectId).

Definition cast_id `{Env} (v : IdVal) : option ObjectId :=
  match v with
  | Raw s => castObjectId s
  | Oid i => Some i
  end.

(** [mongoose.Types.ObjectId.isValid]. *)
Definition isValid `{Env} (s : string) : bool :=
  match castObjectId s with
  | Some _ => true
  | None => false
  end.

Definition opt_bson {A} (f : A -> Bson) (o : option A) : Bson :=
  match o with
  | Some a => f a
  | None => BUndef
  end.

(** [models/User.js] is not among the sources; these are the fields of the
    README's schema that the handlers read. *)
Module User.
Record doc := mk {
  _id : ObjectId;
  username : string;
  firstName : string;
  lastName : string;
  role : string;
  isActive : bool
}.

#[global] Instance document : Document doc := fun u f =>
  if String.eqb f "_id" then BOid (_id u)
  else if String.eqb f "username" then BStr (username u)
  else if String.eqb f "firstName" then BStr (firstName u)
  else if String.eqb f "lastName" then BStr (lastName u)
  else if String.eqb f "role" then BStr (role u)
  else if String.eqb f "isActive" then BBool (isActive u)
  else BUndef.
End User.

(** [models/Task.js] *)
Module Task.
Record doc := mk {
  _id : ObjectId;
  title : string;
  description : option string;
  status : string;
  priority : string;
  dueDate : option Date;
  tags : list string;
  assignedTo : option ObjectId;
  createdBy : ObjectId;
  isDeleted : bool;
  deletedAt : option Date;
  createdAt : Date;
  updatedAt : Date
}.

#[global] Instance document : Document doc := fun t f =>
  if String.eqb f "_id" then BOid (_id t)
  else if String.eqb f "title" then BStr (title t)
  else if String.eqb f "description" then opt_bson BStr (description t)
  else if String.eqb f "status" then BStr (status t)
  else if String.eqb f "priority" then BStr (priority t)
  else if String.eqb f "dueDate" then opt_bson BDate (dueDate t)
  else if String.eqb f "tags" then BStrs (tags t)
  else if String.eqb f "assignedTo" then opt_bson BOid (assignedTo t)
  else if String.eqb f "createdBy" then BOid (createdBy t)
  else if String.eqb f "isDeleted" then BBool (isDeleted t)
  else if String.eqb f "deletedAt" then opt_bson BDate (deletedAt t)
  else if String.eqb f "createdAt" then BDate (createdAt t)
  else if String.eqb f "updatedAt" then BDate (updatedAt t)
  else BUndef.

Definition status_enum : list string := ["todo"; "in-progress"; "review"; "done"].
Definition priority_enum : list string := ["low"; "medium"; "high"; "urgent"].

Definition mem (s : string) (l : list string) : bool := existsb (String.eqb s) l.

Definition opt_maxlength (n : nat) (o : option string) : bool :=
  match o with
  | Some s => Nat.leb (String.length s) n
  | None => true
  end.

(** The schema's validators ([required], [maxlength], [enum]), as
    [save()] and [runValidators] apply them. *)
Definition validate (t : doc) : bool :=
  negb (String.eqb (title t) "")
  && Nat.leb (String.length (title t)) 200
  && opt_maxlength 2000 (description t)
  && mem (status t) status_enum
  && mem (priority t) priority_enum.
End Task.

(** A request body for a task, as JSON: every key may be absent.
    [createdBy] is the owner key a client may try to submit.  The other
    keys of a stored task that no schema names ([_id], [isDeleted], the
    time stamps) are not part of it. *)
Module TaskData.
Record t := mk {
  title : option string;
  description : option string;
  status : option string;
  priority : option string;
  dueDate : option Date;
  tags : option (list string);
  assignedTo : option string;
  createdBy : option IdVal
}.

(** [{ ...data, createdBy: v }] *)
Definition with_createdBy (d : t) (v : IdVal) : t :=
  {| title := title d; description := description d; status := status d;
     priority := priority d; dueDate := dueDate d; tags := tags d;
     assignedTo := assignedTo d; createdBy := Some v |}.
End TaskData.

Definition from_opt {A} (d : A) (o : option A) : A :=
  match o with
  | Some a => a
  | None => d
  end.

(** [new Task(data)] followed by [save()]: setters ([trim]), defaults,
    casts and validators; [None] when [save()] rejects. *)
Definition Task_new `{Env} (id : ObjectId) (now : Date) (d : TaskData.t)
    : option Task.doc :=
  match TaskData.title d, TaskData.createdBy d with
  | Some ti, Some owner =>
      match cast_id owner,
            match TaskData.assignedTo d with
            | Some s => option_map Some (castObjectId s)
            | None => Some None
            end with
      | Some o, Some a =>
          let t :=
            {| Task._id := id;
               Task.title := trim ti;
               Task.description := option_map trim (TaskData.description d);
               Task.status := from_opt "todo" (TaskData.status d);
               Task.priority := from_opt "medium" (TaskData.priority d);
               Task.dueDate := TaskData.dueDate d;
               Task.tags := List.map trim (from_opt [] (TaskData.tags d));
               Task.assignedTo := a;
               Task.createdBy := o;
               Task.isDeleted := false;
               Task.deletedAt := None;
               Task.createdAt := now;
               Task.updatedAt := now |} in
          if Task.validate t then Some t else None
      | _, _ => None
      end
  | _, _ => None
  end.

(** [models/Comment.js] *)
Module Comment.
Record doc := mk {
  _id : ObjectId;
  content : string;
  task : ObjectId;
  author : ObjectId;
  isDeleted : bool;
  deletedAt : option Date;
  createdAt : Date;
  updatedAt : Date
}.

#[global] Instance document : Document doc := fun c f =>
  if String.eqb f "_id" then BOid (_id c)
  else if String.eqb f "content" then BStr (content c)
  else if String.eqb f "task" then BOid (task c)
  else if String.eqb f "author" then BOid (author c)
  else if String.eqb f "isDeleted" then BBool (isDeleted c)
  else if String.eqb f "deletedAt" then opt_bson BDate (deletedAt c)
  else if String.eqb f "createdAt" then BDate (createdAt c)
  else if String.eqb f "updatedAt" then BDate (updatedAt c)
  else BUndef.

Definition validate (c : doc) : bool :=
  negb (String.eqb (content c) "")
  && Nat.leb (String.length (content c)) 1000.
End Comment.

(** [models/File.js] *)
Module File.
Record doc := mk {
  _id : ObjectId;
  filename : string;
  originalName : string;
  mimetype : string;
  size : Z;
  path : string;
  task : ObjectId;
  uploadedBy : ObjectId;
  isDeleted : bool;
  deletedAt : option Date;
  createdAt : Date;
  updatedAt : Date
}.

#[global] Instance document : Document doc := fun x f =>
  if String.eqb f "_id" then BOid (_id x)
  else if String.eqb f "filename" then BStr (filename x)
  else if String.eqb f "originalName" then BStr (originalName x)
  else if String.eqb f "mimetype" then BStr (mimetype x)
  else if String.eqb f "size" then BNum (size x)
  else if String.eqb f "path" then BStr (path x)
  else if String.eqb f "task" then BOid (task x)
  else if String.eqb f "uploadedBy" then BOid (uploadedBy x)
  else if String.eqb f "isDeleted" then BBool (isDeleted x)
  else if String.eqb f "deletedAt" then opt_bson BDate (deletedAt x)
  else if String.eqb f "createdAt" then BDate (createdAt x)
  else if String.eqb f "updatedAt" then BDate (updatedAt x)
  else BUndef.

Definition validate (x : doc) : bool :=
  negb (String.eqb (filename x) "")
  && negb (String.eqb (originalName x) "")
  && negb (String.eqb (mimetype x) "")
  && negb (String.eqb (path x) "").
End File.

(** ** The state a handler runs against *)

(** The collections, the upload directory (path to content) and the
    ObjectId generator. *)
Record DB := mkDB {
  users : list User.doc;
  tasks : list Task.doc;
  comments : list Comment.doc;
  files : list File.doc;
  disk : gmap string (list Byte.byte);
  nextId : ObjectId
}.

Definition set_tasks (db : DB) (l : list Task.doc) : DB :=
  mkDB (users db) l (comments db) (files db) (disk db) (nextId db).
Definition set_comments (db : DB) (l : list Comment.doc) : DB :=
  mkDB (users db) (tasks db) l (files db) (disk db) (nextId db).
Definition set_files (db : DB) (l : list File.doc) : DB :=
  mkDB (users db) (tasks db) (comments db) l (disk db) (nextId db).
Definition set_disk (db : DB) (d : gmap string (list Byte.byte)) : DB :=
  mkDB (users db) (tasks db) (comments db) (files db) d (nextId db).

(** [new ObjectId()]: the generator hands out its value and advances. *)
Definition fresh (db : DB) : ObjectId * DB :=
  (nextId db,
   mkDB (users db) (tasks db) (comments db) (files db) (disk db)
        (N.succ (nextId db))).

(** *** [populate(path, 'username firstName lastName')] *)

Record UserRef := {
  ref_id : ObjectId;
  ref_username : string;
  ref_firstName : string;
  ref_lastName : string
}.

(** The referenced user's selected fields, or [null] when there is none. *)
Definition populate_user (db : DB) (i : ObjectId) : option UserRef :=
  match List.find (fun u => N.eqb (User._id u) i) (users db) with
  | Some u =>
      Some {| ref_id := User._id u; ref_username := User.username u;
              ref_firstName := User.firstName u; ref_lastName := User.lastName u |}
  | None => None
  end.

(** A task with [assignedTo] and [createdBy] populated. *)
Record TaskView := {
  tv_doc : Task.doc;
  tv_assignedTo : option UserRef;
  tv_createdBy : option UserRef
}.

Definition populate_task (db : DB) (t : Task.doc) : TaskView :=
  {| tv_doc := t;
     tv_assignedTo :=
       match Task.assignedTo t with
       | Some a => populate_user db a
       | None => None
       end;
     tv_createdBy := populate_user db (Task.createdBy t) |}.

(** A comment with [author] populated. *)
Record CommentView := {
  cv_doc : Comment.doc;
  cv_author : option UserRef
}.

Definition populate_comment (db : DB) (c : Comment.doc) : CommentView :=
  {| cv_doc := c; cv_author := populate_user db (Comment.author c) |}.

(** A file with [uploadedBy] populated. *)
Record FileView := {
  fv_doc : File.doc;
  fv_uploadedBy : option UserRef
}.

Definition populate_file (db : DB) (x : File.doc) : FileView :=
  {| fv_doc := x; fv_uploadedBy := populate_user db (File.uploadedBy x) |}.

(** ** Joi schemas and the validation middleware ([middleware/validation.js]) *)

(** The outcome of [schema.validate(input)]: [{ error }] or [{ value }],
    [value] carrying the converted input with the schema's defaults.  The
    message texts below abbreviate Joi's. *)
Inductive JoiResult (V : Type) :=
| JoiValue (value : V)
| JoiError (message : string).
Arguments JoiValue {V} value.
Arguments JoiError {V} message.

Definition dquote : string := String (ascii_of_nat 34) EmptyString.
Definition quoted (key : string) : string := dquote ++ key ++ dquote.

(** [Joi.string()] with [max], [valid] and [allow('')] as used below:
    the first rule a present value breaks. *)
Definition joi_string (key : string) (maxlen : option nat) (allow_empty : bool)
    (valid : option (list string)) (s : string) : option string :=
  if String.eqb s "" && negb allow_empty
  then Some (quoted key ++ " is not allowed to be empty")
  else match valid with
       | Some l =>
           if Task.mem s l then None
           else Some (quoted key ++ " must be one of the allowed values")
       | None =>
           match maxlen with
           | Some n =>
               if Nat.leb (String.length s) n then None
               else Some (quoted key ++ " length is above the maximum")
           | None => None
           end
       end.

Definition joi_opt {A} (rule : A -> option string) (v : option A) : option string :=
  match v with
  | Some a => rule a
  | None => None
  end.

Definition joi_required {A} (key : string) (rule : A -> option string)
    (v : option A) : option string :=
  match v with
  | Some a => rule a
  | None => Some (quoted key ++ " is required")
  end.

(** [Joi.number().integer().min(lo).max(hi)] on a query-string value, for
    the integer literals [ToNumber] reads.  What else Joi converts to an
    integer (a fraction of zeros, an exponent, a plus sign, blanks around
    the digits) and its refusal of integers beyond the safe range are
    outside this model. *)
Definition joi_integer (key : string) (lo : Z) (hi : option Z) (s : string)
    : option string :=
  match s with
  | EmptyString => Some (quoted key ++ " must be a number")
  | _ =>
      match ToNumber s with
      | NaN => Some (quoted key ++ " must be a number")
      | Num z =>
          if z <? lo then Some (quoted key ++ " is below the minimum")
          else match hi with
               | Some h =>
                   if h <? z then Some (quoted key ++ " is above the maximum")
                   else None
               | None => None
               end
      end
  end.

(** The first error among the keys, in schema order. *)
Fixpoint first_error (l : list (option string)) : option string :=
  match l with
  | [] => None
  | Some e :: _ => Some e
  | None :: l' => first_error l'
  end.

Definition joi_tags (l : list string) : option string :=
  first_error (List.map (joi_string "tags" None false None) l).

Definition joi_unknown {A} (key : string) (v : option A) : option string :=
  match v with
  | Some _ => Some (quoted key ++ " is not allowed")
  | None => None
  end.

(** [taskSchema] *)
Definition taskSchema (b : TaskData.t) : JoiResult TaskData.t :=
  match first_error
          [ joi_required "title" (joi_string "title" (Some 200%nat) false None)
              (TaskData.title b);
            joi_opt (joi_string "description" (Some 2000%nat) true None)
              (TaskData.description b);
            joi_opt (joi_string "status" None false (Some Task.status_enum))
              (TaskData.status b);
            joi_opt (joi_string "priority" None false (Some Task.priority_enum))
              (TaskData.priority b);
            joi_opt joi_tags (TaskData.tags b);
            joi_opt (joi_string "assignedTo" None false None)
              (TaskData.assignedTo b);
            joi_unknown "createdBy" (TaskData.createdBy b) ] with
  | Some e => JoiError e
  | None => JoiValue b
  end.

(** [updateTaskSchema] *)
Definition updateTaskSchema (b : TaskData.t) : JoiResult TaskData.t :=
  match first_error
          [ joi_opt (joi_string "title" (Some 200%nat) false None)
              (TaskData.title b);
            joi_opt (joi_string "description" (Some 2000%nat) true None)
              (TaskData.description b);
            joi_opt (joi_string "status" None false (Some Task.status_enum))
              (TaskData.status b);
            joi_opt (joi_string "priority" None false (Some Task.priority_enum))
              (TaskData.priority b);
            joi_opt joi_tags (TaskData.tags b);
            joi_opt (joi_string "assignedTo" None false None)
              (TaskData.assignedTo b);
            joi_unknown "createdBy" (TaskData.createdBy b) ] with
  | Some e => JoiError e
  | None => JoiValue b
  end.

(** [req.query] of [GET /tasks]: each parameter is a string or absent. *)
Module TaskQuery.
Record t := mk {
  status : option string;
  priority : option string;
  assignedTo : option string;
  search : option string;
  page : option string;
  limit : option string;
  sortBy : option string;
  sortOrder : option string
}.
End TaskQuery.

(** What [taskQuerySchema] yields as [value]: numbers converted, defaults
    filled in. *)
Module TaskQueryValue.
Record t := mk {
  status : option string;
  priority : option string;
  assignedTo : option string;
  search : option string;
  page : Z;
  limit : Z;
  sortBy : string;
  sortOrder : string
}.
End TaskQueryValue.

Definition number_or (d : Z) (v : option string) : Z :=
  match v with
  | Some s => match ToNumber s with Num z => z | NaN => d end
  | None => d
  end.

(** [taskQuerySchema] *)
Definition taskQuerySchema (q : TaskQuery.t) : JoiResult TaskQueryValue.t :=
  match first_error
          [ joi_opt (joi_string "status" None false (Some Task.status_enum))
              (TaskQuery.status q);
            joi_opt (joi_string "priority" None false (Some Task.priority_enum))
              (TaskQuery.priority q);
            joi_opt (joi_string "assignedTo" None false None)
              (TaskQuery.assignedTo q);
            joi_opt (joi_string "search" None false None) (TaskQuery.search q);
            joi_opt (joi_integer "page" 1 None) (TaskQuery.page q);
            joi_opt (joi_integer "limit" 1 (Some 100)) (TaskQuery.limit q);
            joi_opt (joi_string "sortBy" None false
                       (Some ["createdAt"; "dueDate"; "priority"; "status"]))
              (TaskQuery.sortBy q);
            joi_opt (joi_string "sortOrder" None false (Some ["asc"; "desc"]))
              (TaskQuery.sortOrder q) ] with
  | Some e => JoiError e
  | None =>
      JoiValue
        {| TaskQueryValue.status := TaskQuery.status q;
           TaskQueryValue.priority := TaskQuery.priority q;
           TaskQueryValue.assignedTo := TaskQuery.assignedTo q;
           TaskQueryValue.search := TaskQuery.search q;
           TaskQueryValue.page := number_or 1 (TaskQuery.page q);
           TaskQueryValue.limit := number_or 10 (TaskQuery.limit q);
           TaskQueryValue.sortBy := from_opt "createdAt" (TaskQuery.sortBy q);
           TaskQueryValue.sortOrder := from_opt "desc" (TaskQuery.sortOrder q) |}
  end.

(** [commentSchema], on the body's [content]. *)
Definition commentSchema (content : option string) : JoiResult string :=
  match content with
  | None => JoiError (quoted "content" ++ " is required")
  | Some s =>
      match joi_string "content" (Some 1000%nat) false None s with
      | Some e => JoiError e
      | None => JoiValue s
      end
  end.

(** [validate(schema)] and [validateQuery(schema)]: reply 400 with the first
    error, else call [next()].  Only [error] is read from the result: the
    request the handler sees is the one that came in. *)
Definition validate {B V R} (schema : B -> JoiResult V)
    (next : B -> DB -> Reply R * DB) (body : B) (db : DB) : Reply R * DB :=
  match schema body with
  | JoiError m => (Err BadRequest m, db)
  | JoiValue _ => next body db
  end.

Definition validateQuery {Q V R} (schema : Q -> JoiResult V)
    (next : Q -> DB -> Reply R * DB) (query : Q) (db : DB) : Reply R * DB :=
  match schema query with
  | JoiError m => (Err BadRequest m, db)
  | JoiValue _ => next query db
  end.

(** ** [controllers/taskController.js] *)

Section TaskController.
Context `{Env}.

Definition server_error : string := "Server error".

(** [createTask] *)
Definition createTask (user : User.doc) (now : Date) (body : TaskData.t)
    (db : DB) : Reply TaskView * DB :=
  let taskData := TaskData.with_createdBy body (Oid (User._id user)) in
  if truthy (TaskData.assignedTo taskData)
     && negb (isValid (from_opt "" (TaskData.assignedTo taskData)))
  then (Err BadRequest "Invalid assignedTo ID", db)
  else
    let '(id, db1) := fresh db in
    match Task_new id now taskData with
    | None => (Err ServerError server_error, db1)
    | Some task =>
        let db2 := set_tasks db1 (tasks db1 ++ [task])%list in
        (Ok 201%nat (populate_task db2 task), db2)
    end.

(** The loop of [bulkCreateTasks]: [created] is [createdTasks] so far. *)
Fixpoint bulkCreateTasks_loop (user : User.doc) (now : Date)
    (todo : list TaskData.t) (created : list TaskView) (db : DB)
    : Reply (list TaskView) * DB :=
  match todo with
  | [] => (Ok 201%nat created, db)
  | taskData :: rest =>
      let data := TaskData.with_createdBy taskData (Oid (User._id user)) in
      if truthy (TaskData.assignedTo data)
         && negb (isValid (from_opt "" (TaskData.assignedTo data)))
      then (Err BadRequest "Invalid assignedTo ID in bulk tasks", db)
      else
        let '(id, db1) := fresh db in
        match Task_new id now data with
        | None => (Err ServerError server_error, db1)
        | Some task =>
            let db2 := set_tasks db1 (tasks db1 ++ [task])%list in
            bulkCreateTasks_loop user now rest
              (created ++ [populate_task db2 task])%list db2
        end
  end.

(** [bulkCreateTasks]; [body_tasks] is [req.body.tasks] when it is an array. *)
Definition bulkCreateTasks (user : User.doc) (now : Date)
    (body_tasks : option (list TaskData.t)) (db : DB)
    : Reply (list TaskView) * DB :=
  match body_tasks with
  | None | Some [] => (Err BadRequest "Tasks array is required", db)
  | Some l => bulkCreateTasks_loop user now l [] db
  end.

(** The filter [getTasks] builds from [req.query]; [None] when building it
    throws ([new RegExp]) or Mongoose cannot cast [assignedTo]. *)
Definition getTasks_query (q : TaskQuery.t) : option Filter :=
  let by_status :=
    if truthy (TaskQuery.status q)
    then [Field "status" (Eq (BStr (from_opt "" (TaskQuery.status q))))] else [] in
  let by_priority :=
    if truthy (TaskQuery.priority q)
    then [Field "priority" (Eq (BStr (from_opt "" (TaskQuery.priority q))))] else [] in
  let by_assignedTo :=
    if truthy (TaskQuery.assignedTo q)
    then match castObjectId (from_opt "" (TaskQuery.assignedTo q)) with
         | Some a => Some [Field "assignedTo" (Eq (BOid a))]
         | None => None
         end
    else Some [] in
  let by_search :=
    if truthy (TaskQuery.search q)
    then let search := from_opt "" (TaskQuery.search q) in
         match regexCompile search "i" with
         | Some _ =>
             Some [Or [ [("title", Regex search "i")];
                        [("description", Regex search "i")];
                        [("tags", InRegex [(search, "i")])] ]]
         | None => None
         end
    else Some [] in
  match by_assignedTo, by_search with
  | Some a, Some s =>
      Some ([Field "isDeleted" (Eq (BBool false))]
              ++ by_status ++ by_priority ++ a ++ s)%list
  | _, _ => None
  end.

(** [sort[sortBy] = sortOrder === 'desc' ? -1 : 1]; an absent [sortBy] is
    the property name ["undefined"]. *)
Definition getTasks_sort (q : TaskQuery.t) : SortSpec :=
  {| sort_key := from_opt "undefined" (TaskQuery.sortBy q);
     sort_dir :=
       match TaskQuery.sortOrder q with
       | Some o => if String.eqb o "desc" then (-1) else 1
       | None => 1
       end |}.

(** [.limit(limit * 1)] *)
Definition getTasks_limit (q : TaskQuery.t) : JsNum :=
  js_mul (ToNumber_opt (TaskQuery.limit q)) (Num 1).

(** [.skip((page - 1) * limit)] *)
Definition getTasks_skip (q : TaskQuery.t) : JsNum :=
  js_mul (js_sub (ToNumber_opt (TaskQuery.page q)) (Num 1))
         (ToNumber_opt (TaskQuery.limit q)).

(** How the store reads a skip or limit it is handed. *)
Definition store_count (n : JsNum) : option Z :=
  match n with
  | Num z => Some z
  | NaN => nanAsCount
  end.

(** The cursor's window: skip first, then limit; a limit of 0 is no limit,
    a negative limit is its absolute value, a negative skip is rejected. *)
Definition window {A} (skip limit : JsNum) (rows : list A) : option (list A) :=
  match store_count skip, store_count limit with
  | Some s, Some l =>
      if s <? 0 then None
      else
        let rest := skipn (Z.to_nat s) rows in
        Some (if l =? 0 then rest else firstn (Z.to_nat (Z.abs l)) rest)
  | _, _ => None
  end.

Record Pagination := {
  pg_page : JsNum;
  pg_limit : JsNum;
  pg_total : nat;
  pg_pages : JsNum
}.

Record TaskPage := {
  tp_tasks : list TaskView;
  tp_pagination : Pagination
}.

(** [getTasks] *)
Definition getTasks (q : TaskQuery.t) (db : DB) : Reply TaskPage * DB :=
  match getTasks_query q with
  | None => (Err ServerError server_error, db)
  | Some query =>
      match window (getTasks_skip q) (getTasks_limit q)
                   (sortBy (getTasks_sort q) (find query (tasks db))) with
      | None => (Err ServerError server_error, db)
      | Some rows =>
          let total := countDocuments query (tasks db) in
          (Ok 200%nat
             {| tp_tasks := List.map (populate_task db) rows;
                tp_pagination :=
                  {| pg_page := parseInt (TaskQuery.page q);
                     pg_limit := parseInt (TaskQuery.limit q);
                     pg_total := total;
                     pg_pages :=
                       js_ceil_div (Z.of_nat total)
                                   (ToNumber_opt (TaskQuery.limit q)) |} |},
           db)
      end
  end.

(** A filter on [_id] and [isDeleted: false]. *)
Definition live_by_id (i : ObjectId) : Filter :=
  [Field "_id" (Eq (BOid i)); Field "isDeleted" (Eq (BBool false))].

(** [getTaskById] *)
Definition getTaskById (id : string) (db : DB) : Reply TaskView * DB :=
  match castObjectId id with
  | None => (Err ServerError server_error, db)
  | Some i =>
      match findOne (live_by_id i) (tasks db) with
      | None => (Err NotFound "Task not found", db)
      | Some task => (Ok 200%nat (populate_task db task), db)
      end
  end.

(** [{ $set: updateData }] on a task, with the schema's setters and casts
    and the [updatedAt] timestamp; [None] when a cast fails. *)
Definition Task_set (now : Date) (d : TaskData.t) : option (Task.doc -> Task.doc) :=
  match match TaskData.assignedTo d with
        | Some s => option_map Some (castObjectId s)
        | None => Some None
        end,
        match TaskData.createdBy d with
        | Some v => option_map Some (cast_id v)
        | None => Some None
        end with
  | Some a, Some o =>
      Some (fun t =>
        {| Task._id := Task._id t;
           Task.title := from_opt (Task.title t) (option_map trim (TaskData.title d));
           Task.description :=
             match TaskData.description d with
             | Some s => Some (trim s)
             | None => Task.description t
             end;
           Task.status := from_opt (Task.status t) (TaskData.status d);
           Task.priority := from_opt (Task.priority t) (TaskData.priority d);
           Task.dueDate :=
             match TaskData.dueDate d with
             | Some x => Some x
             | None => Task.dueDate t
             end;
           Task.tags :=
             from_opt (Task.tags t) (option_map (List.map trim) (TaskData.tags d));
           Task.assignedTo :=
             match a with
             | Some x => Some x
             | None => Task.assignedTo t
             end;
           Task.createdBy := from_opt (Task.createdBy t) o;
           Task.isDeleted := Task.isDeleted t;
           Task.deletedAt := Task.deletedAt t;
           Task.createdAt := Task.createdAt t;
           Task.updatedAt := now |})
  | _, _ => None
  end.

(** [runValidators: true]: the validators of the paths being set. *)
Definition Task_set_valid (d : TaskData.t) : bool :=
  match TaskData.title d with
  | Some ti =>
      negb (String.eqb (trim ti) "") && Nat.leb (String.length (trim ti)) 200
  | None => true
  end
  && Task.opt_maxlength 2000 (option_map trim (TaskData.description d))
  && match TaskData.status d with
     | Some s => Task.mem s Task.status_enum
     | None => true
     end
  && match TaskData.priority d with
     | Some p => Task.mem p Task.priority_enum
     | None => true
     end.

(** [updateTask] *)
Definition updateTask (user : User.doc) (now : Date) (id : string)
    (updateData : TaskData.t) (db : DB) : Reply TaskView * DB :=
  match castObjectId id with
  | None => (Err BadRequest "Invalid task ID", db)
  | Some taskId =>
      if truthy (TaskData.assignedTo updateData)
         && negb (isValid (from_opt "" (TaskData.assignedTo updateData)))
      then (Err BadRequest "Invalid assignedTo ID", db)
      else
        match Task_set now updateData with
        | None => (Err ServerError server_error, db)
        | Some u =>
            if negb (Task_set_valid updateData)
            then (Err ServerError server_error, db)
            else
              match findOneAndUpdate (live_by_id taskId) u (tasks db) with
              | (None, _) => (Err NotFound "Task not found", db)
              | (Some task, tasks') =>
                  let db' := set_tasks db tasks' in
                  (Ok 200%nat (populate_task db' task), db')
              end
        end
  end.

(** [{ isDeleted: true, deletedAt: new Date() }], with the timestamp. *)
Definition Task_soft_delete (now : Date) (t : Task.doc) : Task.doc :=
  {| Task._id := Task._id t; Task.title := Task.title t;
     Task.description := Task.description t; Task.status := Task.status t;
     Task.priority := Task.priority t; Task.dueDate := Task.dueDate t;
     Task.tags := Task.tags t; Task.assignedTo := Task.assignedTo t;
     Task.createdBy := Task.createdBy t;
     Task.isDeleted := true; Task.deletedAt := Some now;
     Task.createdAt := Task.createdAt t; Task.updatedAt := now |}.

(** [deleteTask] *)
Definition deleteTask (user : User.doc) (now : Date) (id : string) (db : DB)
    : Reply string * DB :=
  match castObjectId id with
  | None => (Err ServerError server_error, db)
  | Some i =>
      match findOneAndUpdate (live_by_id i) (Task_soft_delete now) (tasks db) with
      | (None, _) => (Err NotFound "Task not found", db)
      | (Some _, tasks') =>
          (Ok 200%nat "Task deleted successfully", set_tasks db tasks')
      end
  end.
End TaskController.

(** ** [controllers/commentController.js] *)

Section CommentController.
Context `{Env}.

(** [new Comment({ content, task, author })] followed by [save()]. *)
Definition Comment_new (id : ObjectId) (now : Date) (content : option string)
    (task author : ObjectId) : option Comment.doc :=
  match content with
  | None => None
  | Some c =>
      let d :=
        {| Comment._id := id; Comment.content := trim c;
           Comment.task := task; Comment.author := author;
           Comment.isDeleted := false; Comment.deletedAt := None;
           Comment.createdAt := now; Comment.updatedAt := now |} in
      if Comment.validate d then Some d else None
  end.

(** [addComment] *)
Definition addComment (user : User.doc) (now : Date) (taskId : string)
    (content : option string) (db : DB) : Reply CommentView * DB :=
  match castObjectId taskId with
  | None => (Err ServerError server_error, db)
  | Some tid =>
      match findOne (live_by_id tid) (tasks db) with
      | None => (Err NotFound "Task not found", db)
      | Some _ =>
          let '(id, db1) := fresh db in
          match Comment_new id now content tid (User._id user) with
          | None => (Err ServerError server_error, db1)
          | Some comment =>
              let db2 := set_comments db1 (comments db1 ++ [comment])%list in
              (Ok 201%nat (populate_comment db2 comment), db2)
          end
      end
  end.

(** [{ task: taskId, isDeleted: false }] (also the files' filter). *)
Definition live_of_task (tid : ObjectId) : Filter :=
  [Field "task" (Eq (BOid tid)); Field "isDeleted" (Eq (BBool false))].

(** [getComments] *)
Definition getComments (taskId : string) (db : DB)
    : Reply (list CommentView) * DB :=
  match castObjectId taskId with
  | None => (Err ServerError server_error, db)
  | Some tid =>
      match findOne (live_by_id tid) (tasks db) with
      | None => (Err NotFound "Task not found", db)
      | Some _ =>
          (Ok 200%nat
             (List.map (populate_comment db)
                (sortBy {| sort_key := "createdAt"; sort_dir := 1 |}
                   (find (live_of_task tid) (comments db)))),
           db)
      end
  end.

(** [{ _id: req.params.id, author: req.user._id, isDeleted: false }] *)
Definition own_comment (i author : ObjectId) : Filter :=
  [Field "_id" (Eq (BOid i)); Field "author" (Eq (BOid author));
   Field "isDeleted" (Eq (BBool false))].

Definition Comment_set_content (now : Date) (content : option string)
    (c : Comment.doc) : Comment.doc :=
  {| Comment._id := Comment._id c;
     Comment.content := from_opt (Comment.content c) (option_map trim content);
     Comment.task := Comment.task c; Comment.author := Comment.author c;
     Comment.isDeleted := Comment.isDeleted c;
     Comment.deletedAt := Comment.deletedAt c;
     Comment.createdAt := Comment.createdAt c; Comment.updatedAt := now |}.

Definition Comment_set_valid (content : option string) : bool :=
  match content with
  | Some c =>
      negb (String.eqb (trim c) "") && Nat.leb (String.length (trim c)) 1000
  | None => true
  end.

(** [updateComment] *)
Definition updateComment (user : User.doc) (now : Date) (id : string)
    (content : option string) (db : DB) : Reply CommentView * DB :=
  match castObjectId id with
  | None => (Err ServerError server_error, db)
  | Some i =>
      if negb (Comment_set_valid content)
      then (Err ServerError server_error, db)
      else
        match findOneAndUpdate (own_comment i (User._id user))
                (Comment_set_content now content) (comments db) with
        | (None, _) => (Err NotFound "Comment not found or unauthorized", db)
        | (Some comment, comments') =>
            let db' := set_comments db comments' in
            (Ok 200%nat (populate_comment db' comment), db')
        end
  end.

Definition Comment_soft_delete (now : Date) (c : Comment.doc) : Comment.doc :=
  {| Comment._id := Comment._id c; Comment.content := Comment.content c;
     Comment.task := Comment.task c; Comment.author := Comment.author c;
     Comment.isDeleted := true; Comment.deletedAt := Some now;
     Comment.createdAt := Comment.createdAt c; Comment.updatedAt := now |}.

(** [deleteComment] *)
Definition deleteComment (user : User.doc) (now : Date) (id : string) (db : DB)
    : Reply string * DB :=
  match castObjectId id with
  | None => (Err ServerError server_error, db)
  | Some i =>
      match findOneAndUpdate (own_comment i (User._id user))
              (Comment_soft_delete now) (comments db) with
      | (None, _) => (Err NotFound "Comment not found or unauthorized", db)
      | (Some _, comments') =>
          (Ok 200%nat "Comment deleted successfully", set_comments db comments')
      end
  end.
End CommentController.

(** ** [controllers/fileController.js] *)

(** One entry of [req.files], as the upload middleware leaves it. *)
Module Upload.
Record t := mk {
  filename : string;
  originalname : string;
  mimetype : string;
  size : Z;
  path : string
}.
End Upload.

(** What [downloadFile] sends: the two headers and the piped bytes. *)
Record Download := {
  dl_content_type : string;
  dl_filename : string;
  dl_bytes : list Byte.byte
}.

Section FileController.
Context `{Env}.

(** [new File({ ... })] followed by [save()]. *)
Definition File_new (id : ObjectId) (now : Date) (file : Upload.t)
    (task uploadedBy : ObjectId) : option File.doc :=
  let d :=
    {| File._id := id;
       File.filename := Upload.filename file;
       File.originalName := Upload.originalname file;
       File.mimetype := Upload.mimetype file;
       File.size := Upload.size file;
       File.path := Upload.path file;
       File.task := task;
       File.uploadedBy := uploadedBy;
       File.isDeleted := false; File.deletedAt := None;
       File.createdAt := now; File.updatedAt := now |} in
  if File.validate d then Some d else None.

(** The loop of [uploadFiles]: [uploaded] is [uploadedFiles] so far. *)
Fixpoint uploadFiles_loop (user : User.doc) (now : Date) (tid : ObjectId)
    (todo : list Upload.t) (uploaded : list FileView) (db : DB)
    : Reply (list FileView) * DB :=
  match todo with
  | [] => (Ok 201%nat uploaded, db)
  | file :: rest =>
      let '(id, db1) := fresh db in
      match File_new id now file tid (User._id user) with
      | None => (Err ServerError server_error, db1)
      | Some fileDoc =>
          let db2 := set_files db1 (files db1 ++ [fileDoc])%list in
          uploadFiles_loop user now tid rest
            (uploaded ++ [populate_file db2 fileDoc])%list db2
      end
  end.

(** [uploadFiles]; [req_files] is [req.files]. *)
Definition uploadFiles (user : User.doc) (now : Date) (taskId : string)
    (req_files : option (list Upload.t)) (db : DB)
    : Reply (list FileView) * DB :=
  match castObjectId taskId with
  | None => (Err ServerError server_error, db)
  | Some tid =>
      match findOne (live_by_id tid) (tasks db) with
      | None => (Err NotFound "Task not found", db)
      | Some _ =>
          match req_files with
          | None | Some [] => (Err BadRequest "No files uploaded", db)
          | Some l => uploadFiles_loop user now tid l [] db
          end
      end
  end.

(** [.populate('task')]: the referenced task document, deleted or not. *)
Definition populate_parent (db : DB) (x : File.doc) : option Task.doc :=
  List.find (fun t => N.eqb (Task._id t) (File.task x)) (tasks db).

(** [downloadFile] *)
Definition downloadFile (user : User.doc) (id : string) (db : DB)
    : Reply Download * DB :=
  match castObjectId id with
  | None => (Err ServerError server_error, db)
  | Some i =>
      match findOne (live_by_id i) (files db) with
      | None => (Err NotFound "File not found", db)
      | Some file =>
          match populate_parent db file with
          | None => (Err ServerError server_error, db)
          | Some task =>
              if negb (N.eqb (Task.createdBy task) (User._id user))
                 && negb match Task.assignedTo task with
                         | Some a => N.eqb a (User._id user)
                         | None => false
                         end
              then (Err Forbidden "Access denied", db)
              else
                match disk db !! File.path file with
                | None => (Err NotFound "File not found on disk", db)
                | Some bytes =>
                    (Ok 200%nat
                       {| dl_content_type := File.mimetype file;
                          dl_filename := File.originalName file;
                          dl_bytes := bytes |},
                     db)
                end
          end
      end
  end.

(** [getFilesForTask] *)
Definition getFilesForTask (taskId : string) (db : DB)
    : Reply (list FileView) * DB :=
  match castObjectId taskId with
  | None => (Err ServerError server_error, db)
  | Some tid =>
      match findOne (live_by_id tid) (tasks db) with
      | None => (Err NotFound "Task not found", db)
      | Some _ =>
          (Ok 200%nat
             (List.map (populate_file db)
                (sortBy {| sort_key := "createdAt"; sort_dir := (-1) |}
                   (find (live_of_task tid) (files db)))),
           db)
      end
  end.

Definition File_soft_delete (now : Date) (x : File.doc) : File.doc :=
  {| File._id := File._id x; File.filename := File.filename x;
     File.originalName := File.originalName x; File.mimetype := File.mimetype x;
     File.size := File.size x; File.path := File.path x;
     File.task := File.task x; File.uploadedBy := File.uploadedBy x;
     File.isDeleted := true; File.deletedAt := Some now;
     File.createdAt := File.createdAt x; File.updatedAt := now |}.

(** [file.save()] of a loaded document: the stored document with the same
    [_id] is replaced. *)
Fixpoint File_save (x : File.doc) (coll : list File.doc) : list File.doc :=
  match coll with
  | [] => []
  | y :: rest =>
      if N.eqb (File._id y) (File._id x) then x :: rest
      else y :: File_save x rest
  end.

(** [deleteFile] *)
Definition deleteFile (user : User.doc) (now : Date) (id : string) (db : DB)
    : Reply string * DB :=
  match castObjectId id with
  | None => (Err ServerError server_error, db)
  | Some i =>
      match findOne (live_by_id i) (files db) with
      | None => (Err NotFound "File not found", db)
      | Some file =>
          match populate_parent db file with
          | None => (Err ServerError server_error, db)
          | Some task =>
              if negb (N.eqb (File.uploadedBy file) (User._id user))
                 && negb (N.eqb (Task.createdBy task) (User._id user))
              then (Err Forbidden "Access denied", db)
              else
                let file' := File_soft_delete now file in
                if negb (File.validate file')
                then (Err ServerError server_error, db)
                else
                  let db1 := set_files db (File_save file' (files db)) in
                  let db2 :=
                    match disk db1 !! File.path file with
                    | Some _ => set_disk db1 (delete (File.path file) (disk db1))
                    | None => db1
                    end in
                  (Ok 200%nat "File deleted successfully", db2)
          end
      end
  end.
End FileController.

(** ** [controllers/analyticsController.js] *)

(** One output row of a [$group] stage with [count: { $sum: 1 }]. *)
Record GroupCount := { g_id : string; g_count : nat }.

(** Count one more document under [k]. *)
Fixpoint bump (k : string) (acc : list GroupCount) : list GroupCount :=
  match acc with
  | [] => [{| g_id := k; g_count := 1 |}]
  | g :: rest =>
      if String.eqb (g_id g) k
      then {| g_id := k; g_count := S (g_count g) |} :: rest
      else g :: bump k rest
  end.

(** [{ $group: { _id: '$key', count: { $sum: 1 } } }]: one row per distinct
    key value, with the number of documents that carry it. *)
Fixpoint group_count {A} (key : A -> string) (docs : list A) : list GroupCount :=
  match docs with
  | [] => []
  | d :: rest => bump (key d) (group_count key rest)
  end.

(** [stats.reduce((acc, stat) => { acc[stat._id] = stat.count; return acc }, {})] *)
Definition to_statusMap (stats : list GroupCount) : gmap string nat :=
  fold_left (fun acc stat => <[g_id stat := g_count stat]> acc) stats ∅.

(** [statusMap.key || 0] *)
Definition or_zero (v : option nat) : nat :=
  match v with
  | Some n => n
  | None => 0
  end.

Record Overview := {
  totalTasks : nat;
  completedTasks : nat;
  pendingTasks : nat;
  inProgressTasks : nat;
  overdueTasks : nat
}.

(** One row of [getPerformance]; the two ratios are JavaScript numbers,
    computed here over the rationals. *)
Record Performance := {
  pf_userId : ObjectId;
  pf_username : string;
  pf_totalTasks : nat;
  pf_completedTasks : nat;
  pf_completionRate : Q;
  pf_averageCompletionTime : Q
}.

Definition sumZ (l : list Z) : Z := fold_right Z.add 0 l.

(** [{ $group: { _id: null, avgDuration: { $avg: '$duration' } } }]: no
    row on empty input, else the one row's average. *)
Definition group_avg (durations : list Z) : list Q :=
  match durations with
  | [] => []
  | _ => [Qmake (sumZ durations) (Pos.of_nat (length durations))]
  end.

Section AnalyticsController.
Context `{Env}.

Definition matchFilter : Filter := [Field "isDeleted" (Eq (BBool false))].

(** [getOverview]; the handler also aggregates the counts by priority,
    which it does not send. *)
Definition getOverview (now : Date) (db : DB) : Reply Overview * DB :=
  let statusStats := group_count Task.status (find matchFilter (tasks db)) in
  let overdue :=
    countDocuments
      (matchFilter ++ [Field "dueDate" (Lt (BDate now));
                       Field "status" (Ne (BStr "done"))])%list
      (tasks db) in
  let statusMap := to_statusMap statusStats in
  (Ok 200%nat
     {| totalTasks := fold_left (fun sum stat => (sum + g_count stat)%nat) statusStats 0%nat;
        completedTasks := or_zero (statusMap !! "done");
        pendingTasks := or_zero (statusMap !! "todo");
        inProgressTasks := or_zero (statusMap !! "in-progress");
        overdueTasks := overdue |},
   db).

Definition assigned_to (u : ObjectId) : Filter :=
  [Field "assignedTo" (Eq (BOid u)); Field "isDeleted" (Eq (BBool false))].

Definition completed_by (u : ObjectId) : Filter :=
  [Field "assignedTo" (Eq (BOid u)); Field "status" (Eq (BStr "done"));
   Field "isDeleted" (Eq (BBool false))].

(** The row [getPerformance] computes for one user (it also counts the
    tasks the user created, which the row does not carry). *)
Definition performance_of (db : DB) (user : User.doc) : Performance :=
  let assignedTasks := countDocuments (assigned_to (User._id user)) (tasks db) in
  let completedTasks := countDocuments (completed_by (User._id user)) (tasks db) in
  let avgCompletionTime :=
    group_avg
      (List.map (fun t => Task.updatedAt t - Task.createdAt t)
         (find (completed_by (User._id user)) (tasks db))) in
  {| pf_userId := User._id user;
     pf_username := User.username user;
     pf_totalTasks := assignedTasks;
     pf_completedTasks := completedTasks;
     pf_completionRate :=
       if Nat.ltb 0 assignedTasks
       then (inject_Z (Z.of_nat completedTasks)
               / inject_Z (Z.of_nat assignedTasks) * inject_Z 100)%Q
       else 0%Q;
     pf_averageCompletionTime :=
       match avgCompletionTime with
       | avgDuration :: _ =>
           (avgDuration / inject_Z (1000 * 60 * 60 * 24))%Q
       | [] => 0%Q
       end |}.

(** [getPerformance]: [User.find({})] mapped to rows. *)
Definition getPerformance (db : DB) : Reply (list Performance) * DB :=
  (Ok 200%nat (List.map (performance_of db) (find [] (users db))), db).
End AnalyticsController.

Section ExportController.
Context `{Env}.

(** The tasks [exportTasks] renders (as JSON, or row by row as CSV). *)
Definition exportTasks_tasks (user : User.doc) (db : DB) : list TaskView :=
  let userId := User._id user in
  let isAdmin := String.eqb (User.role user) "admin" in
  let matchFilter :=
    if isAdmin then [Field "isDeleted" (Eq (BBool false))]
    else [Field "isDeleted" (Eq (BBool false));
          Or [ [("createdBy", Eq (BOid userId))];
               [("assignedTo", Eq (BOid userId))] ]] in
  List.map (populate_task db)
    (sortBy {| sort_key := "createdAt"; sort_dir := (-1) |}
       (find matchFilter (tasks db))).
End ExportController.

(** What the store and the runtime render and the repository does not:
    [$dateToString] of the aggregation pipeline under a format, and the
    string [Array.prototype.join] makes of a date and of an ObjectId. *)
Class Formats := {
  dateToString : string -> Date -> string;
  date_toString : Date -> string;
  oid_toString : ObjectId -> string
}.

(** One row of [getTrends]. *)
Record Trend := { tr_date : string; tr_created : nat; tr_completed : nat }.

#[global] Instance trend_document : Document Trend := fun r f =>
  if String.eqb f "date" then BStr (tr_date r)
  else if String.eqb f "created" then BNum (Z.of_nat (tr_created r))
  else if String.eqb f "completed" then BNum (Z.of_nat (tr_completed r))
  else BUndef.

(** Count one more document under [k]; [done] is what
    [$cond: [{ $eq: ['$status', 'done'] }, 1, 0]] gives for it. *)
Fixpoint bump_trend (k : string) (done : nat) (acc : list Trend) : list Trend :=
  match acc with
  | [] => [{| tr_date := k; tr_created := 1; tr_completed := done |}]
  | g :: rest =>
      if String.eqb (tr_date g) k
      then {| tr_date := k; tr_created := S (tr_created g);
              tr_completed := (done + tr_completed g)%nat |} :: rest
      else g :: bump_trend k done rest
  end.

(** The [$group] and [$project] stages of [getTrends]. *)
Fixpoint group_trend (key : Task.doc -> string) (docs : list Task.doc)
    : list Trend :=
  match docs with
  | [] => []
  | d :: rest =>
      bump_trend (key d) (if String.eqb (Task.status d) "done" then 1 else 0)%nat
        (group_trend key rest)
  end.

(** The [switch (period)] of [getTrends], [period] defaulting to ['month']. *)
Definition trends_format (period : option string) : string :=
  let period := from_opt "month" period in
  if String.eqb period "day" then "%Y-%m-%d"
  else if String.eqb period "week" then "%Y-%U"
  else "%Y-%m".

Inductive Export :=
| ExportJson (tasks : list TaskView)
| ExportCsv (csvString : string).

(** [Object.keys(csvData[0])] *)
Definition csv_keys : list string :=
  ["id"; "title"; "description"; "status"; "priority"; "dueDate";
   "assignedTo"; "createdBy"; "createdAt"; "updatedAt"].

Definition newline : string := String (ascii_of_nat 10) EmptyString.

Section AnalyticsReports.
Context `{Env} `{Formats}.

(** [getTrends] *)
Definition getTrends (period : option string) (db : DB)
    : Reply (list Trend) * DB :=
  let groupBy := dateToString (trends_format period) in
  (Ok 200%nat
     (sortBy {| sort_key := "date"; sort_dir := 1 |}
        (group_trend (fun t => groupBy (Task.createdAt t))
           (find matchFilter (tasks db)))),
   db).

(** The values of one element of [csvData], as [join] renders them
    ([undefined] and [null] as the empty string); [None] when
    [task.createdBy] is [null], whose [firstName] cannot be read. *)
Definition csv_values (task : TaskView) : option (list string) :=
  match tv_createdBy task with
  | None => None
  | Some c =>
      Some [oid_toString (Task._id (tv_doc task));
            Task.title (tv_doc task);
            from_opt "" (Task.description (tv_doc task));
            Task.status (tv_doc task);
            Task.priority (tv_doc task);
            from_opt "" (option_map date_toString (Task.dueDate (tv_doc task)));
            match tv_assignedTo task with
            | Some a => ref_firstName a ++ " " ++ ref_lastName a
            | None => ""
            end;
            ref_firstName c ++ " " ++ ref_lastName c;
            date_toString (Task.createdAt (tv_doc task));
            date_toString (Task.updatedAt (tv_doc task))]
  end.

(** [tasks.map(task => ({ ... }))], which throws at the first task it
    cannot render. *)
Fixpoint csvData (tasks : list TaskView) : option (list (list string)) :=
  match tasks with
  | [] => Some []
  | task :: rest =>
      match csv_values task with
      | None => None
      | Some row =>
          match csvData rest with
          | None => None
          | Some rows => Some (row :: rows)
          end
      end
  end.

(** [exportTasks]; [format] is [req.query.format]. *)
Definition exportTasks (user : User.doc) (format : option string) (db : DB)
    : Reply Export * DB :=
  let tasks := exportTasks_tasks user db in
  if String.eqb (from_opt "json" format) "csv"
  then
    match csvData tasks with
    | None => (Err ServerError server_error, db)
    | Some [] => (Err ServerError server_error, db)
    | Some rows =>
        (Ok 200%nat
           (ExportCsv
              (String.concat newline
                 (String.concat "," csv_keys
                  :: List.map (String.concat ",") rows))),
         db)
    end
  else (Ok 200%nat (ExportJson tasks), db).
End AnalyticsReports.

(** ** Routes ([routes/tasks.js], [routes/comments.js]): the middleware in
    front of the handlers, after [auth] has resolved [req.user]. *)

Section Routes.
Context `{Env}.

(** [router.post('/', auth, validate(taskSchema), createTask)] *)
Definition post_task (user : User.doc) (now : Date) :=
  validate taskSchema (createTask user now).

(** [router.get('/', auth, validateQuery(taskQuerySchema), getTasks)] *)
Definition get_tasks := validateQuery taskQuerySchema getTasks.

(** [router.put('/:id', auth, validate(updateTaskSchema), updateTask)] *)
Definition put_task (user : User.doc) (now : Date) (id : string) :=
  validate updateTaskSchema (updateTask user now id).

(** [router.post('/:taskId', auth, validate(commentSchema), addComment)] *)
Definition post_comment (user : User.doc) (now : Date) (taskId : string) :=
  validate commentSchema (addComment user now taskId).

(** [router.put('/:id', auth, validate(commentSchema), updateComment)] *)
Definition put_comment (user : User.doc) (now : Date) (id : string) :=
  validate commentSchema (updateComment user now id).
End Routes.

(** ** The React client (frontend/src/components)

    A component's state is a record of its [useState] cells; a handler is
    a function from the state it closes over to the state after the
    updates it queues. *)

(** [prev.filter((_, i) => i !== index)] *)
Fixpoint filter_index {A} (p : nat -> bool) (i : nat) (l : list A) : list A :=
  match l with
  | [] => []
  | x :: rest =>
      if p i then x :: filter_index p (S i) rest
      else filter_index p (S i) rest
  end.

(** [l.includes(s)] *)
Definition includes (l : list string) (s : string) : bool :=
  existsb (String.eqb s) l.

(** *** [FileUpload.tsx] *)
Module FileUpload.
(** A browser [File]: its [name], [size] and [type]. *)
Record LocalFile := { name : string; size : Z; type : string }.

Record state := { files : list LocalFile; error : string }.

Definition maxSize : Z := 10 * 1024 * 1024.

Definition allowedTypes : list string :=
  ["image/jpeg"; "image/png"; "image/gif"; "application/pdf"; "text/plain";
   "application/msword";
   "application/vnd.openxmlformats-officedocument.wordprocessingml.document"].

(** The filter callback of [validateAndSetFiles]: the error it sets when
    it returns [false], [None] when it returns [true]. *)
Definition rejection (file : LocalFile) : option string :=
  if size file >? maxSize
  then Some ("File " ++ name file ++ " is too large. Maximum size is 10MB.")
  else if negb (includes allowedTypes (type file))
  then Some ("File type " ++ type file ++ " is not allowed for "
             ++ name file ++ ".")
  else None.

(** [validateAndSetFiles]: the last [setError] of the event wins. *)
Definition validateAndSetFiles (selectedFiles : list LocalFile) (st : state)
    : state :=
  let validFiles :=
    List.filter (fun file => match rejection file with
                             | None => true
                             | Some _ => false
                             end) selectedFiles in
  let error1 :=
    fold_left (fun e file => match rejection file with
                             | Some m => m
                             | None => e
                             end) selectedFiles (error st) in
  if (0 <? length validFiles)%nat
  then {| files := (files st ++ validFiles)%list; error := "" |}
  else {| files := files st; error := error1 |}.

(** [removeFile] *)
Definition removeFile (index : nat) (st : state) : state :=
  {| files := filter_index (fun i => negb (Nat.eqb i index)) 0 (files st);
     error := error st |}.

(** What the user does to the queue: pick or drop files, or take one out. *)
Inductive Event :=
| Select (selectedFiles : list LocalFile)
| Remove (index : nat).

Definition fire (e : Event) (st : state) : state :=
  match e with
  | Select l => validateAndSetFiles l st
  | Remove i => removeFile i st
  end.

(** [useState([])], [useState('')] *)
Definition init : state := {| files := []; error := "" |}.
End FileUpload.

(** *** [BulkCreateTasks.tsx] *)
Module BulkForm.
Record TaskData := {
  title : string;
  description : string;
  status : string;
  priority : string;
  dueDate : string;
  assignedTo : string;
  tags : list string
}.

Record state := { tasks : list TaskData; tagInputs : list string }.

Definition blank : TaskData :=
  {| title := ""; description := ""; status := "todo"; priority := "medium";
     dueDate := ""; assignedTo := ""; tags := [] |}.

Definition init : state := {| tasks := [blank]; tagInputs := [""] |}.

(** The [field] and [value] of an [updateTask] call. *)
Inductive FieldValue :=
| Title (v : string)
| Description (v : string)
| Status (v : string)
| Priority (v : string)
| DueDate (v : string)
| AssignedTo (v : string)
| Tags (v : list string).

(** [{ ...task, [field]: value }] *)
Definition set_field (t : TaskData) (fv : FieldValue) : TaskData :=
  match fv with
  | Title v =>
      {| title := v; description := description t; status := status t;
         priority := priority t; dueDate := dueDate t;
         assignedTo := assignedTo t; tags := tags t |}
  | Description v =>
      {| title := title t; description := v; status := status t;
         priority := priority t; dueDate := dueDate t;
         assignedTo := assignedTo t; tags := tags t |}
  | Status v =>
      {| title := title t; description := description t; status := v;
         priority := priority t; dueDate := dueDate t;
         assignedTo := assignedTo t; tags := tags t |}
  | Priority v =>
      {| title := title t; description := description t; status := status t;
         priority := v; dueDate := dueDate t;
         assignedTo := assignedTo t; tags := tags t |}
  | DueDate v =>
      {| title := title t; description := description t; status := status t;
         priority := priority t; dueDate := v;
         assignedTo := assignedTo t; tags := tags t |}
  | AssignedTo v =>
      {| title := title t; description := description t; status := status t;
         priority := priority t; dueDate := dueDate t;
         assignedTo := v; tags := tags t |}
  | Tags v =>
      {| title := title t; description := description t; status := status t;
         priority := priority t; dueDate := dueDate t;
         assignedTo := assignedTo t; tags := v |}
  end.

(** [addTask] *)
Definition addTask (st : state) : state :=
  {| tasks := (tasks st ++ [blank])%list;
     tagInputs := (tagInputs st ++ [""])%list |}.

(** [removeTask] *)
Definition removeTask (index : nat) (st : state) : state :=
  {| tasks := filter_index (fun i => negb (Nat.eqb i index)) 0 (tasks st);
     tagInputs :=
       filter_index (fun i => negb (Nat.eqb i index)) 0 (tagInputs st) |}.

(** The handlers below index the two arrays with the number of a card
    the form renders; they answer [None] for another index, which the
    form never passes. *)

(** [updateTask] *)
Definition updateTask (index : nat) (fv : FieldValue) (st : state)
    : option state :=
  match tasks st !! index with
  | Some t =>
      Some {| tasks := <[index := set_field t fv]> (tasks st);
              tagInputs := tagInputs st |}
  | None => None
  end.

(** [updateTagInput] *)
Definition updateTagInput (taskIndex : nat) (value : string) (st : state)
    : option state :=
  match tagInputs st !! taskIndex with
  | Some _ =>
      Some {| tasks := tasks st;
              tagInputs := <[taskIndex := value]> (tagInputs st) |}
  | None => None
  end.

(** [addTag]: both updates start from the state the handler closed over
    and write different cells. *)
Definition addTag (taskIndex : nat) (st : state) : option state :=
  match tagInputs st !! taskIndex, tasks st !! taskIndex with
  | Some tagInput, Some t =>
      if negb (String.eqb (trim tagInput) "")
         && negb (includes (tags t) (trim tagInput))
      then
        Some {| tasks :=
                  <[taskIndex :=
                      set_field t (Tags (tags t ++ [trim tagInput])%list)]>
                    (tasks st);
                tagInputs := <[taskIndex := ""]> (tagInputs st) |}
      else Some st
  | _, _ => None
  end.

(** [removeTag] *)
Definition removeTag (taskIndex : nat) (tagToRemove : string) (st : state)
    : option state :=
  match tasks st !! taskIndex with
  | Some t =>
      updateTask taskIndex
        (Tags (List.filter (fun tag => negb (String.eqb tag tagToRemove))
                 (tags t))) st
  | None => None
  end.

(** The controls of the rendered form. *)
Inductive Event :=
| AddAnotherTask
| RemoveCard (index : nat)
| Type_title (index : nat) (v : string)
| Type_description (index : nat) (v : string)
| Pick_status (index : nat) (v : string)
| Pick_priority (index : nat) (v : string)
| Pick_dueDate (index : nat) (v : string)
| Pick_assignedTo (index : nat) (v : string)
| Type_tag (index : nat) (v : string)
| AddTag (index : nat)
| RemoveTag (index : nat) (tag : string).

(** The handler a control calls; [None] when the form does not render
    the control: there is a [Remove] button only with more than one card,
    and the controls of card [index] only when there is such a card. *)
Definition fire (e : Event) (st : state) : option state :=
  match e with
  | AddAnotherTask => Some (addTask st)
  | RemoveCard i =>
      if (1 <? length (tasks st))%nat && (i <? length (tasks st))%nat
      then Some (removeTask i st)
      else None
  | Type_title i v => updateTask i (Title v) st
  | Type_description i v => updateTask i (Description v) st
  | Pick_status i v => updateTask i (Status v) st
  | Pick_priority i v => updateTask i (Priority v) st
  | Pick_dueDate i v => updateTask i (DueDate v) st
  | Pick_assignedTo i v => updateTask i (AssignedTo v) st
  | Type_tag i v =>
      if (i <? length (tasks st))%nat then updateTagInput i v st else None
  | AddTag i => if (i <? length (tasks st))%nat then addTag i st else None
  | RemoveTag i tag =>
      match tasks st !! i with
      | Some t => if includes (tags t) tag then removeTag i tag st else None
      | None => None
      end
  end.


End BulkForm.

(** *** [TaskList.tsx] *)
Module TaskList.
Definition tasksPerPage : Z := 10.

(** The [filters] prop. *)
Record Filters := {
  status : option string;
  priority : option string;
  assignedTo : option string;
  search : option string
}.

(** The [params] of [fetchTasks]; [page] and [tasksPerPage] are numbers,
    which the HTTP client sends in decimal. *)
Definition params (filters : Filters) (searchTerm sortBy sortOrder : string)
    (page : string) : TaskQuery.t :=
  TaskQuery.mk (status filters) (priority filters) (assignedTo filters)
    (if String.eqb searchTerm "" then None else Some searchTerm)
    (Some page) (Some "10") (Some sortBy) (Some sortOrder).

(** [Math.ceil(allTasks.length / tasksPerPage)] *)
Definition totalPages {A} (allTasks : list A) : Z :=
  - ((- Z.of_nat (length allTasks)) / tasksPerPage).

(** [totalPages > 1 &&]: whether the pagination bar is rendered. *)
Definition pagination_shown {A} (allTasks : list A) : bool :=
  totalPages allTasks >? 1.
End TaskList.

(** ** Store invariants *)

(** [_id] is unique within each collection (the store's [_id] index). *)
Definition unique_ids (db : DB) : Prop :=
  List.NoDup (List.map Task._id (tasks db))
  /\ List.NoDup (List.map Comment._id (comments db))
  /\ List.NoDup (List.map File._id (files db)).

(** Ids handed out so far lie below the generator's next value. *)
Definition ids_below_next (db : DB) : Prop :=
  Forall (fun i => (i < nextId db)%N) (List.map Task._id (tasks db))
  /\ Forall (fun i => (i < nextId db)%N) (List.map Comment._id (comments db))
  /\ Forall (fun i => (i < nextId db)%N) (List.map File._id (files db)).

(** Every file names a stored task (deleted or not) as its parent. *)
Definition files_have_parent (db : DB) : Prop :=
  Forall (fun p => In p (List.map Task._id (tasks db)))
         (List.map File.task (files db)).

(** What holds of every store the handlers can produce from an empty one. *)
Definition store_ok (db : DB) : Prop :=
  unique_ids db /\ ids_below_next db /\ files_have_parent db.

Definition empty_store : DB :=
  {| users := []; tasks := []; comments := []; files := [];
     disk := ∅; nextId := 0 |}.

(** ** A concrete environment and store, for evaluating the handlers *)

Module Demo.

Definition lower (c : ascii) : ascii :=
  let n := nat_of_ascii c in
  if (Nat.leb 65 n && Nat.leb n 90)%bool then ascii_of_nat (n + 32) else c.

Fixpoint lowercase (s : string) : string :=
  match s with
  | EmptyString => EmptyString
  | String c s' => String (lower c) (lowercase s')
  end.

Fixpoint contains (needle hay : string) : bool :=
  String.prefix needle hay
  || match hay with
     | EmptyString => false
     | String _ hay' => contains needle hay'
     end.

(** Ids are written in decimal; a pattern without metacharacters matches
    as a substring, ["("] is a pattern that does not compile; a [NaN]
    count is read as 0. *)
#[global] Instance env : Env := {|
  castObjectId s :=
    match s with
    | EmptyString => None
    | _ => option_map Z.to_N (digits s 0)
    end;
  regexCompile p flags :=
    if String.eqb p "(" then None
    else if String.eqb flags "i"
         then Some (fun s => contains (lowercase p) (lowercase s))
         else Some (contains p);
  nanAsCount := Some 0
|}.

Definition alice : User.doc :=
  User.mk 1 "alice" "Alice" "A" "user" true.
Definition bob : User.doc :=
  User.mk 2 "bob" "Bob" "B" "user" true.
Definition root : User.doc :=
  User.mk 3 "root" "Root" "R" "admin" true.
Definition carol : User.doc :=
  User.mk 4 "carol" "Carol" "C" "user" true.

Definition day : Z := 1000 * 60 * 60 * 24.

(** Alice's tasks: 10 is assigned to Bob and done, 11 is overdue,
    12 is already deleted. *)
Definition t10 : Task.doc :=
  Task.mk 10 "Write report" (Some "Quarterly numbers") "done" "high"
    (Some (5 * day)) ["Finance"; "q3"] (Some 2%N) 1 false None 0 (2 * day).
Definition t11 : Task.doc :=
  Task.mk 11 "Fix login" None "todo" "urgent"
    (Some (1 * day)) ["bug"] (Some 2%N) 1 false None day day.
Definition t12 : Task.doc :=
  Task.mk 12 "Old task" None "in-progress" "low"
    None [] None 1 true (Some (3 * day)) 0 (3 * day).
Definition t13 : Task.doc :=
  Task.mk 13 "Plan report" (Some "outline") "in-progress" "medium"
    None [] None 2 false None (2 * day) (2 * day).

Definition c20 : Comment.doc :=
  Comment.mk 20 "looks good" 10 1 false None day day.

Definition f30 : File.doc :=
  File.mk 30 "f30.pdf" "report.pdf" "application/pdf" 3 "uploads/f30.pdf"
    10 4 false None day day.

Definition db0 : DB :=
  {| users := [alice; bob; root; carol];
     tasks := [t10; t11; t12; t13];
     comments := [c20];
     files := [f30];
     disk := {[ "uploads/f30.pdf" := [Byte.x25; Byte.x50; Byte.x44] ]};
     nextId := 100 |}.

Definition now0 : Date := 4 * day.

Definition no_query : TaskQuery.t :=
  TaskQuery.mk None None None None None None None None.




Definition body (title : string) (assignedTo : option string) : TaskData.t :=
  TaskData.mk (Some title) None None None None None assignedTo None.

(** A body that also submits an owner. *)
Definition body_with_owner (title : string) (owner : string) : TaskData.t :=
  TaskData.mk (Some title) None None None None None None (Some (Raw owner)).

Definition upload (name : string) : Upload.t :=
  Upload.mk name name "text/plain" 1 ("uploads/" ++ name).

End Demo.

(** ** The vocabulary of the specification: the predicates and counts in
    which the properties below are stated. *)

Section Vocabulary.
Context `{Env}.

Definition live_task (t : Task.doc) : bool := negb (Task.isDeleted t).

Definition count_where {A} (p : A -> bool) (l : list A) : nat :=
  length (List.filter p l).

Definition group_total (stats : list GroupCount) : nat :=
  fold_right (fun stat sum => (g_count stat + sum)%nat) 0%nat stats.

Definition group_lookup (k : string) (stats : list GroupCount) : option nat :=
  option_map g_count (List.find (fun g => String.eqb (g_id g) k) stats).

(** Due in the past and not done. *)
Definition overdue_at (now : Date) (t : Task.doc) : bool :=
  match Task.dueDate t with
  | Some d => d <? now
  | None => false
  end
  && negb (String.eqb (Task.status t) "done").

Definition has_status (s : string) (t : Task.doc) : bool :=
  String.eqb (Task.status t) s.

(** Not deleted and assigned to [u]. *)
Definition assigned_live (u : ObjectId) (t : Task.doc) : bool :=
  live_task t
  && match Task.assignedTo t with
     | Some a => N.eqb a u
     | None => false
     end.

(** The completed tasks among them. *)
Definition done_live (u : ObjectId) (t : Task.doc) : bool :=
  assigned_live u t && has_status "done" t.

(** [updatedAt - createdAt] of the completed tasks assigned to [u]. *)
Definition cycle_times (u : ObjectId) (l : list Task.doc) : list Z :=
  List.map (fun t => Task.updatedAt t - Task.createdAt t)
           (List.filter (done_live u) l).

Definition ms_per_day : Z := 1000 * 60 * 60 * 24.

(** What the specification asks of the row of user [u]. *)
Definition performance_row_ok (db : DB) (r : Performance) : Prop :=
  let assigned := count_where (assigned_live (pf_userId r)) (tasks db) in
  let completed := count_where (done_live (pf_userId r)) (tasks db) in
  pf_totalTasks r = assigned
  /\ pf_completedTasks r = completed
  /\ (assigned = 0%nat -> pf_completionRate r = 0%Q)
  /\ ((0 < assigned)%nat ->
      (pf_completionRate r
       == inject_Z (Z.of_nat completed) / inject_Z (Z.of_nat assigned)
          * inject_Z 100)%Q)
  /\ (completed = 0%nat -> pf_averageCompletionTime r = 0%Q)
  /\ ((0 < completed)%nat ->
      (pf_averageCompletionTime r
       == inject_Z (sumZ (cycle_times (pf_userId r) (tasks db)))
          / inject_Z (Z.of_nat completed) / inject_Z ms_per_day)%Q).

(** A query that passes [taskQuerySchema] has no empty parameter among the
    filters, and its page and limit, when present, are integers in range. *)
Record validated (q : TaskQuery.t) : Prop := {
  v_status : joi_opt (joi_string "status" None false (Some Task.status_enum))
               (TaskQuery.status q) = None;
  v_priority : joi_opt (joi_string "priority" None false (Some Task.priority_enum))
                 (TaskQuery.priority q) = None;
  v_assignedTo : joi_opt (joi_string "assignedTo" None false None)
                   (TaskQuery.assignedTo q) = None;
  v_search : joi_opt (joi_string "search" None false None)
               (TaskQuery.search q) = None;
  v_page : joi_opt (joi_integer "page" 1 None) (TaskQuery.page q) = None;
  v_limit : joi_opt (joi_integer "limit" 1 (Some 100)) (TaskQuery.limit q) = None
}.




(** The owner a view shows, stored and populated, is [u]. *)
Definition task_owned_by (u : ObjectId) (v : TaskView) : Prop :=
  Task.createdBy (tv_doc v) = u
  /\ forall r, tv_createdBy v = Some r -> ref_id r = u.



(** The record of id [i] is in storage, flagged and stamped. *)
Definition task_soft_deleted (i : ObjectId) (now : Date) (db : DB) : Prop :=
  exists t, In t (tasks db) /\ Task._id t = i
            /\ Task.isDeleted t = true /\ Task.deletedAt t = Some now.

Definition comment_soft_deleted (i : ObjectId) (now : Date) (db : DB) : Prop :=
  exists c, In c (comments db) /\ Comment._id c = i
            /\ Comment.isDeleted c = true /\ Comment.deletedAt c = Some now.

Definition file_soft_deleted (i : ObjectId) (now : Date) (db : DB) : Prop :=
  exists x, In x (files db) /\ File._id x = i
            /\ File.isDeleted x = true /\ File.deletedAt x = Some now.

(** No list query shows the task of id [i] and a fetch by id is NotFound. *)
Definition task_hidden (i : ObjectId) (db : DB) : Prop :=
  (forall q code page db',
     getTasks q db = (Ok code page, db') ->
     forall r, In r (tp_tasks page) -> Task._id (tv_doc r) <> i)
  /\ (forall user r,
        In r (exportTasks_tasks user db) -> Task._id (tv_doc r) <> i)
  /\ (forall id, castObjectId id = Some i ->
        getTaskById id db = (Err NotFound "Task not found", db)).

(** The comment list does not show the comment of id [i]; the handlers
    that address a comment by id answer NotFound. *)
Definition comment_hidden (i : ObjectId) (db : DB) : Prop :=
  (forall taskId code l db',
     getComments taskId db = (Ok code l, db') ->
     forall r, In r l -> Comment._id (cv_doc r) <> i)
  /\ (forall id user now content,
        castObjectId id = Some i -> Comment_set_valid content = true ->
        updateComment user now id content db
        = (Err NotFound "Comment not found or unauthorized", db))
  /\ (forall id user now,
        castObjectId id = Some i ->
        deleteComment user now id db
        = (Err NotFound "Comment not found or unauthorized", db)).

(** The file list does not show the file of id [i]; a download by id is
    NotFound, and so is a second delete. *)
Definition file_hidden (i : ObjectId) (db : DB) : Prop :=
  (forall taskId code l db',
     getFilesForTask taskId db = (Ok code l, db') ->
     forall r, In r l -> File._id (fv_doc r) <> i)
  /\ (forall id user, castObjectId id = Some i ->
        downloadFile user id db = (Err NotFound "File not found", db))
  /\ (forall id user now, castObjectId id = Some i ->
        deleteFile user now id db = (Err NotFound "File not found", db)).

Definition is_admin (user : User.doc) : bool := String.eqb (User.role user) "admin".

(** The record's owner or an administrator. *)
Definition owner_or_admin (user : User.doc) (owner : ObjectId) : bool :=
  N.eqb owner (User._id user) || is_admin user.

(** The update passes the handler's id check, casts and validators. *)
Definition update_accepted (now : Date) (d : TaskData.t) : Prop :=
  truthy (TaskData.assignedTo d)
  && negb (isValid (from_opt "" (TaskData.assignedTo d))) = false
  /\ Task_set now d <> None
  /\ Task_set_valid d = true.

(** The ownership rule as the specification words it, for the requests of
    [user] against [db]: on a stored, non-deleted record, update and delete
    are Forbidden to anyone but the owner and the administrators, and
    succeed for those. *)
Definition ownership_rule (db : DB) (user : User.doc) (now : Date) : Prop :=
  (forall id i t, castObjectId id = Some i ->
     findOne (live_by_id i) (tasks db) = Some t ->
     if owner_or_admin user (Task.createdBy t)
     then code_of (fst (deleteTask user now id db)) = 200%nat
          /\ forall d, update_accepted now d ->
               code_of (fst (updateTask user now id d db)) = 200%nat
     else code_of (fst (deleteTask user now id db)) = Forbidden
          /\ forall d, code_of (fst (updateTask user now id d db)) = Forbidden)
  /\ (forall id i c, castObjectId id = Some i ->
        findOne (live_by_id i) (comments db) = Some c ->
        if owner_or_admin user (Comment.author c)
        then code_of (fst (deleteComment user now id db)) = 200%nat
             /\ forall content, Comment_set_valid content = true ->
                  code_of (fst (updateComment user now id content db)) = 200%nat
        else code_of (fst (deleteComment user now id db)) = Forbidden
             /\ forall content,
                  code_of (fst (updateComment user now id content db)) = Forbidden)
  /\ (forall id i x, castObjectId id = Some i ->
        findOne (live_by_id i) (files db) = Some x ->
        if owner_or_admin user (File.uploadedBy x)
        then code_of (fst (deleteFile user now id db)) = 200%nat
        else code_of (fst (deleteFile user now id db)) = Forbidden).

(** A decimal numeral as a query string carries an integer: decimal digits,
    at most fifteen, without a leading zero (["0"] apart), after an
    optional minus sign.  On these [ToNumber] is JavaScript's [Number] and
    [joi_integer] is Joi's integer rule. *)
Definition all_digits (s : string) : bool :=
  forallb (fun c => match digit_of c with Some _ => true | None => false end)
          (list_ascii_of_string s).

Definition unsigned_numeral (s : string) : bool :=
  match s with
  | EmptyString => false
  | String c rest =>
      if Ascii.eqb c "0" then String.eqb rest ""
      else all_digits s && Nat.leb (String.length s) 15
  end.

Definition decimal_numeral (s : string) : bool :=
  match s with
  | EmptyString => false
  | String c rest =>
      if Ascii.eqb c "-"
      then match rest with
           | EmptyString => false
           | String d _ => negb (Ascii.eqb d "0") && unsigned_numeral rest
           end
      else unsigned_numeral s
  end.

(** [x] may come before [y] under the sort specification [s]. *)
Definition ordered {A} `{Document A} (s : SortSpec) (x y : A) : Prop :=
  before s x y = true.



(** A file of the client's upload policy: at most 10 MiB, of a listed type. *)
Definition acceptable (f : FileUpload.LocalFile) : bool :=
  (FileUpload.size f <=? FileUpload.maxSize)
  && includes FileUpload.allowedTypes (FileUpload.type f).




End Vocabulary.

(** * Properties *)

(** ** Facts about the store operations *)

Section StoreFacts.
Context `{Env} {A : Type} `{Document A}.

Lemma find_In (q : Filter) (coll : list A) (d : A) :
  In d (find q coll) <-> In d coll /\ matches q d = true.
Proof. unfold find. apply filter_In. Qed.

Lemma findOne_Some (q : Filter) (coll : list A) (d : A) :
  findOne q coll = Some d -> In d coll /\ matches q d = true.
Proof. unfold findOne. apply find_some. Qed.

Lemma findOne_None (q : Filter) (coll : list A) :
  findOne q coll = None -> forall d, In d coll -> matches q d = false.
Proof. unfold findOne. apply find_none. Qed.

Lemma findOne_None_iff (q : Filter) (coll : list A) :
  findOne q coll = None <-> (forall d, In d coll -> matches q d = false).
Proof.
  split; [apply findOne_None|].
  induction coll as [|x l IH]; intros Hall; [reflexivity|].
  unfold findOne in *. simpl.
  rewrite (Hall x (or_introl eq_refl)).
  apply IH. intros d Hd. apply Hall. now right.
Qed.

(** [findOneAndUpdate] rewrites the document [findOne] returns, in place. *)
Lemma findOneAndUpdate_Some (q : Filter) (u : A -> A) (coll : list A) r coll' :
  findOneAndUpdate q u coll = (Some r, coll') ->
  exists l1 d l2,
    coll = (l1 ++ d :: l2)%list /\ coll' = (l1 ++ u d :: l2)%list /\ r = u d
    /\ matches q d = true /\ (forall x, In x l1 -> matches q x = false)
    /\ findOne q coll = Some d.
Proof.
  revert r coll'. induction coll as [|x l IH]; intros r coll' E; simpl in E.
  - discriminate.
  - destruct (matches q x) eqn:Hx.
    + inversion E; subst. exists [], x, l. simpl.
      unfold findOne. simpl. rewrite Hx.
      split; [reflexivity|]. split; [reflexivity|]. split; [reflexivity|].
      split; [reflexivity|]. split; [|reflexivity].
      intros y Hy. destruct Hy.
    + destruct (findOneAndUpdate q u l) as [r0 l'] eqn:El.
      inversion E; subst.
      destruct (IH _ _ eq_refl) as (l1 & d & l2 & -> & -> & -> & Hd & Hl1 & Hf).
      exists (x :: l1), d, l2. simpl.
      split; [reflexivity|]. split; [reflexivity|]. split; [reflexivity|].
      split; [exact Hd|]. split.
      * intros y [<-|Hy]; auto.
      * unfold findOne in *. simpl. rewrite Hx. exact Hf.
Qed.

Lemma findOneAndUpdate_None (q : Filter) (u : A -> A) (coll : list A) coll' :
  findOneAndUpdate q u coll = (None, coll') ->
  coll' = coll /\ findOne q coll = None.
Proof.
  revert coll'. induction coll as [|x l IH]; intros coll' E; simpl in E.
  - inversion E. auto.
  - destruct (matches q x) eqn:Hx; [discriminate|].
    destruct (findOneAndUpdate q u l) as [r0 l'] eqn:El.
    inversion E; subst.
    destruct (IH _ eq_refl) as [-> Hf].
    split; [reflexivity|]. unfold findOne in *. simpl. now rewrite Hx.
Qed.

Lemma findOneAndUpdate_of_findOne (q : Filter) (u : A -> A) (coll : list A) d :
  findOne q coll = Some d ->
  exists coll', findOneAndUpdate q u coll = (Some (u d), coll').
Proof.
  induction coll as [|x l IH]; unfold findOne; simpl; [discriminate|].
  destruct (matches q x) eqn:Hx.
  - intros [= ->]. eauto.
  - intros Hf. destruct (IH Hf) as [coll' ->]. eauto.
Qed.

Lemma findOneAndUpdate_of_None (q : Filter) (u : A -> A) (coll : list A) :
  findOne q coll = None -> findOneAndUpdate q u coll = (None, coll).
Proof.
  induction coll as [|x l IH]; unfold findOne; simpl; [reflexivity|].
  destruct (matches q x) eqn:Hx; [discriminate|].
  intros Hf. now rewrite (IH Hf).
Qed.

(** *** Sorting permutes *)

Lemma insert_sorted_perm (s : SortSpec) (x : A) (l : list A) :
  Permutation (insert_sorted s x l) (x :: l).
Proof.
  induction l as [|y l IH]; simpl; [reflexivity|].
  destruct (before s x y); [reflexivity|].
  rewrite IH. apply perm_swap.
Qed.

Lemma sortBy_perm (s : SortSpec) (l : list A) : Permutation (sortBy s l) l.
Proof.
  induction l as [|x l IH]; simpl; [reflexivity|].
  unfold sortBy in *. simpl. rewrite insert_sorted_perm. now constructor.
Qed.

Lemma sortBy_In (s : SortSpec) (l : list A) (x : A) :
  In x (sortBy s l) <-> In x l.
Proof.
  split; apply Permutation_in; [|symmetry]; apply sortBy_perm.
Qed.

End StoreFacts.

Lemma In_skipn {A} (n : nat) (l : list A) (x : A) : In x (skipn n l) -> In x l.
Proof.
  revert l; induction n as [|n IH]; intros [|y l]; simpl; auto.
Qed.

Lemma In_firstn {A} (n : nat) (l : list A) (x : A) : In x (firstn n l) -> In x l.
Proof.
  revert l; induction n as [|n IH]; intros [|y l]; simpl; try tauto.
  intros [->|Hx]; auto.
Qed.

(** ** What the handlers' filters select *)

Section FilterFacts.
Context `{Env}.

Lemma eqb_false_negb (b : bool) : Bool.eqb b false = negb b.
Proof. now destruct b. Qed.

Lemma matches_live_task (i : ObjectId) (t : Task.doc) :
  matches (live_by_id i) t = N.eqb (Task._id t) i && negb (Task.isDeleted t).
Proof. cbn. now rewrite eqb_false_negb, andb_true_r. Qed.

Lemma matches_live_comment (i : ObjectId) (c : Comment.doc) :
  matches (live_by_id i) c = N.eqb (Comment._id c) i && negb (Comment.isDeleted c).
Proof. cbn. now rewrite eqb_false_negb, andb_true_r. Qed.

Lemma matches_live_file (i : ObjectId) (x : File.doc) :
  matches (live_by_id i) x = N.eqb (File._id x) i && negb (File.isDeleted x).
Proof. cbn. now rewrite eqb_false_negb, andb_true_r. Qed.

Lemma matches_own_comment (i a : ObjectId) (c : Comment.doc) :
  matches (own_comment i a) c
  = N.eqb (Comment._id c) i && (N.eqb (Comment.author c) a
                                && negb (Comment.isDeleted c)).
Proof. cbn. now rewrite eqb_false_negb, andb_true_r. Qed.

Lemma matches_comments_of_task (tid : ObjectId) (c : Comment.doc) :
  matches (live_of_task tid) c
  = N.eqb (Comment.task c) tid && negb (Comment.isDeleted c).
Proof. cbn. now rewrite eqb_false_negb, andb_true_r. Qed.

Lemma matches_files_of_task (tid : ObjectId) (x : File.doc) :
  matches (live_of_task tid) x = N.eqb (File.task x) tid && negb (File.isDeleted x).
Proof. cbn. now rewrite eqb_false_negb, andb_true_r. Qed.

Lemma matches_matchFilter (t : Task.doc) : matches matchFilter t = live_task t.
Proof. cbn. now rewrite eqb_false_negb, andb_true_r. Qed.

Lemma matches_all_users (u : User.doc) : matches [] u = true.
Proof. reflexivity. Qed.
End FilterFacts.

(** ** Facts about [$group] and [reduce] *)

Lemma group_total_bump (k : string) (acc : list GroupCount) :
  group_total (bump k acc) = S (group_total acc).
Proof.
  induction acc as [|g acc IH]; simpl; [reflexivity|].
  destruct (String.eqb (g_id g) k); simpl; [reflexivity|].
  rewrite IH. lia.
Qed.

Lemma group_total_count {A} (key : A -> string) (l : list A) :
  group_total (group_count key l) = length l.
Proof.
  induction l as [|d l IH]; simpl; [reflexivity|].
  now rewrite group_total_bump, IH.
Qed.

Lemma fold_left_sum (stats : list GroupCount) (a : nat) :
  fold_left (fun sum stat => (sum + g_count stat)%nat) stats a
  = (a + group_total stats)%nat.
Proof.
  revert a. induction stats as [|g stats IH]; intros a; simpl; [lia|].
  rewrite IH. lia.
Qed.

Lemma group_lookup_bump (k k' : string) (acc : list GroupCount) :
  group_lookup k (bump k' acc)
  = if String.eqb k' k then Some (S (or_zero (group_lookup k acc)))
    else group_lookup k acc.
Proof.
  unfold group_lookup.
  induction acc as [|g acc IH]; simpl.
  - destruct (String.eqb k' k); reflexivity.
  - destruct (String.eqb_spec (g_id g) k') as [<-|Hne]; simpl.
    + destruct (String.eqb (g_id g) k); reflexivity.
    + destruct (String.eqb_spec (g_id g) k) as [<-|Hk]; simpl.
      * apply String.eqb_neq in Hne. rewrite String.eqb_sym in Hne.
        now rewrite Hne.
      * exact IH.
Qed.

Lemma group_lookup_count {A} (key : A -> string) (k : string) (l : list A) :
  or_zero (group_lookup k (group_count key l))
  = count_where (fun d => String.eqb (key d) k) l.
Proof.
  unfold count_where.
  induction l as [|d l IH]; simpl; [reflexivity|].
  rewrite group_lookup_bump.
  destruct (String.eqb (key d) k); simpl; now rewrite IH.
Qed.

Lemma bump_keys (k : string) (acc : list GroupCount) (x : string) :
  In x (List.map g_id (bump k acc)) <-> x = k \/ In x (List.map g_id acc).
Proof.
  induction acc as [|g acc IH]; simpl; [intuition|].
  destruct (String.eqb_spec (g_id g) k) as [E|Hne]; simpl.
  - rewrite E. intuition.
  - rewrite IH. intuition.
Qed.

Lemma bump_NoDup (k : string) (acc : list GroupCount) :
  List.NoDup (List.map g_id acc) -> List.NoDup (List.map g_id (bump k acc)).
Proof.
  induction acc as [|g acc IH]; simpl; intros Hnd.
  - constructor; [intros []|constructor].
  - inversion Hnd as [|? ? Hnotin Hnd']; subst.
    destruct (String.eqb_spec (g_id g) k) as [E|Hne]; simpl.
    + constructor; [now rewrite <- E|assumption].
    + constructor; [|auto].
      rewrite bump_keys. intros [E|Hin]; [congruence|contradiction].
Qed.

Lemma group_count_NoDup {A} (key : A -> string) (l : list A) :
  List.NoDup (List.map g_id (group_count key l)).
Proof.
  induction l as [|d l IH]; simpl; [constructor|]. now apply bump_NoDup.
Qed.

Lemma group_lookup_notin (k : string) (stats : list GroupCount) :
  ~ In k (List.map g_id stats) -> group_lookup k stats = None.
Proof.
  unfold group_lookup.
  induction stats as [|g stats IH]; simpl; intros Hn; [reflexivity|].
  destruct (String.eqb_spec (g_id g) k) as [E|Hne]; [tauto|].
  apply IH. tauto.
Qed.

(** With distinct group keys, the reduced object holds each group's count. *)
Lemma reduce_lookup (stats : list GroupCount) (m : gmap string nat) (k : string) :
  List.NoDup (List.map g_id stats) ->
  fold_left (fun acc stat => <[g_id stat := g_count stat]> acc) stats m !! k
  = match group_lookup k stats with
    | Some n => Some n
    | None => m !! k
    end.
Proof.
  revert m. induction stats as [|g stats IH]; intros m Hnd; simpl.
  - reflexivity.
  - inversion Hnd as [|? ? Hnotin Hnd']; subst.
    rewrite (IH _ Hnd'). unfold group_lookup at 2. simpl.
    destruct (String.eqb_spec (g_id g) k) as [E|Hne]; simpl.
    + subst k. rewrite (group_lookup_notin _ _ Hnotin).
      apply lookup_insert_eq.
    + fold (group_lookup k stats).
      destruct (group_lookup k stats); [reflexivity|].
      now apply lookup_insert_ne.
Qed.

Lemma statusMap_count {A} (key : A -> string) (k : string) (l : list A) :
  or_zero (to_statusMap (group_count key l) !! k)
  = count_where (fun d => String.eqb (key d) k) l.
Proof.
  unfold to_statusMap.
  rewrite reduce_lookup by apply group_count_NoDup.
  rewrite <- group_lookup_count.
  destruct (group_lookup k (group_count key l)); [reflexivity|].
  now rewrite lookup_empty.
Qed.

Lemma filter_filter_and {A} (p q : A -> bool) (l : list A) :
  List.filter q (List.filter p l) = List.filter (fun x => p x && q x) l.
Proof.
  induction l as [|x l IH]; simpl; [reflexivity|].
  destruct (p x); simpl; [destruct (q x)|]; now rewrite IH.
Qed.

(** ** Overview analytics *)

Section OverviewFacts.
Context `{Env}.

Lemma matches_overdue (now : Date) (t : Task.doc) :
  matches (matchFilter ++ [Field "dueDate" (Lt (BDate now));
                           Field "status" (Ne (BStr "done"))])%list t
  = live_task t && overdue_at now t.
Proof.
  unfold live_task, overdue_at. cbn. rewrite eqb_false_negb, andb_true_r.
  destruct (Task.dueDate t); reflexivity.
Qed.

Lemma find_matchFilter (l : list Task.doc) :
  find matchFilter l = List.filter live_task l.
Proof. unfold find. apply filter_ext. intros t. apply matches_matchFilter. Qed.

(** C8: the overview is a flat record of five counts over the non-deleted
    tasks: [totalTasks] counts them all, [completedTasks] those with status
    done, [pendingTasks] those with status todo, [inProgressTasks] those with
    status in-progress, and [overdueTasks] those due before the time of the
    call whose status is not done. *)
Theorem overview_counts (now : Date) (db : DB) :
  getOverview now db
  = (Ok 200%nat
       {| totalTasks := count_where live_task (tasks db);
          completedTasks :=
            count_where (fun t => live_task t && has_status "done" t) (tasks db);
          pendingTasks :=
            count_where (fun t => live_task t && has_status "todo" t) (tasks db);
          inProgressTasks :=
            count_where (fun t => live_task t && has_status "in-progress" t)
                        (tasks db);
          overdueTasks :=
            count_where (fun t => live_task t && overdue_at now t) (tasks db) |},
     db).
Proof.
  unfold getOverview. rewrite find_matchFilter.
  rewrite fold_left_sum, group_total_count, !statusMap_count.
  unfold countDocuments, find, count_where at 1 2 3. rewrite !filter_filter_and.
  rewrite (filter_ext _ _ (matches_overdue now)).
  reflexivity.
Qed.
End OverviewFacts.

(** ** Performance analytics *)

Section PerformanceFacts.
Context `{Env}.

Lemma matches_assigned_to (u : ObjectId) (t : Task.doc) :
  matches (assigned_to u) t = assigned_live u t.
Proof.
  unfold assigned_live, live_task. cbn. rewrite eqb_false_negb, andb_true_r.
  destruct (Task.assignedTo t); cbn; [apply andb_comm|].
  now rewrite andb_false_r.
Qed.

Lemma matches_completed_by (u : ObjectId) (t : Task.doc) :
  matches (completed_by u) t = done_live u t.
Proof.
  unfold done_live, assigned_live, live_task, has_status. cbn.
  rewrite eqb_false_negb, andb_true_r.
  destruct (Task.assignedTo t); cbn.
  - destruct (N.eqb o u), (String.eqb (Task.status t) "done"),
      (Task.isDeleted t); reflexivity.
  - now rewrite andb_false_r.
Qed.

Lemma find_all_users (l : list User.doc) : find [] l = l.
Proof.
  unfold find. induction l as [|u l IH]; simpl; [reflexivity|].
  now rewrite IH.
Qed.

Lemma Qmake_as_division (z : Z) (n : nat) :
  (0 < n)%nat ->
  (Qmake z (Pos.of_nat n) == inject_Z z / inject_Z (Z.of_nat n))%Q.
Proof.
  intros Hn. rewrite Qmake_Qdiv.
  replace (Z.pos (Pos.of_nat n)) with (Z.of_nat n); [reflexivity|].
  destruct n as [|n]; [lia|].
  now rewrite <- Pos.of_nat_succ, Zpos_P_of_succ_nat, Nat2Z.inj_succ.
Qed.

Lemma performance_of_ok (db : DB) (user : User.doc) :
  performance_row_ok db (performance_of db user).
Proof.
  unfold performance_row_ok, performance_of. cbn [pf_userId pf_totalTasks
    pf_completedTasks pf_completionRate pf_averageCompletionTime].
  unfold countDocuments, find.
  rewrite (filter_ext _ _ (matches_assigned_to (User._id user))).
  rewrite (filter_ext _ _ (matches_completed_by (User._id user))).
  fold (count_where (assigned_live (User._id user)) (tasks db)).
  fold (count_where (done_live (User._id user)) (tasks db)).
  fold (cycle_times (User._id user) (tasks db)).
  set (a := count_where (assigned_live (User._id user)) (tasks db)).
  assert (Hlen : length (cycle_times (User._id user) (tasks db))
                 = count_where (done_live (User._id user)) (tasks db)).
  { unfold cycle_times, count_where. apply length_map. }
  set (c := count_where (done_live (User._id user)) (tasks db)) in *.
  split; [reflexivity|]. split; [reflexivity|].
  split; [intros ->; reflexivity|].
  split.
  { intros Ha. destruct (Nat.ltb_spec 0 a); [reflexivity|lia]. }
  unfold group_avg.
  destruct (cycle_times (User._id user) (tasks db)) as [|z zs] eqn:E.
  - split; [reflexivity|]. simpl in Hlen. lia.
  - split; [simpl in Hlen; lia|]. intros Hc.
    rewrite Hlen. rewrite (Qmake_as_division _ c Hc). reflexivity.
Qed.

End PerformanceFacts.

(** ** The task list: validation, filter, window *)

Lemma first_error_None (l : list (option string)) :
  first_error l = None -> forall e, In e l -> e = None.
Proof.
  induction l as [|[m|] l IH]; simpl; intros Hl e He.
  - contradiction.
  - discriminate.
  - destruct He as [<-|He]; auto.
Qed.

Lemma joi_string_nonempty key maxlen valid (v : option string) :
  joi_opt (joi_string key maxlen false valid) v = None -> truthy v = 
  match v with Some _ => true | None => false end.
Proof.
  destruct v as [[|c s]|]; simpl; try reflexivity.
  unfold joi_string. simpl. discriminate.
Qed.

Lemma taskQuerySchema_validated (q : TaskQuery.t) (v : TaskQueryValue.t) :
  taskQuerySchema q = JoiValue v -> validated q.
Proof.
  unfold taskQuerySchema.
  match goal with |- context [first_error ?l] =>
    destruct (first_error l) eqn:E; [discriminate|] end.
  intros _. pose proof (first_error_None _ E) as Hall.
  constructor; apply Hall; simpl; tauto.
Qed.

Lemma joi_integer_range key lo hi (s : string) :
  joi_integer key lo hi s = None ->
  exists z, ToNumber s = Num z /\ s <> "" /\ lo <= z
            /\ match hi with Some h => z <= h | None => True end.
Proof.
  unfold joi_integer. destruct s as [|c s]; [discriminate|].
  destruct (ToNumber (String c s)) as [z|]; [|discriminate].
  destruct (Z.ltb_spec z lo); [discriminate|].
  destruct hi as [h|].
  - destruct (Z.ltb_spec h z); [discriminate|]. intros _. exists z.
    repeat split; auto; discriminate.
  - intros _. exists z. repeat split; auto; discriminate.
Qed.

(** The bounds of the schema hold of every page and limit a client
    supplies to a query that is let through. *)
Lemma validated_page_limit (q : TaskQuery.t) (v : TaskQueryValue.t) :
  taskQuerySchema q = JoiValue v ->
  (forall s, TaskQuery.page q = Some s -> exists p, ToNumber s = Num p /\ 1 <= p)
  /\ (forall s, TaskQuery.limit q = Some s ->
        exists l, ToNumber s = Num l /\ 1 <= l <= 100).
Proof.
  intros Hv. destruct (taskQuerySchema_validated _ _ Hv) as [_ _ _ _ Hp Hl].
  split; intros s Hs.
  - rewrite Hs in Hp. destruct (joi_integer_range _ _ _ _ Hp) as (z & ? & ? & ? & _).
    eauto.
  - rewrite Hs in Hl. destruct (joi_integer_range _ _ _ _ Hl) as (z & ? & ? & ? & ?).
    exists z. auto with zarith.
Qed.

Section TaskListFacts.
Context `{Env}.


End TaskListFacts.


Lemma map_doc_populate (db : DB) (l : list Task.doc) :
  List.map tv_doc (List.map (populate_task db) l) = l.
Proof. rewrite map_map. apply map_id. Qed.

Section PaginationFacts.
Context `{Env}.



End PaginationFacts.



(** ** Defaults of the task list query *)

Section DefaultsFacts.
Context `{Env}.

(** Without a page or without a limit, the skip handed to the store is
    [NaN]; without a limit, so is the limit. *)
Lemma getTasks_absent_page_or_limit (q : TaskQuery.t) :
  (TaskQuery.page q = None \/ TaskQuery.limit q = None ->
   getTasks_skip q = NaN)
  /\ (TaskQuery.limit q = None -> getTasks_limit q = NaN).
Proof.
  unfold getTasks_skip, getTasks_limit. split.
  - intros [-> | ->]; cbn; [reflexivity|].
    now destruct (js_sub _ _).
  - intros ->. reflexivity.
Qed.

(** C4, at [GET /tasks] without parameters: the schema accepts the query
    and its value carries page 1, limit 10, sortBy createdAt and sortOrder
    desc, yet the handler runs on the query as it came in: the limit and the
    skip it hands to the store are [NaN], the sort key is ["undefined"]
    ascending, and the page, limit and pages of a reply are [NaN]. *)
Theorem getTasks_defaults_dropped :
  taskQuerySchema Demo.no_query
  = JoiValue (TaskQueryValue.mk None None None None 1 10 "createdAt" "desc")
  /\ (forall db, get_tasks Demo.no_query db = getTasks Demo.no_query db)
  /\ getTasks_limit Demo.no_query = NaN
  /\ getTasks_skip Demo.no_query = NaN
  /\ getTasks_sort Demo.no_query = {| sort_key := "undefined"; sort_dir := 1 |}
  /\ (forall db code page db',
        getTasks Demo.no_query db = (Ok code page, db') ->
        tp_pagination page
        = {| pg_page := NaN; pg_limit := NaN;
             pg_total := count_where live_task (tasks db);
             pg_pages := NaN |}).
Proof.
  split; [reflexivity|]. split; [reflexivity|]. split; [reflexivity|].
  split; [reflexivity|]. split; [reflexivity|].
  intros db code page db'. unfold getTasks.
  change (getTasks_query Demo.no_query) with (Some matchFilter).
  cbv beta iota.
  match goal with |- context [window ?s ?l ?rows] =>
    destruct (window s l rows) end; [|discriminate].
  intros [= <- <- <-]. cbn [tp_pagination]. unfold countDocuments.
  now rewrite find_matchFilter.
Qed.
End DefaultsFacts.

(** ** Creation: ownership and the bulk loop *)

Lemma populate_user_id (db : DB) (i : ObjectId) (r : UserRef) :
  populate_user db i = Some r -> ref_id r = i.
Proof.
  unfold populate_user.
  destruct (List.find _ (users db)) as [u|] eqn:E; [|discriminate].
  intros [= <-]. apply find_some in E as [_ E]. now apply N.eqb_eq in E.
Qed.

Section CreationFacts.
Context `{Env}.

Lemma Task_new_owner (id u : ObjectId) (now : Date) (d : TaskData.t) (t : Task.doc) :
  Task_new id now (TaskData.with_createdBy d (Oid u)) = Some t ->
  Task.createdBy t = u /\ Task._id t = id /\ Task.isDeleted t = false.
Proof.
  unfold Task_new. cbn [TaskData.with_createdBy TaskData.title
    TaskData.createdBy TaskData.assignedTo cast_id].
  destruct (TaskData.title d); [|discriminate].
  destruct (match TaskData.assignedTo d with
            | Some s => option_map Some (castObjectId s)
            | None => Some None
            end); [|discriminate].
  match goal with |- context [Task.validate ?x] => destruct (Task.validate x) end;
    [|discriminate].
  intros [= <-]. auto.
Qed.

Lemma populate_task_owned (db : DB) (t : Task.doc) :
  task_owned_by (Task.createdBy t) (populate_task db t).
Proof. split; [reflexivity|]. intros r. apply populate_user_id. Qed.

(** A successful run of the loop appended one owned task per input. *)
Lemma bulkCreateTasks_loop_Ok (user : User.doc) (now : Date) (l : list TaskData.t) :
  forall created db code views db',
    bulkCreateTasks_loop user now l created db = (Ok code views, db') ->
    exists new,
      views = (created ++ new)%list
      /\ length new = length l
      /\ tasks db' = (tasks db ++ List.map tv_doc new)%list
      /\ Forall (task_owned_by (User._id user)) new.
Proof.
  induction l as [|d l IH]; intros created db code views db' E; simpl in E.
  - injection E as <- <- <-. exists []. simpl. rewrite !app_nil_r. auto.
  - destruct (truthy _ && negb _); [discriminate|].
    destruct (Task_new _ _ _) as [t|] eqn:Et; [|discriminate].
    apply IH in E as (new & -> & Hlen & Htasks & Hall).
    exists (populate_task
              (set_tasks (snd (fresh db)) (tasks (snd (fresh db)) ++ [t])%list)
              t :: new).
    split; [now rewrite <- app_assoc|].
    split; [simpl; lia|].
    split; [rewrite Htasks; simpl; now rewrite <- app_assoc|].
    constructor; [|exact Hall].
    apply Task_new_owner in Et as (<- & _). apply populate_task_owned.
Qed.

(** The loop on [good ++ rest] continues from where the loop on [good]
    ends. *)
Lemma bulkCreateTasks_loop_app (user : User.doc) (now : Date)
    (good rest : list TaskData.t) :
  forall created db views db1,
    bulkCreateTasks_loop user now good created db = (Ok 201%nat views, db1) ->
    bulkCreateTasks_loop user now (good ++ rest) created db
    = bulkCreateTasks_loop user now rest views db1.
Proof.
  induction good as [|d good IH]; intros created db views db1 E; simpl in *.
  - now injection E as <- <-.
  - destruct (truthy _ && negb _); [discriminate|].
    destruct (Task_new _ _ _) as [t|]; [|discriminate].
    now apply IH.
Qed.

(** C7: when the tasks in front of a failing one have been inserted, the
    request fails (400 for an invalid [assignedTo], 500 when the failing
    task is rejected on save) and the store it leaves holds every task
    inserted before the failure: nothing is rolled back. *)
Theorem bulk_create_not_atomic (user : User.doc) (now : Date)
    (good rest : list TaskData.t) (bad : TaskData.t) (db db1 : DB)
    (views : list TaskView) :
  bulkCreateTasks_loop user now good [] db = (Ok 201%nat views, db1) ->
  (truthy (TaskData.assignedTo bad)
   && negb (isValid (from_opt "" (TaskData.assignedTo bad))) = true
   \/ Task_new (nextId db1) now
        (TaskData.with_createdBy bad (Oid (User._id user))) = None) ->
  exists code message db',
    bulkCreateTasks user now (Some (good ++ bad :: rest)%list) db
    = (Err code message, db')
    /\ (code = BadRequest \/ code = ServerError)
    /\ tasks db' = (tasks db ++ List.map tv_doc views)%list
    /\ length views = length good
    /\ Forall (fun v => In (tv_doc v) (tasks db')) views.
Proof.
  intros Hgood Hbad.
  assert (Hrun : bulkCreateTasks user now (Some (good ++ bad :: rest)%list) db
                 = bulkCreateTasks_loop user now (bad :: rest) views db1).
  { unfold bulkCreateTasks.
    destruct (good ++ bad :: rest)%list eqn:E.
    - destruct good; discriminate.
    - rewrite <- E. now apply bulkCreateTasks_loop_app. }
  destruct (bulkCreateTasks_loop_Ok _ _ _ _ _ _ _ _ Hgood)
    as (new & Hviews & Hlen & Htasks & _).
  simpl in Hviews. subst new.
  assert (Hin : forall d, tasks d = tasks db1 ->
                  Forall (fun v => In (tv_doc v) (tasks d)) views).
  { intros d ->. rewrite Htasks. apply List.Forall_forall. intros v Hv.
    apply in_or_app. right. now apply in_map. }
  rewrite Hrun. cbn [bulkCreateTasks_loop TaskData.with_createdBy
                       TaskData.assignedTo].
  destruct (truthy (TaskData.assignedTo bad)
            && negb (isValid (from_opt "" (TaskData.assignedTo bad)))) eqn:Hid.
  - exists BadRequest, "Invalid assignedTo ID in bulk tasks", db1. auto 6.
  - destruct Hbad as [Hb|Hb]; [discriminate|].
    unfold fresh. 
    change (TaskData.mk (TaskData.title bad) (TaskData.description bad)
              (TaskData.status bad) (TaskData.priority bad)
              (TaskData.dueDate bad) (TaskData.tags bad)
              (TaskData.assignedTo bad) (Some (Oid (User._id user))))
      with (TaskData.with_createdBy bad (Oid (User._id user))).
    rewrite Hb. eexists ServerError, server_error, _.
    split; [reflexivity|]. split; [now right|].
    split; [exact Htasks|]. split; [exact Hlen|]. now apply Hin.
Qed.
End CreationFacts.

(** Bob submits three tasks; the second names an assignee that is no id.
    The request is refused and the first task stays stored. *)
Lemma bulk_create_not_atomic_witness :
  exists code message db',
    bulkCreateTasks Demo.bob Demo.now0
      (Some [Demo.body "a" None; Demo.body "b" (Some "zz"); Demo.body "c" None])
      Demo.db0
    = (Err code message, db')
    /\ length (tasks db') = 5%nat.
Proof.
  destruct (@bulk_create_not_atomic Demo.env Demo.bob Demo.now0
              [Demo.body "a" None] [Demo.body "c" None]
              (Demo.body "b" (Some "zz")) Demo.db0 _ _ eq_refl
              (or_introl eq_refl))
    as (code & message & db' & Hrun & _ & Htasks & _).
  exists code, message, db'. split; [exact Hrun|].
  rewrite Htasks. reflexivity.
Defined.

Section OwnershipOnCreate.
Context `{Env}.


End OwnershipOnCreate.

(** Alice posts a bulk body whose only task claims Bob (id 2) as owner:
    the stored and returned task is Alice's.  The same body sent to
    [POST /tasks] is refused by the schema. *)
Example bulk_create_ignores_submitted_owner :
  exists v db',
    bulkCreateTasks Demo.alice Demo.now0
      (Some [Demo.body_with_owner "mine" "2"]) Demo.db0
    = (Ok 201%nat [v], db')
    /\ Task.createdBy (tv_doc v) = 1%N
    /\ option_map ref_id (tv_createdBy v) = Some 1%N
    /\ In (tv_doc v) (tasks db')
    /\ code_of (fst (post_task Demo.alice Demo.now0
                       (Demo.body_with_owner "mine" "2") Demo.db0))
       = BadRequest.
Proof.
  eexists _, _. split; [vm_compute; reflexivity|].
  vm_compute. intuition.
Qed.

Example create_comment_and_file_owned :
  (exists v db',
     addComment Demo.bob Demo.now0 "10" (Some " hi ") Demo.db0 = (Ok 201%nat v, db')
     /\ Comment.author (cv_doc v) = 2%N /\ Comment.content (cv_doc v) = "hi")
  /\ (exists v db',
        uploadFiles Demo.bob Demo.now0 "10" (Some [Demo.upload "a.txt"]) Demo.db0
        = (Ok 201%nat [v], db')
        /\ File.uploadedBy (fv_doc v) = 2%N).
Proof.
  split; eexists _, _; (split; [vm_compute; reflexivity|]); vm_compute; auto.
Qed.

(** ** Soft deletion *)

(** Replacing, in a collection with unique ids, the document [d] by a
    deleted document of the same id leaves no live document of that id. *)
Section ReplaceByDeleted.
Context {A : Type} (id_of : A -> ObjectId) (deleted : A -> bool).

Lemma replaced_by_deleted (l1 l2 : list A) (d d' x : A) :
  List.NoDup (List.map id_of (l1 ++ d :: l2)) ->
  id_of d' = id_of d -> deleted d' = true ->
  In x (l1 ++ d' :: l2) -> id_of x = id_of d -> deleted x = true.
Proof.
  intros Hnd Hid Hdel Hx Hxi.
  rewrite map_app in Hnd. simpl in Hnd.
  apply NoDup_remove_2 in Hnd.
  apply in_app_or in Hx as [Hx|[<-|Hx]]; [| exact Hdel |].
  - exfalso. apply Hnd. apply in_or_app. left.
    rewrite <- Hxi. now apply in_map.
  - exfalso. apply Hnd. apply in_or_app. right.
    rewrite <- Hxi. now apply in_map.
Qed.

Lemma NoDup_ids_unique (l : list A) (x y : A) :
  List.NoDup (List.map id_of l) -> In x l -> In y l -> id_of x = id_of y -> x = y.
Proof.
  induction l as [|z l IH]; simpl; intros Hnd Hx Hy E; [contradiction|].
  inversion Hnd as [|? ? Hnotin Hnd']; subst.
  destruct Hx as [<-|Hx], Hy as [<-|Hy]; auto.
  - exfalso. apply Hnotin. rewrite E. now apply in_map.
  - exfalso. apply Hnotin. rewrite <- E. now apply in_map.
Qed.
End ReplaceByDeleted.

Lemma File_save_split (x' : File.doc) (l1 l2 : list File.doc) (x : File.doc) :
  List.NoDup (List.map File._id (l1 ++ x :: l2)) ->
  File._id x' = File._id x ->
  File_save x' (l1 ++ x :: l2) = (l1 ++ x' :: l2)%list.
Proof.
  intros Hnd Hid. induction l1 as [|y l1 IH]; simpl in *.
  - now rewrite Hid, N.eqb_refl.
  - inversion Hnd as [|? ? Hnotin Hnd']; subst.
    destruct (N.eqb_spec (File._id y) (File._id x')) as [E|_].
    + exfalso. apply Hnotin. rewrite E, Hid, map_app. apply in_or_app.
      right. now left.
    + now rewrite IH.
Qed.

Section ListQueries.
Context `{Env}.

(** Every row of a [getTasks] reply is a stored task the built filter
    matches. *)
Lemma getTasks_rows (q : TaskQuery.t) (db db' : DB) code page :
  getTasks q db = (Ok code page, db') ->
  exists query,
    getTasks_query q = Some query
    /\ forall r, In r (tp_tasks page) ->
         In (tv_doc r) (tasks db) /\ matches query (tv_doc r) = true.
Proof.
  unfold getTasks. destruct (getTasks_query q) as [query|]; [|discriminate].
  destruct (window _ _ _) as [rows|] eqn:Hw; [|discriminate].
  intros [= <- <- <-]. exists query. split; [reflexivity|].
  cbn [tp_tasks]. intros r Hr. apply in_map_iff in Hr as (t & <- & Ht).
  cbn [populate_task tv_doc]. apply find_In.
  unfold window in Hw.
  destruct (store_count _) as [s|]; [|discriminate].
  destruct (store_count _) as [l|]; [|discriminate].
  destruct (s <? 0); [discriminate|]. injection Hw as <-.
  apply (sortBy_In (getTasks_sort q)).
  destruct (l =? 0); [|apply In_firstn in Ht]; now apply In_skipn in Ht.
Qed.

Lemma getTasks_query_live (q : TaskQuery.t) (query : Filter) (t : Task.doc) :
  getTasks_query q = Some query -> matches query t = true ->
  Task.isDeleted t = false.
Proof.
  unfold getTasks_query.
  destruct (if truthy (TaskQuery.assignedTo q) then _ else _); [|discriminate].
  destruct (if truthy (TaskQuery.search q) then _ else _); [|discriminate].
  intros [= <-]. cbn. rewrite eqb_false_negb.
  destruct (Task.isDeleted t); [discriminate|reflexivity].
Qed.

Lemma exportTasks_rows (user : User.doc) (db : DB) (r : TaskView) :
  In r (exportTasks_tasks user db) ->
  In (tv_doc r) (tasks db) /\ Task.isDeleted (tv_doc r) = false.
Proof.
  unfold exportTasks_tasks. intros Hr.
  apply in_map_iff in Hr as (t & <- & Ht). cbn [populate_task tv_doc].
  apply sortBy_In, find_In in Ht as [Hin Hm]. split; [exact Hin|].
  destruct (String.eqb (User.role user) "admin"); cbn in Hm;
    rewrite eqb_false_negb in Hm;
    destruct (Task.isDeleted t); [discriminate|reflexivity|discriminate|reflexivity].
Qed.

Lemma getComments_rows (taskId : string) (db db' : DB) code l (r : CommentView) :
  getComments taskId db = (Ok code l, db') -> In r l ->
  In (cv_doc r) (comments db) /\ Comment.isDeleted (cv_doc r) = false.
Proof.
  unfold getComments. destruct (castObjectId taskId); [|discriminate].
  destruct (findOne _ _); [|discriminate].
  intros [= <- <- <-] Hr. apply in_map_iff in Hr as (c & <- & Hc).
  cbn [populate_comment cv_doc].
  apply sortBy_In, find_In in Hc as [Hin Hm]. split; [exact Hin|].
  rewrite matches_comments_of_task in Hm.
  destruct (Comment.isDeleted c); [|reflexivity].
  now rewrite andb_false_r in Hm.
Qed.

Lemma getFilesForTask_rows (taskId : string) (db db' : DB) code l (r : FileView) :
  getFilesForTask taskId db = (Ok code l, db') -> In r l ->
  In (fv_doc r) (files db) /\ File.isDeleted (fv_doc r) = false.
Proof.
  unfold getFilesForTask. destruct (castObjectId taskId); [|discriminate].
  destruct (findOne _ _); [|discriminate].
  intros [= <- <- <-] Hr. apply in_map_iff in Hr as (c & <- & Hc).
  cbn [populate_file fv_doc].
  apply sortBy_In, find_In in Hc as [Hin Hm]. split; [exact Hin|].
  rewrite matches_files_of_task in Hm.
  destruct (File.isDeleted c); [|reflexivity].
  now rewrite andb_false_r in Hm.
Qed.
End ListQueries.

Section SoftDelete.
Context `{Env}.

Lemma task_hidden_intro (i : ObjectId) (db : DB) :
  (forall t, In t (tasks db) -> Task._id t = i -> Task.isDeleted t = true) ->
  task_hidden i db.
Proof.
  intros Hdel. split; [|split].
  - intros q code page db' E r Hr Hid.
    destruct (getTasks_rows _ _ _ _ _ E) as (query & Hq & Hrows).
    destruct (Hrows r Hr) as [Hin Hm].
    apply (getTasks_query_live _ _ _ Hq) in Hm.
    rewrite (Hdel _ Hin Hid) in Hm. discriminate.
  - intros user r Hr Hid. apply exportTasks_rows in Hr as [Hin Hlive].
    rewrite (Hdel _ Hin Hid) in Hlive. discriminate.
  - intros id Hid. unfold getTaskById. rewrite Hid.
    rewrite (proj2 (findOne_None_iff (live_by_id i) (tasks db))); [reflexivity|].
    intros t Ht. rewrite matches_live_task.
    destruct (N.eqb_spec (Task._id t) i) as [E|_]; [|reflexivity].
    now rewrite (Hdel _ Ht E).
Qed.

Lemma comment_hidden_intro (i : ObjectId) (db : DB) :
  (forall c, In c (comments db) -> Comment._id c = i ->
             Comment.isDeleted c = true) ->
  comment_hidden i db.
Proof.
  intros Hdel.
  assert (Hnone : forall a, findOne (own_comment i a) (comments db) = None).
  { intros a. apply findOne_None_iff. intros c Hc.
    rewrite matches_own_comment.
    destruct (N.eqb_spec (Comment._id c) i) as [E|_]; [|reflexivity].
    rewrite (Hdel _ Hc E). cbn. apply andb_false_r. }
  split; [|split].
  - intros taskId code l db' E r Hr Hid.
    destruct (getComments_rows _ _ _ _ _ _ E Hr) as [Hin Hlive].
    rewrite (Hdel _ Hin Hid) in Hlive. discriminate.
  - intros id user now content Hid Hv. unfold updateComment.
    rewrite Hid, Hv. cbn [negb].
    now rewrite (findOneAndUpdate_of_None _ _ _ (Hnone _)).
  - intros id user now Hid. unfold deleteComment. rewrite Hid.
    now rewrite (findOneAndUpdate_of_None _ _ _ (Hnone _)).
Qed.

Lemma file_hidden_intro (i : ObjectId) (db : DB) :
  (forall x, In x (files db) -> File._id x = i -> File.isDeleted x = true) ->
  file_hidden i db.
Proof.
  intros Hdel.
  assert (Hnone : findOne (live_by_id i) (files db) = None).
  { apply findOne_None_iff. intros x Hx. rewrite matches_live_file.
    destruct (N.eqb_spec (File._id x) i) as [E|_]; [|reflexivity].
    now rewrite (Hdel _ Hx E). }
  split; [|split].
  - intros taskId code l db' E r Hr Hid.
    destruct (getFilesForTask_rows _ _ _ _ _ _ E Hr) as [Hin Hlive].
    rewrite (Hdel _ Hin Hid) in Hlive. discriminate.
  - intros id user Hid. unfold downloadFile. now rewrite Hid, Hnone.
  - intros id user now Hid. unfold deleteFile. now rewrite Hid, Hnone.
Qed.

(** What a successful [deleteTask] did to the store. *)
Lemma deleteTask_Ok (user : User.doc) (now : Date) (id : string) (db db' : DB)
    code m :
  deleteTask user now id db = (Ok code m, db') ->
  exists i l1 t l2,
    castObjectId id = Some i
    /\ tasks db = (l1 ++ t :: l2)%list
    /\ matches (live_by_id i) t = true
    /\ db' = set_tasks db (l1 ++ Task_soft_delete now t :: l2)%list.
Proof.
  unfold deleteTask. destruct (castObjectId id) as [i|]; [|discriminate].
  destruct (findOneAndUpdate _ _ _) as [[r|] coll'] eqn:E; [|discriminate].
  intros [= <- <- <-].
  apply findOneAndUpdate_Some in E as (l1 & t & l2 & E1 & -> & _ & Hm & _).
  exists i, l1, t, l2. auto.
Qed.

Lemma deleteComment_Ok (user : User.doc) (now : Date) (id : string)
    (db db' : DB) code m :
  deleteComment user now id db = (Ok code m, db') ->
  exists i l1 c l2,
    castObjectId id = Some i
    /\ comments db = (l1 ++ c :: l2)%list
    /\ matches (own_comment i (User._id user)) c = true
    /\ db' = set_comments db (l1 ++ Comment_soft_delete now c :: l2)%list.
Proof.
  unfold deleteComment. destruct (castObjectId id) as [i|]; [|discriminate].
  destruct (findOneAndUpdate _ _ _) as [[r|] coll'] eqn:E; [|discriminate].
  intros [= <- <- <-].
  apply findOneAndUpdate_Some in E as (l1 & t & l2 & E1 & -> & _ & Hm & _).
  exists i, l1, t, l2. auto.
Qed.

Lemma deleteFile_Ok (user : User.doc) (now : Date) (id : string)
    (db db' : DB) code m :
  List.NoDup (List.map File._id (files db)) ->
  deleteFile user now id db = (Ok code m, db') ->
  exists i l1 x l2,
    castObjectId id = Some i
    /\ files db = (l1 ++ x :: l2)%list
    /\ matches (live_by_id i) x = true
    /\ files db' = (l1 ++ File_soft_delete now x :: l2)%list
    /\ tasks db' = tasks db /\ comments db' = comments db.
Proof.
  intros Hnd. unfold deleteFile.
  destruct (castObjectId id) as [i|]; [|discriminate].
  destruct (findOne _ _) as [x|] eqn:Hx; [|discriminate].
  destruct (populate_parent db x) as [t|]; [|discriminate].
  destruct (negb _ && negb _); [discriminate|].
  destruct (negb (File.validate _)); [discriminate|].
  intros E.
  apply findOne_Some in Hx as [Hin Hm].
  apply in_split in Hin as (l1 & l2 & Hsplit).
  exists i, l1, x, l2.
  rewrite Hsplit in Hnd.
  assert (Hsave : File_save (File_soft_delete now x) (files db)
                  = (l1 ++ File_soft_delete now x :: l2)%list).
  { rewrite Hsplit. now apply File_save_split. }
  split; [reflexivity|]. split; [exact Hsplit|]. split; [exact Hm|].
  injection E as <- <- <-. rewrite Hsave.
  destruct (disk _ !! _); cbn; auto.
Qed.
End SoftDelete.

Section SoftDeleteLifecycle.
Context `{Env}.

(** C2: after a successful delete of a task, a comment or a file, the
    record is still stored, with [isDeleted] set and [deletedAt] the time of
    the call, and the collection has lost nothing; the list queries leave it
    out, and fetching it by id answers NotFound. *)
Theorem soft_delete_lifecycle (user : User.doc) (now : Date) (id : string)
    (db : DB) :
  unique_ids db ->
  (forall code m db',
     deleteTask user now id db = (Ok code m, db') ->
     exists i, castObjectId id = Some i
               /\ task_soft_deleted i now db'
               /\ length (tasks db') = length (tasks db)
               /\ task_hidden i db')
  /\ (forall code m db',
        deleteComment user now id db = (Ok code m, db') ->
        exists i, castObjectId id = Some i
                  /\ comment_soft_deleted i now db'
                  /\ length (comments db') = length (comments db)
                  /\ comment_hidden i db')
  /\ (forall code m db',
        deleteFile user now id db = (Ok code m, db') ->
        exists i, castObjectId id = Some i
                  /\ file_soft_deleted i now db'
                  /\ length (files db') = length (files db)
                  /\ file_hidden i db').
Proof.
  intros (Htasks & Hcomments & Hfiles). split; [|split]; intros code m db' E.
  - apply deleteTask_Ok in E as (i & l1 & t & l2 & Hid & Hsplit & Hm & ->).
    rewrite matches_live_task in Hm. apply andb_prop in Hm as [Hi _].
    apply N.eqb_eq in Hi. exists i. split; [exact Hid|].
    cbn [set_tasks tasks]. split; [|split].
    + exists (Task_soft_delete now t). split; [|now cbn].
      apply in_or_app. right. now left.
    + rewrite Hsplit, !length_app. reflexivity.
    + apply task_hidden_intro. cbn [set_tasks tasks]. intros x Hx Hxi.
      rewrite Hsplit in Htasks.
      apply (replaced_by_deleted Task._id Task.isDeleted l1 l2 t
               (Task_soft_delete now t) x Htasks); auto. congruence.
  - apply deleteComment_Ok in E as (i & l1 & c & l2 & Hid & Hsplit & Hm & ->).
    rewrite matches_own_comment in Hm. apply andb_prop in Hm as [Hi _].
    apply N.eqb_eq in Hi. exists i. split; [exact Hid|].
    cbn [set_comments comments]. split; [|split].
    + exists (Comment_soft_delete now c). split; [|now cbn].
      apply in_or_app. right. now left.
    + rewrite Hsplit, !length_app. reflexivity.
    + apply comment_hidden_intro. cbn [set_comments comments]. intros x Hx Hxi.
      rewrite Hsplit in Hcomments.
      apply (replaced_by_deleted Comment._id Comment.isDeleted l1 l2 c
               (Comment_soft_delete now c) x Hcomments); auto. congruence.
  - apply deleteFile_Ok in E
      as (i & l1 & x & l2 & Hid & Hsplit & Hm & Hfiles' & _ & _); [|exact Hfiles].
    rewrite matches_live_file in Hm. apply andb_prop in Hm as [Hi _].
    apply N.eqb_eq in Hi. exists i. split; [exact Hid|].
    split; [|split].
    + exists (File_soft_delete now x). rewrite Hfiles'. split; [|now cbn].
      apply in_or_app. right. now left.
    + rewrite Hfiles', Hsplit, !length_app. reflexivity.
    + apply file_hidden_intro. rewrite Hfiles'. intros y Hy Hyi.
      rewrite Hsplit in Hfiles.
      apply (replaced_by_deleted File._id File.isDeleted l1 l2 x
               (File_soft_delete now x) y Hfiles); auto. congruence.
Qed.
End SoftDeleteLifecycle.

Lemma demo_unique_ids : unique_ids Demo.db0.
Proof.
  repeat split; repeat constructor; simpl; intuition discriminate.
Defined.

(** Alice deletes her task 10: it stays stored, and fetching it is
    NotFound. *)
Lemma soft_delete_lifecycle_witness :
  exists db',
    deleteTask Demo.alice Demo.now0 "10" Demo.db0
    = (Ok 200%nat "Task deleted successfully", db')
    /\ task_soft_deleted 10 Demo.now0 db'
    /\ getTaskById "10" db' = (Err NotFound "Task not found", db').
Proof.
  eexists. split; [reflexivity|].
  destruct (proj1 (@soft_delete_lifecycle Demo.env Demo.alice Demo.now0 "10"
                     Demo.db0 demo_unique_ids) _ _ _ eq_refl)
    as (i & Hid & Hstored & _ & _ & _ & Hfetch).
  injection Hid as <-. split; [exact Hstored|]. now apply Hfetch.
Defined.

(** ** Ownership on update and delete *)

Section Ownership.
Context `{Env}.

Lemma findOne_exists {A} `{Document A} (q : Filter) (coll : list A) (d : A) :
  In d coll -> matches q d = true -> exists d', findOne q coll = Some d'.
Proof.
  intros Hin Hm. destruct (findOne q coll) as [d'|] eqn:E; [eauto|].
  rewrite (findOne_None _ _ E d Hin) in Hm. discriminate.
Qed.

Lemma own_comment_none (db : DB) (i u : ObjectId) (c : Comment.doc) :
  List.NoDup (List.map Comment._id (comments db)) ->
  findOne (live_by_id i) (comments db) = Some c ->
  Comment.author c <> u ->
  findOne (own_comment i u) (comments db) = None.
Proof.
  intros Hnd Hc Hau. apply findOne_Some in Hc as [Hin Hm].
  rewrite matches_live_comment in Hm. apply andb_prop in Hm as [Hi _].
  apply N.eqb_eq in Hi.
  apply findOne_None_iff. intros x Hx. rewrite matches_own_comment.
  destruct (N.eqb_spec (Comment._id x) i) as [E|_]; [|reflexivity].
  assert (x = c) as ->.
  { apply (NoDup_ids_unique Comment._id (comments db)); auto. congruence. }
  destruct (N.eqb_spec (Comment.author c) u); [contradiction|reflexivity].
Qed.

Lemma own_comment_some (db : DB) (i u : ObjectId) (c : Comment.doc) :
  findOne (live_by_id i) (comments db) = Some c ->
  Comment.author c = u ->
  exists c', findOne (own_comment i u) (comments db) = Some c'.
Proof.
  intros Hc Hau. apply findOne_Some in Hc as [Hin Hm].
  apply (findOne_exists _ _ c Hin).
  rewrite matches_live_comment in Hm. rewrite matches_own_comment.
  apply andb_prop in Hm as [-> ->]. now rewrite Hau, N.eqb_refl.
Qed.

(** [updateTask] and [deleteTask] never read [req.user]: whoever asks, a
    stored, non-deleted task is deleted, and updated with whatever passes
    the handler's own checks. *)
Lemma task_handlers_ignore_caller (user : User.doc) (now : Date) (db : DB)
    (id : string) (i : ObjectId) (t : Task.doc) :
  castObjectId id = Some i ->
  findOne (live_by_id i) (tasks db) = Some t ->
  code_of (fst (deleteTask user now id db)) = 200%nat
  /\ forall d, update_accepted now d ->
       code_of (fst (updateTask user now id d db)) = 200%nat.
Proof.
  intros Hid Ht. split.
  - unfold deleteTask. rewrite Hid.
    destruct (findOneAndUpdate_of_findOne _ (Task_soft_delete now) _ _ Ht)
      as [coll' ->]. reflexivity.
  - intros d (Hassigned & Hset & Hvalid). unfold updateTask.
    rewrite Hid, Hassigned, Hvalid.
    destruct (Task_set now d) as [u|]; [|contradiction]. cbn [negb].
    destruct (findOneAndUpdate_of_findOne _ u _ _ Ht) as [coll' ->].
    reflexivity.
Qed.

(** [updateComment] and [deleteComment] look the comment up with the caller
    as its author and compare nothing else: a caller who is not the author
    is answered NotFound, whatever the caller's role. *)
Lemma comment_handlers_author_only (user : User.doc) (now : Date) (db : DB)
    (id : string) (i : ObjectId) (c : Comment.doc) :
  List.NoDup (List.map Comment._id (comments db)) ->
  castObjectId id = Some i ->
  findOne (live_by_id i) (comments db) = Some c ->
  Comment.author c <> User._id user ->
  deleteComment user now id db
  = (Err NotFound "Comment not found or unauthorized", db)
  /\ forall content, Comment_set_valid content = true ->
       updateComment user now id content db
       = (Err NotFound "Comment not found or unauthorized", db).
Proof.
  intros Hcomments Hid Hc Hau.
  pose proof (own_comment_none db i _ c Hcomments Hc Hau) as Hnone.
  split.
  - unfold deleteComment. rewrite Hid.
    now rewrite (findOneAndUpdate_of_None _ _ _ Hnone).
  - intros content Hv. unfold updateComment. rewrite Hid, Hv. cbn [negb].
    now rewrite (findOneAndUpdate_of_None _ _ _ Hnone).
Qed.

(** The author updates and deletes the comment. *)
Lemma comment_author_succeeds (user : User.doc) (now : Date) (db : DB)
    (id : string) (i : ObjectId) (c : Comment.doc) :
  castObjectId id = Some i ->
  findOne (live_by_id i) (comments db) = Some c ->
  Comment.author c = User._id user ->
  code_of (fst (deleteComment user now id db)) = 200%nat
  /\ forall content, Comment_set_valid content = true ->
       code_of (fst (updateComment user now id content db)) = 200%nat.
Proof.
  intros Hid Hc Hau. destruct (own_comment_some db i _ c Hc Hau) as [c' Hc'].
  split.
  - unfold deleteComment. rewrite Hid.
    destruct (findOneAndUpdate_of_findOne _ (Comment_soft_delete now) _ _ Hc')
      as [coll' ->]. reflexivity.
  - intros content Hv. unfold updateComment. rewrite Hid, Hv. cbn [negb].
    destruct (findOneAndUpdate_of_findOne _
                (Comment_set_content now content) _ _ Hc') as [coll' ->].
    reflexivity.
Qed.

(** [deleteFile] compares the caller with the file's uploader and with the
    creator of its task, and with nothing else: any other caller is
    answered Forbidden, whatever the caller's role. *)
Lemma deleteFile_role_blind (user : User.doc) (now : Date) (db : DB)
    (id : string) (i : ObjectId) (x : File.doc) (t : Task.doc) :
  castObjectId id = Some i ->
  findOne (live_by_id i) (files db) = Some x ->
  populate_parent db x = Some t ->
  File.uploadedBy x <> User._id user ->
  Task.createdBy t <> User._id user ->
  deleteFile user now id db = (Err Forbidden "Access denied", db).
Proof.
  intros Hid Hx Ht Hu Hc. unfold deleteFile. rewrite Hid, Hx, Ht.
  destruct (N.eqb_spec (File.uploadedBy x) (User._id user)); [contradiction|].
  destruct (N.eqb_spec (Task.createdBy t) (User._id user)); [contradiction|].
  reflexivity.
Qed.
End Ownership.

(** C1 fails on the handlers, at requests against the demo store.  Carol,
    who did not create task 10 and is no administrator, deletes it and
    updates it where the rule says Forbidden: [updateTask] and [deleteTask]
    never read [req.user].  Bob, who did not write comment 20 and is no
    administrator, is answered NotFound where the rule, and the responses
    documented in [routes/comments.js], say Forbidden.  The administrator,
    whom the rule lets succeed, is answered NotFound on comment 20 and
    Forbidden on file 30.  So the rule holds for none of the three
    callers. *)
Theorem ownership_rule_violated :
  (owner_or_admin Demo.carol (Task.createdBy Demo.t10) = false
   /\ code_of (fst (deleteTask Demo.carol Demo.now0 "10" Demo.db0)) = 200%nat
   /\ code_of (fst (put_task Demo.carol Demo.now0 "10"
                      (Demo.body "taken over" None) Demo.db0)) = 200%nat)
  /\ (owner_or_admin Demo.bob (Comment.author Demo.c20) = false
      /\ deleteComment Demo.bob Demo.now0 "20" Demo.db0
         = (Err NotFound "Comment not found or unauthorized", Demo.db0)
      /\ put_comment Demo.bob Demo.now0 "20" (Some "edited") Demo.db0
         = (Err NotFound "Comment not found or unauthorized", Demo.db0))
  /\ (is_admin Demo.root = true
      /\ code_of (fst (deleteComment Demo.root Demo.now0 "20" Demo.db0))
         = NotFound
      /\ code_of (fst (put_comment Demo.root Demo.now0 "20" (Some "edited")
                         Demo.db0)) = NotFound
      /\ deleteFile Demo.root Demo.now0 "30" Demo.db0
         = (Err Forbidden "Access denied", Demo.db0))
  /\ ~ ownership_rule Demo.db0 Demo.carol Demo.now0
  /\ ~ ownership_rule Demo.db0 Demo.bob Demo.now0
  /\ ~ ownership_rule Demo.db0 Demo.root Demo.now0.
Proof.
  split; [vm_compute; auto|].
  split; [vm_compute; auto|].
  split; [vm_compute; auto|].
  split; [|split].
  - intros (Htasks & _ & _).
    specialize (Htasks "10" 10%N Demo.t10 eq_refl eq_refl).
    cbn in Htasks. destruct Htasks as [Hdelete _].
    vm_compute in Hdelete. discriminate.
  - intros (_ & Hcomments & _).
    specialize (Hcomments "20" 20%N Demo.c20 eq_refl eq_refl).
    cbn in Hcomments. destruct Hcomments as [Hdelete _].
    vm_compute in Hdelete. discriminate.
  - intros (_ & _ & Hfiles).
    specialize (Hfiles "30" 30%N Demo.f30 eq_refl eq_refl).
    cbn in Hfiles. vm_compute in Hfiles. discriminate.
Qed.

(** The creator of a file's task deletes the file without having uploaded
    it. *)
Example task_creator_deletes_file :
  File.uploadedBy Demo.f30 <> User._id Demo.alice
  /\ code_of (fst (deleteFile Demo.alice Demo.now0 "30" Demo.db0)) = 200%nat.
Proof. vm_compute. intuition discriminate. Qed.

(** ** The store invariant is kept by every handler that writes *)

Lemma store_ok_empty (us : list User.doc) :
  store_ok (mkDB us [] [] [] ∅ 0).
Proof.
  repeat split; simpl; constructor.
Qed.

Lemma Forall_lt_succ (n : N) (l : list N) :
  Forall (fun i => (i < n)%N) l -> Forall (fun i => (i < N.succ n)%N) l.
Proof. apply List.Forall_impl. intros; lia. Qed.

Lemma NoDup_snoc_fresh (n : N) (l : list N) :
  List.NoDup l -> Forall (fun i => (i < n)%N) l -> List.NoDup (l ++ [n]).
Proof.
  intros Hnd Hlt. apply List.NoDup_app; repeat split; auto.
  - repeat constructor. intros [].
  - intros x Hx [<-|[]].
    rewrite List.Forall_forall in Hlt. specialize (Hlt _ Hx). lia.
Qed.

Lemma Forall_snoc_fresh (n : N) (l : list N) :
  Forall (fun i => (i < n)%N) l ->
  Forall (fun i => (i < N.succ n)%N) (l ++ [n]).
Proof.
  intros Hlt. apply List.Forall_app. split; [now apply Forall_lt_succ|].
  repeat constructor. lia.
Qed.

(** A store with the same ids, parents and generator is as good. *)
Lemma store_ok_same_ids (db db' : DB) :
  List.map Task._id (tasks db') = List.map Task._id (tasks db) ->
  List.map Comment._id (comments db') = List.map Comment._id (comments db) ->
  List.map File._id (files db') = List.map File._id (files db) ->
  List.map File.task (files db') = List.map File.task (files db) ->
  nextId db' = nextId db ->
  store_ok db -> store_ok db'.
Proof.
  unfold store_ok, unique_ids, ids_below_next, files_have_parent.
  intros -> -> -> -> ->. auto.
Qed.

Lemma store_ok_fresh (db : DB) : store_ok db -> store_ok (snd (fresh db)).
Proof.
  unfold store_ok, unique_ids, ids_below_next, files_have_parent. cbn.
  intros (Hu & (Ht & Hc & Hf) & Hp).
  repeat split; auto using Forall_lt_succ; apply Hu.
Qed.

Lemma store_ok_add_task (db : DB) (t : Task.doc) :
  Task._id t = nextId db -> store_ok db ->
  store_ok (set_tasks (snd (fresh db)) (tasks (snd (fresh db)) ++ [t])).
Proof.
  unfold store_ok, unique_ids, ids_below_next, files_have_parent. cbn.
  intros Hid ((Hut & Huc & Huf) & (Ht & Hc & Hf) & Hp).
  rewrite map_app. cbn. rewrite Hid.
  repeat split; auto using Forall_lt_succ, NoDup_snoc_fresh, Forall_snoc_fresh.
  eapply List.Forall_impl; [|exact Hp]. intros p Hin. apply in_or_app. now left.
Qed.

Lemma store_ok_add_comment (db : DB) (c : Comment.doc) :
  Comment._id c = nextId db -> store_ok db ->
  store_ok (set_comments (snd (fresh db)) (comments (snd (fresh db)) ++ [c])).
Proof.
  unfold store_ok, unique_ids, ids_below_next, files_have_parent. cbn.
  intros Hid ((Hut & Huc & Huf) & (Ht & Hc & Hf) & Hp).
  rewrite map_app. cbn. rewrite Hid.
  repeat split; auto using Forall_lt_succ, NoDup_snoc_fresh, Forall_snoc_fresh.
Qed.

Lemma store_ok_add_file (db : DB) (x : File.doc) :
  File._id x = nextId db -> In (File.task x) (List.map Task._id (tasks db)) ->
  store_ok db ->
  store_ok (set_files (snd (fresh db)) (files (snd (fresh db)) ++ [x])).
Proof.
  unfold store_ok, unique_ids, ids_below_next, files_have_parent. cbn.
  intros Hid Hparent ((Hut & Huc & Huf) & (Ht & Hc & Hf) & Hp).
  rewrite !map_app. cbn. rewrite Hid.
  repeat split; auto using Forall_lt_succ, NoDup_snoc_fresh, Forall_snoc_fresh.
  apply List.Forall_app. split; [exact Hp|]. now repeat constructor.
Qed.

Section UpdateKeepsIds.
Context `{Env} {A : Type} `{Document A} {K : Type} (key : A -> K).

Lemma findOneAndUpdate_keys (q : Filter) (u : A -> A) (coll : list A) :
  (forall d, key (u d) = key d) ->
  List.map key (snd (findOneAndUpdate q u coll)) = List.map key coll.
Proof.
  intros Hu. induction coll as [|d l IH]; simpl; [reflexivity|].
  destruct (matches q d); simpl; [now rewrite Hu|].
  destruct (findOneAndUpdate q u l) as [r l'] eqn:E. simpl in *.
  now rewrite IH.
Qed.
End UpdateKeepsIds.

Lemma File_save_keys {K} (key : File.doc -> K) (x y : File.doc)
    (coll : list File.doc) :
  In y coll -> File._id x = File._id y -> key x = key y ->
  List.NoDup (List.map File._id coll) ->
  List.map key (File_save x coll) = List.map key coll.
Proof.
  intros Hin Hid Hk Hnd. apply in_split in Hin as (l1 & l2 & ->).
  rewrite (File_save_split x l1 l2 y Hnd Hid).
  rewrite !map_app. simpl. now rewrite Hk.
Qed.

Section HandlersKeepInvariant.
Context `{Env}.

Lemma Task_set_id (now : Date) (d : TaskData.t) (u : Task.doc -> Task.doc) :
  Task_set now d = Some u -> forall t, Task._id (u t) = Task._id t.
Proof.
  unfold Task_set.
  destruct (match TaskData.assignedTo d with
            | Some s => option_map Some (castObjectId s)
            | None => Some None
            end); [|discriminate].
  destruct (match TaskData.createdBy d with
            | Some v => option_map Some (cast_id v)
            | None => Some None
            end); [|discriminate].
  intros [= <-] t. reflexivity.
Qed.

Lemma createTask_keeps (user : User.doc) (now : Date) (body : TaskData.t)
    (db : DB) :
  store_ok db -> store_ok (snd (createTask user now body db)).
Proof.
  intros Hok. unfold createTask.
  destruct (truthy _ && negb _); [exact Hok|].
  cbn [fresh].
  destruct (Task_new _ _ _) as [t|] eqn:Et; cbn [snd].
  - apply Task_new_owner in Et as (_ & Hid & _).
    now apply (store_ok_add_task db t).
  - now apply (store_ok_fresh db).
Qed.

Lemma bulkCreateTasks_loop_keeps (user : User.doc) (now : Date)
    (l : list TaskData.t) :
  forall created db,
    store_ok db -> store_ok (snd (bulkCreateTasks_loop user now l created db)).
Proof.
  induction l as [|d l IH]; intros created db Hok; simpl; [exact Hok|].
  destruct (truthy _ && negb _); [exact Hok|].
  destruct (Task_new _ _ _) as [t|] eqn:Et.
  - apply IH. apply Task_new_owner in Et as (_ & Hid & _).
    now apply (store_ok_add_task db t).
  - now apply (store_ok_fresh db).
Qed.

Lemma updateTask_keeps (user : User.doc) (now : Date) (id : string)
    (d : TaskData.t) (db : DB) :
  store_ok db -> store_ok (snd (updateTask user now id d db)).
Proof.
  intros Hok. unfold updateTask.
  destruct (castObjectId id) as [i|]; [|exact Hok].
  destruct (truthy _ && negb _); [exact Hok|].
  destruct (Task_set now d) as [u|] eqn:Eu; [|exact Hok].
  destruct (negb (Task_set_valid d)); [exact Hok|].
  pose proof (findOneAndUpdate_keys Task._id (live_by_id i) u (tasks db)
                (Task_set_id _ _ _ Eu)) as Hids.
  destruct (findOneAndUpdate _ _ _) as [[r|] coll']; [|exact Hok].
  cbn [snd] in *. now apply (store_ok_same_ids db).
Qed.

Lemma deleteTask_keeps (user : User.doc) (now : Date) (id : string) (db : DB) :
  store_ok db -> store_ok (snd (deleteTask user now id db)).
Proof.
  intros Hok. unfold deleteTask.
  destruct (castObjectId id) as [i|]; [|exact Hok].
  pose proof (findOneAndUpdate_keys Task._id (live_by_id i)
                (Task_soft_delete now) (tasks db) (fun _ => eq_refl)) as Hids.
  destruct (findOneAndUpdate _ _ _) as [[r|] coll']; [|exact Hok].
  cbn [snd] in *. now apply (store_ok_same_ids db).
Qed.

Lemma addComment_keeps (user : User.doc) (now : Date) (taskId : string)
    (content : option string) (db : DB) :
  store_ok db -> store_ok (snd (addComment user now taskId content db)).
Proof.
  intros Hok. unfold addComment.
  destruct (castObjectId taskId) as [tid|]; [|exact Hok].
  destruct (findOne _ _); [|exact Hok].
  cbn [fresh]. unfold Comment_new.
  destruct content as [c|]; [|now apply (store_ok_fresh db)].
  match goal with |- context [Comment.validate ?d] =>
    destruct (Comment.validate d) end; cbn [snd].
  - now apply (store_ok_add_comment db).
  - now apply (store_ok_fresh db).
Qed.

Lemma updateComment_keeps (user : User.doc) (now : Date) (id : string)
    (content : option string) (db : DB) :
  store_ok db -> store_ok (snd (updateComment user now id content db)).
Proof.
  intros Hok. unfold updateComment.
  destruct (castObjectId id) as [i|]; [|exact Hok].
  destruct (negb (Comment_set_valid content)); [exact Hok|].
  pose proof (findOneAndUpdate_keys Comment._id (own_comment i (User._id user))
                (Comment_set_content now content) (comments db)
                (fun _ => eq_refl)) as Hids.
  destruct (findOneAndUpdate _ _ _) as [[r|] coll']; [|exact Hok].
  cbn [snd] in *. now apply (store_ok_same_ids db).
Qed.

Lemma deleteComment_keeps (user : User.doc) (now : Date) (id : string)
    (db : DB) :
  store_ok db -> store_ok (snd (deleteComment user now id db)).
Proof.
  intros Hok. unfold deleteComment.
  destruct (castObjectId id) as [i|]; [|exact Hok].
  pose proof (findOneAndUpdate_keys Comment._id (own_comment i (User._id user))
                (Comment_soft_delete now) (comments db)
                (fun _ => eq_refl)) as Hids.
  destruct (findOneAndUpdate _ _ _) as [[r|] coll']; [|exact Hok].
  cbn [snd] in *. now apply (store_ok_same_ids db).
Qed.

Lemma uploadFiles_loop_keeps (user : User.doc) (now : Date) (tid : ObjectId)
    (l : list Upload.t) :
  forall uploaded db,
    In tid (List.map Task._id (tasks db)) -> store_ok db ->
    store_ok (snd (uploadFiles_loop user now tid l uploaded db)).
Proof.
  induction l as [|x l IH]; intros uploaded db Hparent Hok; simpl; [exact Hok|].
  unfold File_new.
  match goal with |- context [File.validate ?d] =>
    destruct (File.validate d) end.
  - apply IH; [exact Hparent|]. now apply (store_ok_add_file db).
  - now apply (store_ok_fresh db).
Qed.

Lemma uploadFiles_keeps (user : User.doc) (now : Date) (taskId : string)
    (req_files : option (list Upload.t)) (db : DB) :
  store_ok db -> store_ok (snd (uploadFiles user now taskId req_files db)).
Proof.
  intros Hok. unfold uploadFiles.
  destruct (castObjectId taskId) as [tid|]; [|exact Hok].
  destruct (findOne _ _) as [t|] eqn:Et; [|exact Hok].
  destruct req_files as [[|x l]|]; try exact Hok.
  apply uploadFiles_loop_keeps; [|exact Hok].
  apply findOne_Some in Et as [Hin Hm]. rewrite matches_live_task in Hm.
  apply andb_prop in Hm as [Hi _]. apply N.eqb_eq in Hi. subst tid.
  now apply in_map.
Qed.

Lemma deleteFile_keeps (user : User.doc) (now : Date) (id : string) (db : DB) :
  store_ok db -> store_ok (snd (deleteFile user now id db)).
Proof.
  intros Hok. unfold deleteFile.
  destruct (castObjectId id) as [i|]; [|exact Hok].
  destruct (findOne _ _) as [x|] eqn:Ex; [|exact Hok].
  destruct (populate_parent db x); [|exact Hok].
  destruct (negb _ && negb _); [exact Hok|].
  destruct (negb (File.validate _)); [exact Hok|].
  apply findOne_Some in Ex as [Hin _].
  assert (Hnd : List.NoDup (List.map File._id (files db))) by apply Hok.
  apply (store_ok_same_ids db); [| | | | |exact Hok];
    destruct (disk _ !! _); cbn; auto;
    apply (File_save_keys _ _ x); auto.
Qed.

(** A file found in a store that satisfies the invariant has its parent
    task. *)
Lemma parent_of_stored_file (db : DB) (x : File.doc) :
  files_have_parent db -> In x (files db) ->
  exists t, populate_parent db x = Some t.
Proof.
  unfold files_have_parent, populate_parent. intros Hp Hx.
  rewrite List.Forall_forall in Hp.
  specialize (Hp (File.task x) (in_map File.task _ _ Hx)).
  apply in_map_iff in Hp as (t & Hid & Hin).
  destruct (List.find _ (tasks db)) as [t'|] eqn:E; [eauto|].
  apply (find_none _ _ E) in Hin. rewrite Hid, N.eqb_refl in Hin. discriminate.
Qed.
End HandlersKeepInvariant.

(** ** File download *)

Section DownloadFacts.
Context `{Env}.

(** C10: for a stored, non-deleted file, whose parent task is [task], the
    bytes are sent only to [task]'s creator or assignee; any other identity,
    whatever its role and also when it uploaded the file, is answered
    Forbidden. *)
Theorem download_access (user : User.doc) (id : string) (db : DB)
    (i : ObjectId) (file : File.doc) :
  files_have_parent db ->
  castObjectId id = Some i ->
  findOne (live_by_id i) (files db) = Some file ->
  exists task,
    populate_parent db file = Some task
    /\ (Task.createdBy task <> User._id user ->
        Task.assignedTo task <> Some (User._id user) ->
        downloadFile user id db = (Err Forbidden "Access denied", db))
    /\ (forall code d db',
          downloadFile user id db = (Ok code d, db') ->
          Task.createdBy task = User._id user
          \/ Task.assignedTo task = Some (User._id user))
    /\ (Task.createdBy task = User._id user
        \/ Task.assignedTo task = Some (User._id user) ->
        forall bytes,
          disk db !! File.path file = Some bytes ->
          downloadFile user id db
          = (Ok 200%nat
               {| dl_content_type := File.mimetype file;
                  dl_filename := File.originalName file;
                  dl_bytes := bytes |},
             db)).
Proof.
  intros Hparents Hid Hfile.
  destruct (parent_of_stored_file db file Hparents
              (proj1 (findOne_Some _ _ _ Hfile))) as [task Htask].
  exists task. split; [exact Htask|].
  unfold downloadFile. rewrite Hid, Hfile, Htask.
  destruct (N.eqb_spec (Task.createdBy task) (User._id user)) as [Hc|Hc];
    cbn [negb andb].
  - split; [intros; contradiction|]. split; [auto|].
    intros _ bytes ->. reflexivity.
  - destruct (Task.assignedTo task) as [a|] eqn:Ha.
    + destruct (N.eqb_spec a (User._id user)) as [He|He]; cbn [negb].
      * subst a. split; [intros _ Hn; now elim Hn|]. split; [auto|].
        intros _ bytes ->. reflexivity.
      * split; [reflexivity|]. split; [intros ? ? ? [=]|].
        intros [Hx|[= Hx]]; contradiction.
    + cbn [negb]. split; [reflexivity|]. split; [intros ? ? ? [=]|].
      intros [Hx|[=]]. contradiction.
Qed.
End DownloadFacts.

Lemma demo_files_have_parent : files_have_parent Demo.db0.
Proof. repeat constructor. Defined.

(** Carol uploaded file 30 but neither created nor is assigned its task. *)
Lemma download_access_witness :
  downloadFile Demo.carol "30" Demo.db0
  = (Err Forbidden "Access denied", Demo.db0)
  /\ File.uploadedBy Demo.f30 = User._id Demo.carol.
Proof.
  split; [|reflexivity].
  destruct (@download_access Demo.env Demo.carol "30" Demo.db0 30%N Demo.f30
              demo_files_have_parent eq_refl eq_refl)
    as (task & Htask & Hdenied & _).
  injection Htask as <-. apply Hdenied; vm_compute; discriminate.
Defined.

(** The administrator, too, is refused, while the assignee is served. *)
Example download_admin_and_assignee :
  code_of (fst (downloadFile Demo.root "30" Demo.db0)) = Forbidden
  /\ code_of (fst (downloadFile Demo.bob "30" Demo.db0)) = 200%nat.
Proof. vm_compute. auto. Qed.

(** A search term is a pattern: one that does not compile ends the request
    with a server error, after the validation has let it through. *)
Example search_term_is_a_pattern :
  get_tasks (TaskQuery.mk None None None (Some "(") (Some "1") (Some "10")
               None None) Demo.db0
  = (Err ServerError "Server error", Demo.db0).
Proof. reflexivity. Qed.

(** * Further properties of the handlers *)

(** ** The invariant along every request *)

Lemma demo_store_ok : store_ok Demo.db0.
Proof.
  split; [exact demo_unique_ids|]. split; [|exact demo_files_have_parent].
  repeat split; repeat constructor.
Defined.

Section InvariantAlongRequests.
Context `{Env}.

(** X1: every handler that writes keeps the store invariant: ids stay
    unique in each collection and below the generator, and every file keeps
    a stored parent task. *)
Theorem handlers_keep_store_ok (user : User.doc) (now : Date) (db : DB) :
  store_ok db ->
  (forall body, store_ok (snd (createTask user now body db)))
  /\ (forall body_tasks, store_ok (snd (bulkCreateTasks user now body_tasks db)))
  /\ (forall id d, store_ok (snd (updateTask user now id d db)))
  /\ (forall id, store_ok (snd (deleteTask user now id db)))
  /\ (forall taskId content,
        store_ok (snd (addComment user now taskId content db)))
  /\ (forall id content, store_ok (snd (updateComment user now id content db)))
  /\ (forall id, store_ok (snd (deleteComment user now id db)))
  /\ (forall taskId req_files,
        store_ok (snd (uploadFiles user now taskId req_files db)))
  /\ (forall id, store_ok (snd (deleteFile user now id db))).
Proof.
  intros Hok.
  split; [intros; now apply createTask_keeps|].
  split.
  { intros [[|d l]|]; try exact Hok.
    now apply bulkCreateTasks_loop_keeps. }
  split; [intros; now apply updateTask_keeps|].
  split; [intros; now apply deleteTask_keeps|].
  split; [intros; now apply addComment_keeps|].
  split; [intros; now apply updateComment_keeps|].
  split; [intros; now apply deleteComment_keeps|].
  split; [intros; now apply uploadFiles_keeps|].
  intros; now apply deleteFile_keeps.
Qed.

Lemma createTask_refused (user : User.doc) (now : Date) (body : TaskData.t)
    (db db' : DB) code m :
  createTask user now body db = (Err code m, db') ->
  tasks db' = tasks db /\ comments db' = comments db
  /\ files db' = files db /\ disk db' = disk db.
Proof.
  unfold createTask.
  destruct (truthy _ && negb _); [now intros [= _ _ <-]|].
  cbn [fresh]. destruct (Task_new _ _ _); [discriminate|].
  now intros [= _ _ <-].
Qed.

Lemma addComment_refused (user : User.doc) (now : Date) (taskId : string)
    (content : option string) (db db' : DB) code m :
  addComment user now taskId content db = (Err code m, db') ->
  tasks db' = tasks db /\ comments db' = comments db
  /\ files db' = files db /\ disk db' = disk db.
Proof.
  unfold addComment.
  destruct (castObjectId taskId); [|now intros [= _ _ <-]].
  destruct (findOne _ _); [|now intros [= _ _ <-]].
  cbn [fresh]. destruct (Comment_new _ _ _ _ _); [discriminate|].
  now intros [= _ _ <-].
Qed.

(** X2: a request to change or delete one record that is refused changes
    nothing at all; a refused creation leaves every collection and the
    upload directory as they were. *)
Theorem refused_request_changes_nothing (user : User.doc) (now : Date) (db : DB) :
  (forall id d code m db',
     updateTask user now id d db = (Err code m, db') -> db' = db)
  /\ (forall id code m db',
        deleteTask user now id db = (Err code m, db') -> db' = db)
  /\ (forall id content code m db',
        updateComment user now id content db = (Err code m, db') -> db' = db)
  /\ (forall id code m db',
        deleteComment user now id db = (Err code m, db') -> db' = db)
  /\ (forall id code m db',
        deleteFile user now id db = (Err code m, db') -> db' = db)
  /\ (forall body code m db',
        createTask user now body db = (Err code m, db') ->
        tasks db' = tasks db /\ comments db' = comments db
        /\ files db' = files db /\ disk db' = disk db)
  /\ (forall taskId content code m db',
        addComment user now taskId content db = (Err code m, db') ->
        tasks db' = tasks db /\ comments db' = comments db
        /\ files db' = files db /\ disk db' = disk db).
Proof.
  split; [|split; [|split; [|split; [|split; [|split]]]]].
  - intros id d code m db'. unfold updateTask.
    destruct (castObjectId id); [|now intros [= _ _ <-]].
    destruct (truthy _ && negb _); [now intros [= _ _ <-]|].
    destruct (Task_set now d); [|now intros [= _ _ <-]].
    destruct (negb _); [now intros [= _ _ <-]|].
    destruct (findOneAndUpdate _ _ _) as [[r|] l]; [discriminate|].
    now intros [= _ _ <-].
  - intros id code m db'. unfold deleteTask.
    destruct (castObjectId id); [|now intros [= _ _ <-]].
    destruct (findOneAndUpdate _ _ _) as [[r|] l]; [discriminate|].
    now intros [= _ _ <-].
  - intros id content code m db'. unfold updateComment.
    destruct (castObjectId id); [|now intros [= _ _ <-]].
    destruct (negb _); [now intros [= _ _ <-]|].
    destruct (findOneAndUpdate _ _ _) as [[r|] l]; [discriminate|].
    now intros [= _ _ <-].
  - intros id code m db'. unfold deleteComment.
    destruct (castObjectId id); [|now intros [= _ _ <-]].
    destruct (findOneAndUpdate _ _ _) as [[r|] l]; [discriminate|].
    now intros [= _ _ <-].
  - intros id code m db'. unfold deleteFile.
    destruct (castObjectId id); [|now intros [= _ _ <-]].
    destruct (findOne _ _); [|now intros [= _ _ <-]].
    destruct (populate_parent db _); [|now intros [= _ _ <-]].
    destruct (negb _ && negb _); [now intros [= _ _ <-]|].
    destruct (negb (File.validate _)); [now intros [= _ _ <-]|].
    discriminate.
  - intros body code m db'. apply createTask_refused.
  - intros taskId content code m db'. apply addComment_refused.
Qed.
End InvariantAlongRequests.

Lemma handlers_keep_store_ok_witness :
  store_ok (snd (createTask Demo.bob Demo.now0 (Demo.body "new" None) Demo.db0))
  /\ store_ok (snd (deleteFile Demo.carol Demo.now0 "30" Demo.db0)).
Proof.
  pose proof (@handlers_keep_store_ok Demo.env Demo.bob Demo.now0 Demo.db0
                demo_store_ok) as (Hcreate & _).
  pose proof (@handlers_keep_store_ok Demo.env Demo.carol Demo.now0 Demo.db0
                demo_store_ok) as (_ & _ & _ & _ & _ & _ & _ & _ & Hdelete).
  split; [apply Hcreate|apply Hdelete].
Defined.

(** ** Malformed ids *)

Section MalformedIds.
Context `{Env}.

(** X3: only [updateTask] inspects the id it is given: for an id that is
    no ObjectId it answers 400 "Invalid task ID", while every other handler
    lets the cast fail inside the query and answers 500; none of them
    touches the store. *)
Theorem malformed_id_replies (user : User.doc) (now : Date) (id : string)
    (db : DB) :
  castObjectId id = None ->
  (forall d, updateTask user now id d db = (Err BadRequest "Invalid task ID", db))
  /\ getTaskById id db = (Err ServerError "Server error", db)
  /\ deleteTask user now id db = (Err ServerError "Server error", db)
  /\ (forall content,
        addComment user now id content db = (Err ServerError "Server error", db))
  /\ getComments id db = (Err ServerError "Server error", db)
  /\ (forall content,
        updateComment user now id content db
        = (Err ServerError "Server error", db))
  /\ deleteComment user now id db = (Err ServerError "Server error", db)
  /\ (forall req_files,
        uploadFiles user now id req_files db
        = (Err ServerError "Server error", db))
  /\ downloadFile user id db = (Err ServerError "Server error", db)
  /\ getFilesForTask id db = (Err ServerError "Server error", db)
  /\ deleteFile user now id db = (Err ServerError "Server error", db).
Proof.
  intros Hid.
  unfold updateTask, getTaskById, deleteTask, addComment, getComments,
    updateComment, deleteComment, uploadFiles, downloadFile, getFilesForTask,
    deleteFile.
  rewrite Hid. repeat split; reflexivity.
Qed.
End MalformedIds.

Lemma malformed_id_replies_witness :
  code_of (fst (put_task Demo.alice Demo.now0 "zz" (Demo.body "t" None) Demo.db0))
  = BadRequest
  /\ deleteTask Demo.alice Demo.now0 "zz" Demo.db0
     = (Err ServerError "Server error", Demo.db0).
Proof.
  destruct (@malformed_id_replies Demo.env Demo.alice Demo.now0 "zz" Demo.db0
              eq_refl) as (Hupdate & _ & Hdelete & _).
  split; [|exact Hdelete].
  unfold put_task, validate. change (updateTaskSchema (Demo.body "t" None))
    with (JoiValue (Demo.body "t" None)).
  now rewrite Hupdate.
Defined.

(** ** A deleted task *)

Section DeletedTask.
Context `{Env}.

Lemma deleteTask_leaves_none_live (user : User.doc) (now : Date) (id : string)
    (db db' : DB) code m :
  List.NoDup (List.map Task._id (tasks db)) ->
  deleteTask user now id db = (Ok code m, db') ->
  exists i,
    castObjectId id = Some i
    /\ findOne (live_by_id i) (tasks db') = None
    /\ users db' = users db /\ comments db' = comments db
    /\ files db' = files db /\ disk db' = disk db.
Proof.
  intros Hnd E.
  apply deleteTask_Ok in E as (i & l1 & t & l2 & Hid & Hsplit & Hm & ->).
  exists i. split; [exact Hid|]. split; [|now cbn].
  rewrite matches_live_task in Hm. apply andb_prop in Hm as [Hi _].
  apply N.eqb_eq in Hi.
  apply findOne_None_iff. cbn [set_tasks tasks]. intros x Hx.
  rewrite matches_live_task.
  destruct (N.eqb_spec (Task._id x) i) as [E|_]; [|reflexivity].
  rewrite Hsplit in Hnd.
  rewrite (replaced_by_deleted Task._id Task.isDeleted l1 l2 t
             (Task_soft_delete now t) x Hnd); auto. congruence.
Qed.

(** X4: once a task is deleted, every handler that addresses it answers
    404 "Task not found": a second delete, an update, a new comment, the
    comment list, an upload and the file list.  Its comments and files
    themselves stay stored as they were. *)
Theorem deleted_task_is_closed (user : User.doc) (now : Date) (id : string)
    (db db' : DB) code m :
  List.NoDup (List.map Task._id (tasks db)) ->
  deleteTask user now id db = (Ok code m, db') ->
  comments db' = comments db /\ files db' = files db /\ disk db' = disk db
  /\ (forall u t, deleteTask u t id db' = (Err NotFound "Task not found", db'))
  /\ (forall u t d, update_accepted t d ->
        updateTask u t id d db' = (Err NotFound "Task not found", db'))
  /\ (forall u t content,
        addComment u t id content db' = (Err NotFound "Task not found", db'))
  /\ getComments id db' = (Err NotFound "Task not found", db')
  /\ (forall u t req_files,
        uploadFiles u t id req_files db'
        = (Err NotFound "Task not found", db'))
  /\ getFilesForTask id db' = (Err NotFound "Task not found", db').
Proof.
  intros Hnd E.
  destruct (deleteTask_leaves_none_live _ _ _ _ _ _ _ Hnd E)
    as (i & Hid & Hnone & _ & Hc & Hf & Hd).
  split; [exact Hc|]. split; [exact Hf|]. split; [exact Hd|].
  unfold deleteTask, updateTask, addComment, getComments, uploadFiles,
    getFilesForTask. rewrite Hid, Hnone.
  split.
  { intros u t. now rewrite (findOneAndUpdate_of_None _ _ _ Hnone). }
  split.
  { intros u t d (Ha & Hs & Hv). rewrite Ha, Hv.
    destruct (Task_set t d) as [f|]; [|contradiction]. cbn [negb].
    now rewrite (findOneAndUpdate_of_None _ _ _ Hnone). }
  repeat split; reflexivity.
Qed.

(** After [findOneAndUpdate] with an update that keeps [key], looking a
    document up by its key finds one with the same image under any [view]
    the update keeps. *)
Lemma find_after_update {A V} `{Document A} (q : Filter) (u : A -> A)
    (p : A -> bool) (view : A -> V) (coll : list A) :
  (forall d, p (u d) = p d) -> (forall d, view (u d) = view d) ->
  option_map view (List.find p (snd (findOneAndUpdate q u coll)))
  = option_map view (List.find p coll).
Proof.
  intros Hp Hv. induction coll as [|d l IH]; simpl; [reflexivity|].
  destruct (matches q d); simpl.
  - rewrite Hp. destruct (p d); simpl; [now rewrite Hv|reflexivity].
  - destruct (findOneAndUpdate q u l) as [r l'] eqn:E. simpl in *.
    destruct (p d); [reflexivity|exact IH].
Qed.

(** X5: deleting a task does not reach its files: after the delete, a
    download of any file is answered exactly as before, so the creator and
    the assignee of a deleted task still receive its attachments. *)
Theorem download_survives_task_delete (user deleter : User.doc) (now : Date)
    (taskId fileId : string) (db : DB) :
  fst (downloadFile user fileId (snd (deleteTask deleter now taskId db)))
  = fst (downloadFile user fileId db).
Proof.
  unfold deleteTask.
  destruct (castObjectId taskId) as [i|]; [|reflexivity].
  pose proof (fun x : File.doc =>
    find_after_update (live_by_id i) (Task_soft_delete now)
      (fun t => N.eqb (Task._id t) (File.task x))
      (fun t => (Task.createdBy t, Task.assignedTo t)) (tasks db)
      (fun _ => eq_refl) (fun _ => eq_refl)) as Hparent.
  destruct (findOneAndUpdate _ _ _) as [[r|] tasks'] eqn:E; [|reflexivity].
  cbn [snd] in *. unfold downloadFile.
  destruct (castObjectId fileId) as [j|]; [|reflexivity].
  unfold populate_parent. cbn [set_tasks files disk tasks].
  destruct (findOne (live_by_id j) (files db)) as [x|]; [|reflexivity].
  specialize (Hparent x).
  destruct (List.find (fun t => N.eqb (Task._id t) (File.task x)) tasks')
    as [a|],
    (List.find (fun t => N.eqb (Task._id t) (File.task x)) (tasks db))
    as [b|];
    cbn in Hparent; try discriminate; [|reflexivity].
  injection Hparent as -> ->.
  destruct (negb _ && negb _); [reflexivity|].
  destruct (disk db !! File.path x); reflexivity.
Qed.
End DeletedTask.

Lemma deleted_task_is_closed_witness :
  exists db',
    deleteTask Demo.alice Demo.now0 "10" Demo.db0
    = (Ok 200%nat "Task deleted successfully", db')
    /\ addComment Demo.bob Demo.now0 "10" (Some "late") db'
       = (Err NotFound "Task not found", db')
    /\ comments db' = [Demo.c20].
Proof.
  eexists. split; [reflexivity|].
  destruct (@deleted_task_is_closed Demo.env Demo.alice Demo.now0 "10" Demo.db0
              _ _ _ (proj1 demo_unique_ids) eq_refl)
    as (Hc & _ & _ & _ & _ & Hadd & _).
  split; [apply Hadd|exact Hc].
Defined.

(** ** Owners stay, and what was written can be read *)

Lemma updateTaskSchema_no_owner (d v : TaskData.t) :
  updateTaskSchema d = JoiValue v -> TaskData.createdBy d = None.
Proof.
  unfold updateTaskSchema.
  match goal with |- context [first_error ?l] =>
    destruct (first_error l) eqn:E; [discriminate|] end.
  intros _. pose proof (first_error_None _ E) as Hall.
  destruct (TaskData.createdBy d) as [o|] eqn:Ho; [|reflexivity].
  specialize (Hall (joi_unknown "createdBy" (Some o))).
  simpl in Hall. discriminate Hall. tauto.
Qed.

Section OwnersStay.
Context `{Env}.

Lemma Task_set_keeps_owner (now : Date) (d : TaskData.t) (u : Task.doc -> Task.doc) :
  TaskData.createdBy d = None -> Task_set now d = Some u ->
  forall t, Task.createdBy (u t) = Task.createdBy t
            /\ Task.createdAt (u t) = Task.createdAt t
            /\ Task.isDeleted (u t) = Task.isDeleted t.
Proof.
  unfold Task_set. intros ->.
  destruct (match TaskData.assignedTo d with
            | Some s => option_map Some (castObjectId s)
            | None => Some None
            end); [|discriminate].
  intros [= <-] t. auto.
Qed.

(** X6: no request changes who owns a record or when it was created:
    [PUT /tasks/:id] (whose schema refuses a [createdBy] key) and
    [deleteTask] keep every task's creator and creation time, and
    [updateComment] and [deleteComment] keep every comment's author, task
    and creation time. *)
Theorem owners_never_change (user : User.doc) (now : Date) (db : DB) :
  (forall id d,
     List.map (fun t => (Task._id t, Task.createdBy t, Task.createdAt t))
              (tasks (snd (put_task user now id d db)))
     = List.map (fun t => (Task._id t, Task.createdBy t, Task.createdAt t))
                (tasks db))
  /\ (forall id,
        List.map (fun t => (Task._id t, Task.createdBy t, Task.createdAt t))
                 (tasks (snd (deleteTask user now id db)))
        = List.map (fun t => (Task._id t, Task.createdBy t, Task.createdAt t))
                   (tasks db))
  /\ (forall id content,
        List.map (fun c => (Comment._id c, Comment.author c, Comment.task c,
                            Comment.createdAt c))
                 (comments (snd (updateComment user now id content db)))
        = List.map (fun c => (Comment._id c, Comment.author c, Comment.task c,
                              Comment.createdAt c))
                   (comments db))
  /\ (forall id,
        List.map (fun c => (Comment._id c, Comment.author c, Comment.task c,
                            Comment.createdAt c))
                 (comments (snd (deleteComment user now id db)))
        = List.map (fun c => (Comment._id c, Comment.author c, Comment.task c,
                              Comment.createdAt c))
                   (comments db)).
Proof.
  split; [|split; [|split]].
  - intros id d. unfold put_task, validate.
    destruct (updateTaskSchema d) as [v|e] eqn:Ev; [|reflexivity].
    apply updateTaskSchema_no_owner in Ev. unfold updateTask.
    destruct (castObjectId id) as [i|]; [|reflexivity].
    destruct (truthy _ && negb _); [reflexivity|].
    destruct (Task_set now d) as [u|] eqn:Eu; [|reflexivity].
    destruct (negb _); [reflexivity|].
    pose proof (findOneAndUpdate_keys
                  (fun t => (Task._id t, Task.createdBy t, Task.createdAt t))
                  (live_by_id i) u (tasks db)) as Hk.
    destruct (findOneAndUpdate _ _ _) as [[r|] l]; [|reflexivity].
    cbn [snd set_tasks tasks] in *. apply Hk. intros t.
    destruct (Task_set_keeps_owner _ _ _ Ev Eu t) as (-> & -> & _).
    now rewrite (Task_set_id _ _ _ Eu).
  - intros id. unfold deleteTask.
    destruct (castObjectId id) as [i|]; [|reflexivity].
    pose proof (findOneAndUpdate_keys
                  (fun t => (Task._id t, Task.createdBy t, Task.createdAt t))
                  (live_by_id i) (Task_soft_delete now) (tasks db)
                  (fun _ => eq_refl)) as Hk.
    destruct (findOneAndUpdate _ _ _) as [[r|] l]; [|reflexivity].
    exact Hk.
  - intros id content. unfold updateComment.
    destruct (castObjectId id) as [i|]; [|reflexivity].
    destruct (negb _); [reflexivity|].
    pose proof (findOneAndUpdate_keys
                  (fun c => (Comment._id c, Comment.author c, Comment.task c,
                             Comment.createdAt c))
                  (own_comment i (User._id user))
                  (Comment_set_content now content) (comments db)
                  (fun _ => eq_refl)) as Hk.
    destruct (findOneAndUpdate _ _ _) as [[r|] l]; [|reflexivity].
    exact Hk.
  - intros id. unfold deleteComment.
    destruct (castObjectId id) as [i|]; [|reflexivity].
    pose proof (findOneAndUpdate_keys
                  (fun c => (Comment._id c, Comment.author c, Comment.task c,
                             Comment.createdAt c))
                  (own_comment i (User._id user))
                  (Comment_soft_delete now) (comments db)
                  (fun _ => eq_refl)) as Hk.
    destruct (findOneAndUpdate _ _ _) as [[r|] l]; [|reflexivity].
    exact Hk.
Qed.

(** The first document a filter matches, after it has been updated in a way
    that keeps it matching. *)
Lemma findOne_after_update {A} `{Document A} (q : Filter) (u : A -> A)
    (coll coll' : list A) (r : A) :
  (forall d, matches q (u d) = matches q d) ->
  findOneAndUpdate q u coll = (Some r, coll') ->
  findOne q coll' = Some r.
Proof.
  intros Hu E.
  apply findOneAndUpdate_Some in E as (l1 & d & l2 & _ & -> & -> & Hd & Hl1 & _).
  unfold findOne. induction l1 as [|x l1 IH]; simpl.
  - now rewrite Hu, Hd.
  - rewrite (Hl1 x (or_introl eq_refl)). apply IH.
    intros y Hy. apply Hl1. now right.
Qed.

(** X7: a task that [updateTask] has answered with is what [getTaskById]
    answers with next: the update is read back whole. *)
Theorem update_then_get (user : User.doc) (now : Date) (id : string)
    (d : TaskData.t) (db db' : DB) code (v : TaskView) :
  updateTask user now id d db = (Ok code v, db') ->
  getTaskById id db' = (Ok 200%nat v, db').
Proof.
  unfold updateTask, getTaskById.
  destruct (castObjectId id) as [i|]; [|discriminate].
  destruct (truthy _ && negb _); [discriminate|].
  destruct (Task_set now d) as [u|] eqn:Eu; [|discriminate].
  destruct (negb _); [discriminate|].
  destruct (findOneAndUpdate _ _ _) as [[r|] l] eqn:E; [|discriminate].
  intros [= <- <- <-]. cbn [set_tasks tasks].
  assert (Hkeep : forall t, matches (live_by_id i) (u t)
                            = matches (live_by_id i) t);
    [|now rewrite (findOne_after_update _ u _ _ _ Hkeep E)].
  intros t. rewrite !matches_live_task.
  rewrite (Task_set_id _ _ _ Eu).
  unfold Task_set in Eu.
  destruct (match TaskData.assignedTo d with
            | Some s => option_map Some (castObjectId s)
            | None => Some None
            end); [|discriminate].
  destruct (match TaskData.createdBy d with
            | Some v => option_map Some (cast_id v)
            | None => Some None
            end); [|discriminate].
  injection Eu as <-. reflexivity.
Qed.

Lemma findOne_fresh_last {A} `{Document A} (q : Filter) (coll : list A) (d : A) :
  (forall x, In x coll -> matches q x = false) -> matches q d = true ->
  findOne q (coll ++ [d]) = Some d.
Proof.
  intros Hno Hd. unfold findOne.
  induction coll as [|x l IH]; simpl; [now rewrite Hd|].
  rewrite (Hno x (or_introl eq_refl)). apply IH. intros y Hy. apply Hno.
  now right.
Qed.

(** X8: a task that [createTask] has answered with is found by
    [getTaskById] under its new id, in a store whose ids lie below the
    generator. *)
Theorem create_then_get (user : User.doc) (now : Date) (body : TaskData.t)
    (db db' : DB) code (v : TaskView) (id : string) :
  ids_below_next db ->
  createTask user now body db = (Ok code v, db') ->
  castObjectId id = Some (Task._id (tv_doc v)) ->
  getTaskById id db' = (Ok 200%nat v, db').
Proof.
  intros (Hbelow & _) E Hid. unfold createTask in E.
  destruct (truthy _ && negb _); [discriminate|].
  cbn [fresh] in E.
  destruct (Task_new _ _ _) as [t|] eqn:Et; [|discriminate].
  injection E as <- <- <-. cbn [populate_task tv_doc] in Hid.
  unfold getTaskById. rewrite Hid. cbn [set_tasks tasks].
  apply Task_new_owner in Et as (_ & Hi & Hlive).
  rewrite findOne_fresh_last; [reflexivity| |].
  - intros x Hx. rewrite matches_live_task, Hi.
    rewrite List.Forall_forall in Hbelow.
    specialize (Hbelow _ (in_map Task._id _ _ Hx)).
    destruct (N.eqb_spec (Task._id x) (nextId db)); [lia|reflexivity].
  - now rewrite matches_live_task, Hlive, N.eqb_refl.
Qed.
End OwnersStay.

Lemma create_then_get_witness :
  exists v db',
    createTask Demo.bob Demo.now0 (Demo.body " new " None) Demo.db0
    = (Ok 201%nat v, db')
    /\ Task.title (tv_doc v) = "new"
    /\ getTaskById "100" db' = (Ok 200%nat v, db').
Proof.
  eexists _, _. split; [reflexivity|]. split; [reflexivity|].
  apply (@create_then_get Demo.env Demo.bob Demo.now0 (Demo.body " new " None)
           Demo.db0 _ 201%nat _ "100" (proj1 (proj2 demo_store_ok)) eq_refl
           eq_refl).
Defined.

(** Called without the route's schema in front, [updateTask] would hand a
    task to another owner. *)
Example updateTask_alone_reassigns :
  exists v db',
    updateTask Demo.bob Demo.now0 "10"
      (TaskData.mk None None None None None None None (Some (Raw "2"))) Demo.db0
    = (Ok 200%nat v, db')
    /\ Task.createdBy Demo.t10 = 1%N /\ Task.createdBy (tv_doc v) = 2%N.
Proof. eexists _, _. split; [reflexivity|]. split; reflexivity. Qed.

Lemma update_then_get_witness :
  exists v db',
    updateTask Demo.bob Demo.now0 "11"
      (TaskData.mk None None (Some "done") None None None None None) Demo.db0
    = (Ok 200%nat v, db')
    /\ Task.status (tv_doc v) = "done"
    /\ getTaskById "11" db' = (Ok 200%nat v, db').
Proof.
  eexists _, _. split; [reflexivity|]. split; [reflexivity|].
  apply (@update_then_get Demo.env Demo.bob Demo.now0 "11"
           (TaskData.mk None None (Some "done") None None None None None)
           Demo.db0 _ 200%nat _ eq_refl).
Defined.

(** ** What the request schema lets through and the model then refuses *)




(** What [taskSchema] has checked of a body it lets through. *)
Lemma taskSchema_accepts (b v : TaskData.t) :
  taskSchema b = JoiValue v ->
  (exists ti, TaskData.title b = Some ti /\ ti <> ""
              /\ (String.length ti <= 200)%nat)
  /\ Task.opt_maxlength 2000 (TaskData.description b) = true
  /\ Task.mem (from_opt "todo" (TaskData.status b)) Task.status_enum = true
  /\ Task.mem (from_opt "medium" (TaskData.priority b)) Task.priority_enum = true
  /\ TaskData.createdBy b = None
  /\ truthy (TaskData.assignedTo b)
     = match TaskData.assignedTo b with Some _ => true | None => false end.
Proof.
  unfold taskSchema.
  match goal with |- context [first_error ?l] =>
    destruct (first_error l) eqn:E; [discriminate|] end.
  intros _. pose proof (first_error_None _ E) as Hall.
  assert (Ht := Hall _ (or_introl eq_refl)).
  assert (Hd := Hall _ (or_intror (or_introl eq_refl))).
  assert (Hs := Hall _ (or_intror (or_intror (or_introl eq_refl)))).
  assert (Hp := Hall _ (or_intror (or_intror (or_intror (or_introl eq_refl))))).
  assert (Ha := Hall (joi_opt (joi_string "assignedTo" None false None)
                        (TaskData.assignedTo b)) ltac:(simpl; tauto)).
  assert (Ho := Hall (joi_unknown "createdBy" (TaskData.createdBy b))
                  ltac:(simpl; tauto)).
  clear Hall E. split; [|split; [|split; [|split; [|split]]]].
  - destruct (TaskData.title b) as [ti|]; [|discriminate]. exists ti.
    unfold joi_required, joi_string in Ht. split; [reflexivity|].
    destruct ti as [|c ti]; [discriminate|]. split; [discriminate|].
    cbn [String.eqb andb] in Ht.
    destruct (Nat.leb_spec (String.length (String c ti)) 200); [assumption|].
    discriminate.
  - destruct (TaskData.description b) as [de|]; [|reflexivity].
    unfold joi_opt, joi_string in Hd. cbn [negb andb] in Hd.
    rewrite andb_false_r in Hd. cbn [Task.opt_maxlength].
    destruct (Nat.leb (String.length de) 2000); [reflexivity|discriminate].
  - destruct (TaskData.status b) as [st|]; [|reflexivity].
    unfold joi_opt, joi_string in Hs. cbn [from_opt].
    destruct (String.eqb st "" && negb false); [discriminate|].
    destruct (Task.mem st Task.status_enum); [reflexivity|discriminate].
  - destruct (TaskData.priority b) as [pr|]; [|reflexivity].
    unfold joi_opt, joi_string in Hp. cbn [from_opt].
    destruct (String.eqb pr "" && negb false); [discriminate|].
    destruct (Task.mem pr Task.priority_enum); [reflexivity|discriminate].
  - destruct (TaskData.createdBy b); [discriminate|reflexivity].
  - now apply joi_string_nonempty in Ha.
Qed.

Section SchemaAndModel.
Context `{Env}.


(** X10: a title or a comment made of blanks only passes the request
    schema, is trimmed to nothing by the model, and is refused on save: the
    reply is 500 "Server error", not 400, and nothing is stored. *)
Theorem blank_text_is_a_server_error (user : User.doc) (now : Date) (db : DB) :
  (forall b v ti,
     taskSchema b = JoiValue v ->
     TaskData.title b = Some ti -> trim ti = "" ->
     (forall s, TaskData.assignedTo b = Some s -> castObjectId s <> None) ->
     exists db',
       post_task user now b db = (Err ServerError "Server error", db')
       /\ tasks db' = tasks db)
  /\ (forall taskId tid t content,
        castObjectId taskId = Some tid ->
        findOne (live_by_id tid) (tasks db) = Some t ->
        content <> "" -> (String.length content <= 1000)%nat ->
        trim content = "" ->
        exists db',
          post_comment user now taskId (Some content) db
          = (Err ServerError "Server error", db')
          /\ comments db' = comments db).
Proof.
  split.
  - intros b v ti Hv Hti Hblank Hassign.
    destruct (taskSchema_accepts _ _ Hv) as (_ & _ & _ & _ & _ & Htruthy).
    unfold post_task, validate. rewrite Hv. unfold createTask.
    cbn [TaskData.with_createdBy TaskData.assignedTo]. rewrite Htruthy.
    assert (match TaskData.assignedTo b with Some _ => true | None => false end
            && negb (isValid (from_opt "" (TaskData.assignedTo b))) = false)
      as ->.
    { destruct (TaskData.assignedTo b) as [s|] eqn:Ea; [|reflexivity].
      specialize (Hassign s eq_refl). unfold isValid. cbn [from_opt].
      destruct (castObjectId s); [reflexivity|contradiction]. }
    cbn [fresh]. unfold Task_new.
    cbn [TaskData.with_createdBy TaskData.title TaskData.createdBy
         TaskData.assignedTo cast_id]. rewrite Hti.
    destruct (match TaskData.assignedTo _ with
              | Some s => option_map Some (castObjectId s)
              | None => Some None
              end); [|eauto].
    unfold Task.validate. cbn [Task.title]. rewrite Hblank. cbn. eauto.
  - intros taskId tid t content Hid Ht Hne Hlen Hblank.
    unfold post_comment, validate, commentSchema, joi_string.
    destruct (String.eqb_spec content ""); [contradiction|]. cbn [andb].
    apply Nat.leb_le in Hlen. rewrite Hlen.
    unfold addComment. rewrite Hid, Ht. cbn [fresh].
    unfold Comment_new, Comment.validate. cbn [Comment.content].
    rewrite Hblank. cbn. eauto.
Qed.
End SchemaAndModel.


Lemma blank_text_is_a_server_error_witness :
  (exists db',
     post_task Demo.alice Demo.now0 (Demo.body "   " None) Demo.db0
     = (Err ServerError "Server error", db')
     /\ tasks db' = tasks Demo.db0)
  /\ (exists db',
        post_comment Demo.alice Demo.now0 "10" (Some "  ") Demo.db0
        = (Err ServerError "Server error", db')
        /\ comments db' = comments Demo.db0).
Proof.
  destruct (@blank_text_is_a_server_error Demo.env Demo.alice Demo.now0 Demo.db0)
    as [Htask Hcomment].
  split.
  - apply (Htask (Demo.body "   " None) _ "   " eq_refl eq_refl eq_refl).
    intros s [=].
  - apply (Hcomment "10" 10%N Demo.t10 "  " eq_refl eq_refl);
      [discriminate|vm_compute; lia|reflexivity].
Defined.

(** ** The bulk loop, in order *)

Section BulkOrder.
Context `{Env}.

Lemma Task_new_title (id : ObjectId) (now : Date) (d : TaskData.t) (t : Task.doc) :
  Task_new id now d = Some t ->
  option_map trim (TaskData.title d) = Some (Task.title t).
Proof.
  unfold Task_new.
  destruct (TaskData.title d); [|discriminate].
  destruct (TaskData.createdBy d); [|discriminate].
  destruct (cast_id _); [|discriminate].
  destruct (match TaskData.assignedTo d with
            | Some s => option_map Some (castObjectId s)
            | None => Some None
            end); [|discriminate].
  match goal with |- context [Task.validate ?x] => destruct (Task.validate x) end;
    [|discriminate].
  intros [= <-]. reflexivity.
Qed.

Lemma bulkCreateTasks_loop_order (user : User.doc) (now : Date)
    (l : list TaskData.t) :
  forall created db code views db',
    bulkCreateTasks_loop user now l created db = (Ok code views, db') ->
    exists new,
      views = (created ++ new)%list
      /\ Forall2 (fun b v => option_map trim (TaskData.title b)
                             = Some (Task.title (tv_doc v))) l new
      /\ tasks db' = (tasks db ++ List.map tv_doc new)%list.
Proof.
  induction l as [|d l IH]; intros created db code views db' E; simpl in E.
  - injection E as <- <- <-. exists []. simpl. rewrite !app_nil_r.
    repeat split. constructor.
  - destruct (truthy _ && negb _); [discriminate|].
    destruct (Task_new _ _ _) as [t|] eqn:Et; [|discriminate].
    apply IH in E as (new & -> & Htitles & Htasks).
    eexists (_ :: new). split; [now rewrite <- app_assoc|].
    cbn [List.map populate_task tv_doc set_tasks tasks fresh] in *.
    split.
    + constructor; [|exact Htitles]. now apply Task_new_title in Et.
    + rewrite Htasks. now rewrite <- app_assoc.
Qed.

(** X11: a bulk creation that succeeds answers 201 with one task per
    submitted task, in the order submitted, each under the submitted title,
    trimmed; these tasks are stored after the ones that were there, in
    that order. *)
Theorem bulk_create_in_order (user : User.doc) (now : Date)
    (l : list TaskData.t) (db db' : DB) code (views : list TaskView) :
  bulkCreateTasks user now (Some l) db = (Ok code views, db') ->
  code = 201%nat
  /\ Forall2 (fun b v => option_map trim (TaskData.title b)
                         = Some (Task.title (tv_doc v))) l views
  /\ tasks db' = (tasks db ++ List.map tv_doc views)%list.
Proof.
  unfold bulkCreateTasks. destruct l as [|b l]; [discriminate|]. intros E.
  assert (code = 201%nat) as ->.
  { clear -E. revert E. generalize (@nil TaskView), db, (b :: l).
    intros created d todo. revert created d.
    induction todo as [|x todo IH]; intros created d; simpl.
    - now intros [= <- _ _].
    - destruct (truthy _ && negb _); [discriminate|].
      destruct (Task_new _ _ _); [|discriminate]. apply IH. }
  apply bulkCreateTasks_loop_order in E as (new & -> & Ht & Hs).
  auto.
Qed.
End BulkOrder.

Lemma bulk_create_in_order_witness :
  exists views db',
    bulkCreateTasks Demo.bob Demo.now0
      (Some [Demo.body " a" None; Demo.body "b " None]) Demo.db0
    = (Ok 201%nat views, db')
    /\ List.map (fun v => Task.title (tv_doc v)) views = ["a"; "b"]
    /\ tasks db' = (tasks Demo.db0 ++ List.map tv_doc views)%list.
Proof.
  eexists _, _. split; [reflexivity|]. split; [reflexivity|].
  exact (proj2 (proj2 (@bulk_create_in_order Demo.env Demo.bob Demo.now0
                         [Demo.body " a" None; Demo.body "b " None]
                         Demo.db0 _ _ _ eq_refl))).
Defined.

(** ** The bounds of the task list query *)

Section QueryBounds.
Context `{Env}.

Lemma ToNumber_unsigned (c : ascii) (rest : string) :
  c <> "-"%char ->
  ToNumber (String c rest)
  = match digits (String c rest) 0 with
    | Some z => Num z
    | None => NaN
    end.
Proof.
  intros Hc. destruct c as [[] [] [] [] [] [] [] []];
    try reflexivity; contradiction.
Qed.

Lemma all_digits_number (s : string) :
  all_digits s = true -> forall acc, exists z, digits s acc = Some z.
Proof.
  unfold all_digits. induction s as [|c s IH]; simpl; intros Hs acc; [eauto|].
  apply andb_prop in Hs as [Hc Hs]. destruct (digit_of c); [|discriminate].
  now apply IH.
Qed.

Lemma unsigned_numeral_digits (s : string) :
  unsigned_numeral s = true -> all_digits s = true.
Proof.
  destruct s as [|c rest]; simpl; [discriminate|].
  destruct (Ascii.eqb_spec c "0") as [->|_].
  - intros E. apply String.eqb_eq in E. now subst.
  - intros E. now apply andb_prop in E as [E _].
Qed.

(** A decimal numeral reads as a number. *)
Lemma decimal_numeral_number (s : string) :
  decimal_numeral s = true -> exists z, ToNumber s = Num z.
Proof.
  destruct s as [|c rest]; unfold decimal_numeral; [discriminate|].
  destruct (Ascii.eqb_spec c "-") as [->|Hc].
  - destruct rest as [|d rest]; [discriminate|]. intros E.
    apply andb_prop in E as [_ E]. apply unsigned_numeral_digits in E.
    destruct (all_digits_number _ E 0) as [z Hz].
    exists (- z). cbn [ToNumber]. now rewrite Hz.
  - intros E. apply unsigned_numeral_digits in E.
    destruct (all_digits_number _ E 0) as [z Hz].
    exists z. rewrite (ToNumber_unsigned _ _ Hc). now rewrite Hz.
Qed.

(** X12: [GET /tasks] with a page or a limit written as a decimal numeral
    answers 400 and runs no query when the page is below 1 or the limit is
    below 1 or above 100.  When page and limit, if supplied, are decimal
    numerals and the schema accepts the query, the handler runs on the
    query as sent, with a page of at least 1 and a limit between 1 and
    100. *)
Theorem get_tasks_bounds (q : TaskQuery.t) (db : DB) :
  (forall s z, TaskQuery.page q = Some s ->
     decimal_numeral s = true -> ToNumber s = Num z -> z < 1 ->
     exists m, get_tasks q db = (Err BadRequest m, db))
  /\ (forall s z, TaskQuery.limit q = Some s ->
        decimal_numeral s = true -> ToNumber s = Num z ->
        z < 1 \/ 100 < z ->
        exists m, get_tasks q db = (Err BadRequest m, db))
  /\ ((forall s, TaskQuery.page q = Some s -> decimal_numeral s = true) ->
      (forall s, TaskQuery.limit q = Some s -> decimal_numeral s = true) ->
      forall v, taskQuerySchema q = JoiValue v ->
        get_tasks q db = getTasks q db
        /\ (forall s, TaskQuery.page q = Some s ->
              exists p, ToNumber s = Num p /\ 1 <= p)
        /\ (forall s, TaskQuery.limit q = Some s ->
              exists l, ToNumber s = Num l /\ 1 <= l <= 100)).
Proof.
  split; [|split].
  - intros s z Hs _ Hz Hbad. unfold get_tasks, validateQuery.
    destruct (taskQuerySchema q) as [v|m] eqn:Ev; [|eauto].
    destruct (validated_page_limit _ _ Ev) as [Hp _].
    destruct (Hp s Hs) as (p & Hnum & Hp1).
    assert (p = z) by congruence. lia.
  - intros s z Hs _ Hz Hbad. unfold get_tasks, validateQuery.
    destruct (taskQuerySchema q) as [v|m] eqn:Ev; [|eauto].
    destruct (validated_page_limit _ _ Ev) as [_ Hl].
    destruct (Hl s Hs) as (l & Hnum & Hl1).
    assert (l = z) by congruence. lia.
  - intros _ _ v Ev. split.
    + unfold get_tasks, validateQuery. now rewrite Ev.
    + exact (validated_page_limit _ _ Ev).
Qed.
End QueryBounds.

Lemma get_tasks_bounds_witness :
  decimal_numeral "0" = true /\ decimal_numeral "101" = true
  /\ (exists m,
        get_tasks (TaskQuery.mk None None None None (Some "0") (Some "10")
                     None None) Demo.db0
        = (Err BadRequest m, Demo.db0))
  /\ (exists m,
        get_tasks (TaskQuery.mk None None None None (Some "1") (Some "101")
                     None None) Demo.db0
        = (Err BadRequest m, Demo.db0)).
Proof.
  split; [reflexivity|]. split; [reflexivity|]. split.
  - apply (proj1 (@get_tasks_bounds Demo.env
                    (TaskQuery.mk None None None None (Some "0") (Some "10")
                       None None) Demo.db0) "0" 0);
      [reflexivity|reflexivity|reflexivity|lia].
  - apply (proj1 (proj2 (@get_tasks_bounds Demo.env
                    (TaskQuery.mk None None None None (Some "1") (Some "101")
                       None None) Demo.db0)) "101" 101);
      [reflexivity|reflexivity|reflexivity|lia].
Defined.

(** ** Order of the lists *)

Lemma bson_leb_total (a b : Bson) : bson_leb a b = true \/ bson_leb b a = true.
Proof.
  destruct a, b; simpl; try (now left); try (now right);
    try (destruct (Z.leb_spec z z0); [now left|right; apply Z.leb_le; lia]).
  - destruct b, b0; simpl; auto.
  - apply String.leb_total.
  - destruct (Z.leb_spec d d0); [now left|right; apply Z.leb_le; lia].
  - destruct (N.leb_spec i i0); [now left|right; apply N.leb_le; lia].
Qed.

Section SortedLists.
Context {A : Type} `{Document A}.

Lemma before_total (s : SortSpec) (x y : A) :
  before s x y = true \/ before s y x = true.
Proof.
  unfold before. destruct (sort_dir s =? 1); apply bson_leb_total.
Qed.

Lemma HdRel_insert_sorted (s : SortSpec) (x y : A) (l : list A) :
  HdRel (ordered s) y l -> ordered s y x ->
  HdRel (ordered s) y (insert_sorted s x l).
Proof.
  intros Hl Hyx. destruct l as [|z l]; simpl; [now constructor|].
  destruct (before s x z); constructor; [exact Hyx|].
  now apply HdRel_inv in Hl.
Qed.

Lemma insert_sorted_Sorted (s : SortSpec) (x : A) (l : list A) :
  Sorted (ordered s) l -> Sorted (ordered s) (insert_sorted s x l).
Proof.
  induction l as [|y l IH]; simpl; intros Hs.
  - repeat constructor.
  - destruct (before s x y) eqn:Hxy.
    + constructor; [exact Hs|]. now constructor.
    + apply Sorted_inv in Hs as [Hs Hhd].
      constructor; [now apply IH|].
      apply HdRel_insert_sorted; [exact Hhd|].
      destruct (before_total s x y) as [E|E]; [congruence|exact E].
Qed.

Lemma sortBy_Sorted (s : SortSpec) (l : list A) : Sorted (ordered s) (sortBy s l).
Proof.
  unfold sortBy. induction l as [|x l IH]; simpl; [constructor|].
  now apply insert_sorted_Sorted.
Qed.
End SortedLists.

Lemma Sorted_skipn {A} (R : A -> A -> Prop) (n : nat) (l : list A) :
  Sorted R l -> Sorted R (skipn n l).
Proof.
  revert l. induction n as [|n IH]; intros [|x l] Hs; simpl; auto.
  apply IH. now apply Sorted_inv in Hs.
Qed.

Lemma Sorted_firstn {A} (R : A -> A -> Prop) (n : nat) (l : list A) :
  Sorted R l -> Sorted R (firstn n l).
Proof.
  revert l. induction n as [|n IH]; intros [|x l] Hs; simpl; try constructor.
  - apply IH. now apply Sorted_inv in Hs.
  - apply Sorted_inv in Hs as [_ Hhd].
    destruct l as [|y l]; destruct n; simpl; constructor.
    now apply HdRel_inv in Hhd.
Qed.

Lemma Sorted_weaken {A} (R R' : A -> A -> Prop) (l : list A) :
  (forall x y, R x y -> R' x y) -> Sorted R l -> Sorted R' l.
Proof.
  intros HR. induction 1 as [|x l Hs IH Hhd]; constructor; [exact IH|].
  destruct Hhd; constructor; auto.
Qed.

Lemma Sorted_map_inv {A B} (f : A -> B) (R : B -> B -> Prop) (l : list A) :
  Sorted (fun x y => R (f x) (f y)) l -> Sorted R (List.map f l).
Proof.
  induction 1 as [|x l Hs IH Hhd]; simpl; constructor; [exact IH|].
  destruct Hhd; simpl; constructor; auto.
Qed.

Section OrderedReplies.
Context `{Env}.

(** X13: the rows of a task list reply are in the order the query asks
    for, whatever the page: each row may stand before the next under the
    sort key and direction; sorted by creation time, descending, the
    creation times never increase along the page. *)
Theorem getTasks_rows_sorted (q : TaskQuery.t) (db db' : DB) code page :
  getTasks q db = (Ok code page, db') ->
  Sorted (ordered (getTasks_sort q)) (List.map tv_doc (tp_tasks page))
  /\ (TaskQuery.sortBy q = Some "createdAt" ->
      TaskQuery.sortOrder q = Some "desc" ->
      StronglySorted (fun a b => Task.createdAt b <= Task.createdAt a)
                     (List.map tv_doc (tp_tasks page))).
Proof.
  intros E.
  assert (Hs : Sorted (ordered (getTasks_sort q))
                      (List.map tv_doc (tp_tasks page))).
  { unfold getTasks in E.
    destruct (getTasks_query q) as [query|]; [|discriminate].
    destruct (window _ _ _) as [rows|] eqn:Hw; [|discriminate].
    injection E as <- <- <-. cbn [tp_tasks]. rewrite map_doc_populate.
    unfold window in Hw.
    destruct (store_count _) as [s|]; [|discriminate].
    destruct (store_count _) as [l|]; [|discriminate].
    destruct (s <? 0); [discriminate|]. injection Hw as <-.
    destruct (l =? 0); [|apply Sorted_firstn]; apply Sorted_skipn, sortBy_Sorted. }
  split; [exact Hs|]. intros Hby Hdir.
  apply Sorted_StronglySorted; [intros a b c; lia|].
  eapply Sorted_weaken; [|exact Hs].
  intros x y Hxy. unfold ordered, before, getTasks_sort in Hxy.
  rewrite Hby, Hdir in Hxy. cbn in Hxy. now apply Z.leb_le in Hxy.
Qed.

(** X14: for a task that is stored and not deleted, the comment list is
    exactly its non-deleted comments, oldest first, and the file list is
    exactly its non-deleted files, newest first. *)
Theorem lists_of_a_task (taskId : string) (tid : ObjectId) (t : Task.doc)
    (db : DB) :
  castObjectId taskId = Some tid ->
  findOne (live_by_id tid) (tasks db) = Some t ->
  exists cs fs,
    getComments taskId db = (Ok 200%nat cs, db)
    /\ getFilesForTask taskId db = (Ok 200%nat fs, db)
    /\ Permutation (List.map cv_doc cs)
         (List.filter (fun c => N.eqb (Comment.task c) tid
                                && negb (Comment.isDeleted c)) (comments db))
    /\ StronglySorted (fun a b => Comment.createdAt a <= Comment.createdAt b)
                      (List.map cv_doc cs)
    /\ Permutation (List.map fv_doc fs)
         (List.filter (fun x => N.eqb (File.task x) tid
                                && negb (File.isDeleted x)) (files db))
    /\ StronglySorted (fun a b => File.createdAt b <= File.createdAt a)
                      (List.map fv_doc fs).
Proof.
  intros Hid Ht. unfold getComments, getFilesForTask. rewrite Hid, Ht.
  eexists _, _. split; [reflexivity|]. split; [reflexivity|].
  rewrite !map_map. cbn [populate_comment cv_doc populate_file fv_doc].
  rewrite !map_id.
  split; [|split; [|split]].
  - rewrite sortBy_perm. unfold find.
    now rewrite (filter_ext _ _ (matches_comments_of_task tid)).
  - apply Sorted_StronglySorted; [intros a b c; lia|].
    eapply Sorted_weaken; [|apply sortBy_Sorted].
    intros x y Hxy. unfold ordered, before in Hxy. cbn in Hxy.
    now apply Z.leb_le in Hxy.
  - rewrite sortBy_perm. unfold find.
    now rewrite (filter_ext _ _ (matches_files_of_task tid)).
  - apply Sorted_StronglySorted; [intros a b c; lia|].
    eapply Sorted_weaken; [|apply sortBy_Sorted].
    intros x y Hxy. unfold ordered, before in Hxy. cbn in Hxy.
    now apply Z.leb_le in Hxy.
Qed.
End OrderedReplies.

Lemma getTasks_rows_sorted_witness :
  exists page,
    getTasks (TaskQuery.mk None None None None (Some "1") (Some "10")
                (Some "createdAt") (Some "desc")) Demo.db0
    = (Ok 200%nat page, Demo.db0)
    /\ List.map (fun r => Task._id (tv_doc r)) (tp_tasks page)
       = [13%N; 11%N; 10%N]
    /\ StronglySorted (fun a b => Task.createdAt b <= Task.createdAt a)
                      (List.map tv_doc (tp_tasks page)).
Proof.
  eexists. split; [reflexivity|]. split; [reflexivity|].
  refine (proj2 (@getTasks_rows_sorted Demo.env
                   (TaskQuery.mk None None None None (Some "1") (Some "10")
                      (Some "createdAt") (Some "desc"))
                   Demo.db0 Demo.db0 200%nat _ _) eq_refl eq_refl).
  reflexivity.
Defined.

Lemma lists_of_a_task_witness :
  exists cs fs,
    getComments "10" Demo.db0 = (Ok 200%nat cs, Demo.db0)
    /\ getFilesForTask "10" Demo.db0 = (Ok 200%nat fs, Demo.db0)
    /\ Permutation (List.map cv_doc cs) [Demo.c20]
    /\ Permutation (List.map fv_doc fs) [Demo.f30].
Proof.
  destruct (@lists_of_a_task Demo.env "10" 10%N Demo.t10 Demo.db0
              eq_refl eq_refl)
    as (cs & fs & Hc & Hf & Hpc & _ & Hpf & _).
  exists cs, fs. auto.
Defined.

(** ** The pages of a query, put together *)



Section PagesTogether.
Context `{Env}.

End PagesTogether.


(** ** Analytics: bounds and the effect of completing a task *)

Lemma count_where_app {A} (p : A -> bool) (l1 l2 : list A) :
  count_where p (l1 ++ l2) = (count_where p l1 + count_where p l2)%nat.
Proof. unfold count_where. now rewrite List.filter_app, length_app. Qed.

Lemma count_where_cons {A} (p : A -> bool) (x : A) (l : list A) :
  count_where p (x :: l)
  = ((if p x then 1 else 0) + count_where p l)%nat.
Proof. unfold count_where. simpl. now destruct (p x). Qed.

Lemma count_where_le {A} (p q : A -> bool) (l : list A) :
  (forall x, p x = true -> q x = true) ->
  (count_where p l <= count_where q l)%nat.
Proof.
  intros Hpq. induction l as [|x l IH]; [reflexivity|].
  rewrite !count_where_cons. specialize (Hpq x).
  destruct (p x), (q x); try lia; discriminate (Hpq eq_refl).
Qed.

Section AnalyticsBounds.
Context `{Env}.

(** The fields of the overview, as counts. *)
Lemma getOverview_fields (now : Date) (db : DB) :
  exists o,
    getOverview now db = (Ok 200%nat o, db)
    /\ totalTasks o = count_where live_task (tasks db)
    /\ completedTasks o
       = count_where (fun t => live_task t && has_status "done" t) (tasks db)
    /\ pendingTasks o
       = count_where (fun t => live_task t && has_status "todo" t) (tasks db)
    /\ inProgressTasks o
       = count_where (fun t => live_task t && has_status "in-progress" t)
                     (tasks db)
    /\ overdueTasks o
       = count_where (fun t => live_task t && overdue_at now t) (tasks db).
Proof.
  eexists. split; [reflexivity|]. cbn [totalTasks completedTasks pendingTasks
    inProgressTasks overdueTasks].
  rewrite find_matchFilter, fold_left_sum, group_total_count, !statusMap_count.
  unfold countDocuments, find, count_where.
  rewrite !filter_filter_and.
  rewrite (filter_ext _ _ (matches_overdue now)).
  repeat split; reflexivity.
Qed.

(** X16: in every overview the completed, pending and in-progress counts
    are counts of different tasks, so together they do not exceed the
    total; and no completed task is counted as overdue. *)
Theorem overview_bounds (now : Date) (db : DB) :
  exists o,
    getOverview now db = (Ok 200%nat o, db)
    /\ (completedTasks o + pendingTasks o + inProgressTasks o
        <= totalTasks o)%nat
    /\ (overdueTasks o + completedTasks o <= totalTasks o)%nat.
Proof.
  destruct (getOverview_fields now db)
    as (o & Hrun & Ht & Hc & Hp & Hi & Ho).
  exists o. split; [exact Hrun|]. rewrite Ht, Hc, Hp, Hi, Ho.
  clear Hrun Ht Hc Hp Hi Ho.
  induction (tasks db) as [|t l [IH1 IH2]]; [split; reflexivity|].
  rewrite !count_where_cons.
  set (cd := count_where (fun t => live_task t && has_status "done" t) l) in *.
  set (ct := count_where (fun t => live_task t && has_status "todo" t) l) in *.
  set (ci := count_where (fun t => live_task t && has_status "in-progress" t) l)
    in *.
  set (co := count_where (fun t => live_task t && overdue_at now t) l) in *.
  set (cl := count_where live_task l) in *.
  unfold has_status, overdue_at.
  destruct (live_task t); cbn [andb]; [|split; lia].
  destruct (match Task.dueDate t with Some d => d <? now | None => false end);
    cbn [andb];
    (destruct (String.eqb_spec (Task.status t) "done") as [->|];
     [cbn; split; lia|]);
    (destruct (String.eqb_spec (Task.status t) "todo") as [->|];
     [cbn; split; lia|]);
    destruct (String.eqb (Task.status t) "in-progress"); cbn; split; lia.
Qed.

(** X17: when [updateTask] moves a stored task from todo to done, the next
    overview counts one completed task more and one pending task less, and
    the same total. *)
Theorem completing_a_task (user : User.doc) (now later : Date) (id : string)
    (i : ObjectId) (t : Task.doc) (d : TaskData.t) (db db' : DB) code v :
  castObjectId id = Some i ->
  findOne (live_by_id i) (tasks db) = Some t ->
  Task.status t = "todo" -> TaskData.status d = Some "done" ->
  updateTask user now id d db = (Ok code v, db') ->
  exists o o',
    getOverview later db = (Ok 200%nat o, db)
    /\ getOverview later db' = (Ok 200%nat o', db')
    /\ totalTasks o' = totalTasks o
    /\ completedTasks o' = S (completedTasks o)
    /\ S (pendingTasks o') = pendingTasks o.
Proof.
  intros Hid Ht Htodo Hdone E.
  destruct (getOverview_fields later db) as (o & Hrun & Htot & Hc & Hp & _).
  destruct (getOverview_fields later db') as (o' & Hrun' & Htot' & Hc' & Hp' & _).
  exists o, o'. split; [exact Hrun|]. split; [exact Hrun'|].
  rewrite Htot, Htot', Hc, Hc', Hp, Hp'. clear Hrun Hrun' Htot Htot' Hc Hc' Hp Hp'.
  unfold updateTask in E. rewrite Hid in E.
  destruct (truthy _ && negb _); [discriminate|].
  destruct (Task_set now d) as [u|] eqn:Eu; [|discriminate].
  destruct (negb _); [discriminate|].
  destruct (findOneAndUpdate _ _ _) as [[r|] l] eqn:Ef; [|discriminate].
  injection E as <- <- <-.
  apply findOneAndUpdate_Some in Ef
    as (l1 & t0 & l2 & Hsplit & -> & _ & Hm & _ & Hfirst).
  rewrite Ht in Hfirst. injection Hfirst as <-.
  cbn [set_tasks tasks]. rewrite Hsplit.
  rewrite !count_where_app, !count_where_cons.
  rewrite matches_live_task in Hm. apply andb_prop in Hm as [_ Hlive].
  assert (Hu : live_task (u t) = true /\ Task.status (u t) = "done").
  { unfold Task_set in Eu.
    destruct (match TaskData.assignedTo d with
              | Some s => option_map Some (castObjectId s)
              | None => Some None
              end); [|discriminate].
    destruct (match TaskData.createdBy d with
              | Some v => option_map Some (cast_id v)
              | None => Some None
              end); [|discriminate].
    injection Eu as <-. unfold live_task. cbn. now rewrite Hdone. }
  destruct Hu as [Hlive' Hstatus'].
  unfold has_status. rewrite Hlive', Hstatus', Htodo.
  unfold live_task. rewrite Hlive. cbn. lia.
Qed.

(** X18: in every row of the performance reply the completed count does
    not exceed the assigned count, and the completion rate lies between 0
    and 100. *)
Theorem performance_bounds (db : DB) :
  exists rows,
    getPerformance db = (Ok 200%nat rows, db)
    /\ Forall (fun r => (pf_completedTasks r <= pf_totalTasks r)%nat
                        /\ (0 <= pf_completionRate r)%Q
                        /\ (pf_completionRate r <= inject_Z 100)%Q) rows.
Proof.
  eexists. split; [reflexivity|].
  rewrite find_all_users. apply List.Forall_forall. intros r Hr.
  apply in_map_iff in Hr as (u & <- & _).
  destruct (performance_of_ok db u) as (Ht & Hc & Hzero & Hrate & _).
  rewrite Ht, Hc.
  set (a := count_where (assigned_live (pf_userId (performance_of db u)))
                        (tasks db)) in *.
  set (c := count_where (done_live (pf_userId (performance_of db u)))
                        (tasks db)) in *.
  assert (Hle : (c <= a)%nat).
  { apply count_where_le. intros x. unfold done_live.
    intros Hx. now apply andb_prop in Hx. }
  split; [exact Hle|].
  destruct a as [|a'].
  - rewrite (Hzero eq_refl). split; [apply Qle_refl|]. discriminate.
  - rewrite (Hrate ltac:(lia)). clear Hzero Hrate.
    assert (Hpos : (0 < inject_Z (Z.of_nat (S a')))%Q).
    { change 0%Q with (inject_Z 0). rewrite <- Zlt_Qlt. lia. }
    split.
    + apply Qmult_le_0_compat; [|discriminate].
      apply Qle_shift_div_l; [exact Hpos|].
      rewrite Qmult_0_l. change 0%Q with (inject_Z 0).
      rewrite <- Zle_Qle. lia.
    + rewrite <- (Qmult_1_l (inject_Z 100)) at 2.
      apply Qmult_le_compat_r; [|discriminate].
      apply Qle_shift_div_r; [exact Hpos|].
      rewrite Qmult_1_l. rewrite <- Zle_Qle. lia.
Qed.
End AnalyticsBounds.

Lemma completing_a_task_witness :
  exists db' o o',
    snd (updateTask Demo.bob Demo.now0 "11"
           (TaskData.mk None None (Some "done") None None None None None)
           Demo.db0) = db'
    /\ getOverview Demo.now0 Demo.db0 = (Ok 200%nat o, Demo.db0)
    /\ getOverview Demo.now0 db' = (Ok 200%nat o', db')
    /\ completedTasks o' = S (completedTasks o)
    /\ S (pendingTasks o') = pendingTasks o.
Proof.
  eexists.
  destruct (@completing_a_task Demo.env Demo.bob Demo.now0 Demo.now0 "11" 11%N
              Demo.t11
              (TaskData.mk None None (Some "done") None None None None None)
              Demo.db0 _ _ _ eq_refl eq_refl eq_refl eq_refl eq_refl)
    as (o & o' & Ho & Ho' & _ & Hc & Hp).
  exists o, o'. split; [reflexivity|]. auto.
Defined.

(** ** What an export shows *)

Section ExportVisibility.
Context `{Env}.

(** X19: an export holds exactly the non-deleted tasks the caller may
    see: all of them for an administrator, and for anyone else those they
    created or are assigned to; newest first. *)
Theorem export_visibility (user : User.doc) (db : DB) :
  (forall t,
     In t (List.map tv_doc (exportTasks_tasks user db))
     <-> In t (tasks db) /\ Task.isDeleted t = false
         /\ (is_admin user = true
             \/ Task.createdBy t = User._id user
             \/ Task.assignedTo t = Some (User._id user)))
  /\ StronglySorted (fun a b => Task.createdAt b <= Task.createdAt a)
                    (List.map tv_doc (exportTasks_tasks user db)).
Proof.
  unfold exportTasks_tasks. rewrite map_doc_populate. split.
  - intros t. rewrite sortBy_In, find_In. unfold is_admin.
    destruct (String.eqb (User.role user) "admin"); cbn;
      rewrite eqb_false_negb.
    + rewrite andb_true_r. destruct (Task.isDeleted t); cbn; intuition.
    + rewrite !andb_true_r, orb_false_r.
      destruct (Task.isDeleted t); cbn; [intuition discriminate|].
      destruct (N.eqb_spec (Task.createdBy t) (User._id user)) as [Ec|Ec];
        cbn; [intuition|].
      destruct (Task.assignedTo t) as [a|]; cbn.
      * destruct (N.eqb_spec a (User._id user)) as [Ea|Ea];
          [subst; intuition|].
        intuition; try discriminate; try congruence.
      * intuition; discriminate.
  - apply Sorted_StronglySorted; [intros a b c; lia|].
    eapply Sorted_weaken; [|apply sortBy_Sorted].
    intros x y Hxy. unfold ordered, before in Hxy. cbn in Hxy.
    now apply Z.leb_le in Hxy.
Qed.
End ExportVisibility.

(** ** Files on disk, and what was added is listed *)

Section AddedIsListed.
Context `{Env}.

(** X20: a successful [deleteFile] removes the payload under the file's
    path from the upload directory and leaves every other path as it was;
    the tasks and comments are untouched. *)
Theorem deleteFile_unlinks (user : User.doc) (now : Date) (id : string)
    (db db' : DB) code m :
  deleteFile user now id db = (Ok code m, db') ->
  exists i x,
    castObjectId id = Some i
    /\ findOne (live_by_id i) (files db) = Some x
    /\ disk db' !! File.path x = None
    /\ (forall p, p <> File.path x -> disk db' !! p = disk db !! p)
    /\ tasks db' = tasks db /\ comments db' = comments db.
Proof.
  unfold deleteFile.
  destruct (castObjectId id) as [i|]; [|discriminate].
  destruct (findOne _ _) as [x|] eqn:Hx; [|discriminate].
  destruct (populate_parent db x); [|discriminate].
  destruct (negb _ && negb _); [discriminate|].
  destruct (negb (File.validate _)); [discriminate|].
  intros [= <- <- <-]. exists i, x. split; [reflexivity|].
  split; [exact Hx|]. cbn [set_files disk].
  destruct (disk db !! File.path x) eqn:Hd; cbn.
  - split; [apply lookup_delete_eq|]. split; [|auto].
    intros p Hp. now apply lookup_delete_ne.
  - auto.
Qed.

Lemma uploadFiles_loop_docs (user : User.doc) (now : Date) (tid : ObjectId)
    (l : list Upload.t) :
  forall uploaded db code views db',
    uploadFiles_loop user now tid l uploaded db = (Ok code views, db') ->
    exists new,
      views = (uploaded ++ new)%list
      /\ files db' = (files db ++ List.map fv_doc new)%list
      /\ Forall (fun v => File.task (fv_doc v) = tid
                          /\ File.isDeleted (fv_doc v) = false) new
      /\ List.map (fun v => File.originalName (fv_doc v)) new
         = List.map Upload.originalname l
      /\ tasks db' = tasks db.
Proof.
  induction l as [|x l IH]; intros uploaded db code views db' E; simpl in E.
  - injection E as <- <- <-. exists []. simpl. rewrite !app_nil_r. auto.
  - unfold File_new in E.
    match type of E with context [File.validate ?d] =>
      destruct (File.validate d); [|discriminate] end.
    apply IH in E as (new & -> & Hfiles & Hall & Hnames & Htasks).
    eexists (_ :: new).
    split; [now rewrite <- app_assoc|].
    split; [rewrite Hfiles; simpl; now rewrite <- app_assoc|].
    split; [constructor; [split; reflexivity|exact Hall]|].
    split; [simpl; now rewrite Hnames|exact Htasks].
Qed.

(** X21: what was added is listed.  After a successful [uploadFiles] the
    file list of the task is its former list and every uploaded file, under
    the client's file names and in no other number; after a successful
    [addComment] the comment list of the task has the new comment and one
    entry more. *)
Theorem added_is_listed (user : User.doc) (now : Date) (taskId : string)
    (db : DB) :
  (forall req_files code views db',
     uploadFiles user now taskId req_files db = (Ok code views, db') ->
     exists before after,
       getFilesForTask taskId db = (Ok 200%nat before, db)
       /\ getFilesForTask taskId db' = (Ok 200%nat after, db')
       /\ Permutation (List.map fv_doc after)
                      (List.map fv_doc before ++ List.map fv_doc views)
       /\ List.map (fun v => File.originalName (fv_doc v)) views
          = List.map Upload.originalname (from_opt [] req_files))
  /\ (forall content code v db',
        addComment user now taskId content db = (Ok code v, db') ->
        exists before after,
          getComments taskId db = (Ok 200%nat before, db)
          /\ getComments taskId db' = (Ok 200%nat after, db')
          /\ Permutation (List.map cv_doc after)
                         (List.map cv_doc before ++ [cv_doc v])).
Proof.
  split.
  - intros req_files code views db' E. unfold uploadFiles in E.
    unfold getFilesForTask.
    destruct (castObjectId taskId) as [tid|]; [|discriminate].
    destruct (findOne _ (tasks db)) as [t|] eqn:Ht; [|discriminate].
    destruct req_files as [[|x l]|]; try discriminate.
    apply uploadFiles_loop_docs in E as (new & -> & Hfiles & Hall & Hnames & Htasks).
    rewrite Htasks, Ht. eexists _, _. split; [reflexivity|].
    split; [reflexivity|]. split; [|exact Hnames].
    rewrite !map_map. cbn [populate_file fv_doc]. rewrite !map_id.
    rewrite !sortBy_perm, Hfiles. unfold find. rewrite List.filter_app.
    apply Permutation_app_head. cbn [app].
    replace (List.filter (matches (live_of_task tid)) (List.map fv_doc new))
      with (List.map fv_doc new); [reflexivity|].
    clear -Hall. induction Hall as [|v new [Htid Hlive] _ IH]; [reflexivity|].
    cbn [List.filter List.map].
    rewrite matches_files_of_task, Htid, Hlive, N.eqb_refl.
    cbn [negb andb]. now f_equal.
  - intros content code v db' E. unfold addComment in E.
    unfold getComments.
    destruct (castObjectId taskId) as [tid|]; [|discriminate].
    destruct (findOne _ (tasks db)) as [t|] eqn:Ht; [|discriminate].
    cbn [fresh] in E. unfold Comment_new in E.
    destruct content as [c|]; [|discriminate].
    match type of E with context [Comment.validate ?d] =>
      destruct (Comment.validate d); [|discriminate] end.
    injection E as <- <- <-. cbn [set_comments tasks comments cv_doc
      populate_comment]. rewrite Ht.
    eexists _, _. split; [reflexivity|]. split; [reflexivity|].
    rewrite !map_map. cbn [populate_comment cv_doc]. rewrite !map_id.
    rewrite !sortBy_perm. unfold find. rewrite List.filter_app.
    apply Permutation_app_head. cbn [List.filter].
    rewrite matches_comments_of_task. cbn [Comment.task Comment.isDeleted].
    now rewrite N.eqb_refl.
Qed.
End AddedIsListed.

Lemma deleteFile_unlinks_witness :
  exists db',
    deleteFile Demo.carol Demo.now0 "30" Demo.db0
    = (Ok 200%nat "File deleted successfully", db')
    /\ disk Demo.db0 !! "uploads/f30.pdf" <> None
    /\ disk db' !! "uploads/f30.pdf" = None.
Proof.
  eexists. split; [reflexivity|]. split; [vm_compute; discriminate|].
  destruct (@deleteFile_unlinks Demo.env Demo.carol Demo.now0 "30" Demo.db0
              _ _ _ eq_refl) as (i & x & Hid & Hx & Hgone & _).
  injection Hid as <-. injection Hx as <-. exact Hgone.
Defined.

(** ** Trends *)

Lemma bump_trend_keys (k : string) (done : nat) (acc : list Trend) (x : string) :
  In x (List.map tr_date (bump_trend k done acc))
  <-> x = k \/ In x (List.map tr_date acc).
Proof.
  induction acc as [|g acc IH]; simpl; [intuition|].
  destruct (String.eqb_spec (tr_date g) k) as [E|Hne]; simpl.
  - rewrite E. intuition.
  - rewrite IH. intuition.
Qed.

Lemma bump_trend_NoDup (k : string) (done : nat) (acc : list Trend) :
  List.NoDup (List.map tr_date acc) ->
  List.NoDup (List.map tr_date (bump_trend k done acc)).
Proof.
  induction acc as [|g acc IH]; simpl; intros Hnd.
  - constructor; [intros []|constructor].
  - inversion Hnd as [|? ? Hnotin Hnd']; subst.
    destruct (String.eqb_spec (tr_date g) k) as [E|Hne]; simpl.
    + constructor; [now rewrite <- E|assumption].
    + constructor; [|auto].
      rewrite bump_trend_keys. intros [E|Hin]; [congruence|contradiction].
Qed.

(** A row of the bumped list is the row of [k], one document heavier or
    new, or a row of another key that was there. *)
Lemma bump_trend_In (k : string) (done : nat) (acc : list Trend) (r : Trend) :
  List.NoDup (List.map tr_date acc) ->
  In r (bump_trend k done acc) ->
  (tr_date r = k
   /\ ((exists g, In g acc /\ tr_date g = k
                  /\ tr_created r = S (tr_created g)
                  /\ tr_completed r = (done + tr_completed g)%nat)
       \/ (~ In k (List.map tr_date acc)
           /\ tr_created r = 1%nat /\ tr_completed r = done)))
  \/ (tr_date r <> k /\ In r acc).
Proof.
  induction acc as [|g acc IH]; simpl; intros Hnd Hin.
  - destruct Hin as [<-|[]]. left. split; [reflexivity|]. right. simpl. tauto.
  - inversion Hnd as [|? ? Hnotin Hnd']; subst.
    destruct (String.eqb_spec (tr_date g) k) as [E|Hne]; simpl in Hin.
    + destruct Hin as [<-|Hin].
      * left. split; [reflexivity|]. left. exists g. simpl. auto.
      * right. split; [|now right]. intros E'. apply Hnotin.
        rewrite E, <- E'. now apply in_map.
    + destruct Hin as [<-|Hin]; [right; auto|].
      destruct (IH Hnd' Hin) as [[Hk [(g' & Hg' & Hrest)|(Hn & Hrest)]]|[Hk Hr]].
      * left. split; [exact Hk|]. left. exists g'. auto.
      * left. split; [exact Hk|]. right. split; [|exact Hrest].
        intros [E|Hin']; [congruence|contradiction].
      * right. auto.
Qed.

Lemma group_trend_NoDup (key : Task.doc -> string) (l : list Task.doc) :
  List.NoDup (List.map tr_date (group_trend key l)).
Proof.
  induction l as [|d l IH]; simpl; [constructor|]. now apply bump_trend_NoDup.
Qed.

Lemma group_trend_keys (key : Task.doc -> string) (l : list Task.doc) (x : string) :
  In x (List.map tr_date (group_trend key l)) <-> In x (List.map key l).
Proof.
  induction l as [|d l IH]; simpl; [tauto|].
  rewrite bump_trend_keys, IH. intuition.
Qed.

Lemma count_where_none {A} (p : A -> bool) (l : list A) :
  (forall x, In x l -> p x = false) -> count_where p l = 0%nat.
Proof.
  unfold count_where. induction l as [|x l IH]; simpl; intros Hp; [reflexivity|].
  rewrite (Hp x) by now left. apply IH. intros y Hy. apply Hp. now right.
Qed.

Lemma group_trend_rows (key : Task.doc -> string) (l : list Task.doc) (r : Trend) :
  In r (group_trend key l) ->
  tr_created r = count_where (fun d => String.eqb (key d) (tr_date r)) l
  /\ tr_completed r
     = count_where (fun d => String.eqb (key d) (tr_date r)
                             && has_status "done" d) l.
Proof.
  revert r. induction l as [|d l IH]; intros r; simpl; [intros []|].
  intros Hin. apply bump_trend_In in Hin; [|apply group_trend_NoDup].
  unfold count_where in *. cbn [List.filter].
  destruct Hin as [[Hk [(g & Hg & Hgk & Hc & Hd)|(Hn & Hc & Hd)]]|[Hk Hr]].
  - destruct (IH g Hg) as [IHc IHd]. rewrite Hk, String.eqb_refl.
    rewrite Hgk in IHc, IHd. unfold has_status at 1.
    rewrite Hc, Hd, IHc, IHd.
    destruct (String.eqb (Task.status d) "done"); simpl; auto.
  - rewrite Hk, String.eqb_refl. unfold has_status at 1.
    rewrite group_trend_keys in Hn.
    assert (Hz : forall q, length (List.filter
               (fun d0 => String.eqb (key d0) (key d) && q d0) l) = 0%nat).
    { intros q. apply (count_where_none (fun d0 => String.eqb (key d0) (key d) && q d0)).
      intros x Hx. destruct (String.eqb_spec (key x) (key d)) as [E|]; [|reflexivity].
      exfalso. apply Hn. rewrite <- E. now apply in_map. }
    assert (Hz' : length (List.filter
               (fun d0 => String.eqb (key d0) (key d)) l) = 0%nat).
    { apply (count_where_none (fun d0 => String.eqb (key d0) (key d))).
      intros x Hx. destruct (String.eqb_spec (key x) (key d)) as [E|]; [|reflexivity].
      exfalso. apply Hn. rewrite <- E. now apply in_map. }
    rewrite Hc, Hd.
    destruct (String.eqb (Task.status d) "done"); simpl;
      rewrite ?Hz, ?Hz'; auto.
  - destruct (IH r Hr) as [IHc IHd].
    apply String.eqb_neq in Hk. rewrite String.eqb_sym in Hk. rewrite Hk.
    simpl. auto.
Qed.

Lemma string_leb_trans (a b c : string) :
  String.leb a b = true -> String.leb b c = true -> String.leb a c = true.
Proof.
  unfold String.leb. revert b c.
  induction a as [|x a IH]; intros [|y b] [|z c]; simpl; try congruence.
  specialize (IH b c).
  unfold Ascii.compare.
  destruct (N.compare_spec (N_of_ascii x) (N_of_ascii y)) as [Exy|Lxy|Gxy];
    destruct (N.compare_spec (N_of_ascii y) (N_of_ascii z)) as [Eyz|Lyz|Gyz];
    destruct (N.compare_spec (N_of_ascii x) (N_of_ascii z)) as [Exz|Lxz|Gxz];
    try congruence; try lia; auto.
Qed.

Section Trends.
Context `{Env} `{Formats}.

(** X22: [getTrends] answers one row for each bucket that holds a live
    task and no other, each bucket once, in ascending order of the bucket's
    name; a row counts the live tasks created in its bucket and, of those,
    the ones now done, so every row counts at least one task and no more
    done tasks than tasks.  A period other than [day] and [week] is the
    month. *)
Theorem trends_rows (period : option string) (db : DB) :
  let bucket t := dateToString (trends_format period) (Task.createdAt t) in
  exists rows,
    getTrends period db = (Ok 200%nat rows, db)
    /\ (forall k, In k (List.map tr_date rows)
                  <-> exists t, In t (tasks db) /\ live_task t = true
                                /\ bucket t = k)
    /\ List.NoDup (List.map tr_date rows)
    /\ StronglySorted (fun a b => String.leb a b = true)
                      (List.map tr_date rows)
    /\ (forall r, In r rows ->
          tr_created r
          = count_where (fun t => live_task t
                                  && String.eqb (bucket t) (tr_date r))
                        (tasks db)
          /\ tr_completed r
             = count_where (fun t => live_task t
                                     && String.eqb (bucket t) (tr_date r)
                                     && has_status "done" t)
                           (tasks db)
          /\ (1 <= tr_created r)%nat
          /\ (tr_completed r <= tr_created r)%nat)
    /\ (period <> Some "day" -> period <> Some "week" ->
        trends_format period = "%Y-%m").
Proof.
  intros bucket. eexists. split; [reflexivity|].
  set (live := find matchFilter (tasks db)).
  set (rows := group_trend _ live).
  assert (Hlive : live = List.filter live_task (tasks db)).
  { unfold live, find. apply filter_ext. intros t. apply matches_matchFilter. }
  assert (Hperm : Permutation
            (sortBy {| sort_key := "date"; sort_dir := 1 |} rows) rows)
    by apply sortBy_perm.
  split; [|split; [|split; [|split]]].
  - intros k.
    assert (Hkeys : In k (List.map tr_date rows)
                    <-> exists t, In t (tasks db) /\ live_task t = true
                                  /\ bucket t = k).
    { unfold rows. rewrite group_trend_keys, in_map_iff, Hlive.
      split.
      - intros (t & Hk & Ht). apply filter_In in Ht as [Ht Hl]. eauto.
      - intros (t & Ht & Hl & Hk). exists t. split; [exact Hk|].
        apply filter_In. auto. }
    rewrite <- Hkeys.
    split; apply Permutation_in; [|symmetry]; apply Permutation_map, Hperm.
  - eapply Permutation_NoDup;
      [symmetry; apply (Permutation_map tr_date Hperm)|].
    apply group_trend_NoDup.
  - apply Sorted_StronglySorted; [intros a b c; apply string_leb_trans|].
    apply Sorted_map_inv. eapply Sorted_weaken; [|apply sortBy_Sorted].
    intros x y Hxy. exact Hxy.
  - intros r Hr. apply (Permutation_in _ Hperm) in Hr.
    pose proof (group_trend_rows _ _ _ Hr) as [Hc Hd].
    fold bucket in Hc, Hd.
    assert (Hk : In (tr_date r) (List.map bucket live)).
    { apply group_trend_keys. now apply in_map. }
    rewrite Hlive in Hc, Hd, Hk. unfold count_where in *.
    rewrite filter_filter_and in Hc, Hd.
    assert (Hc' : tr_created r
              = length (List.filter
                  (fun t => live_task t && String.eqb (bucket t) (tr_date r))
                  (tasks db))).
    { exact Hc. }
    assert (Hd' : tr_completed r
              = length (List.filter
                  (fun t => live_task t && String.eqb (bucket t) (tr_date r)
                            && has_status "done" t)
                  (tasks db))).
    { rewrite Hd. f_equal. apply filter_ext. intros t. apply andb_assoc. }
    split; [exact Hc'|]. split; [exact Hd'|]. split.
    + rewrite Hc'. apply in_map_iff in Hk as (t & Ek & Ht).
      apply filter_In in Ht as [Ht Hl].
      assert (Hin : In t (List.filter
                (fun t => live_task t && String.eqb (bucket t) (tr_date r))
                (tasks db))).
      { apply filter_In. split; [exact Ht|].
        rewrite Hl, Ek. apply String.eqb_refl. }
      clear -Hin.
      match goal with
      | |- (1 <= length ?l)%nat =>
          destruct l as [|t0 l0]; [destruct Hin|cbn [length]; lia]
      end.
    + rewrite Hc', Hd'. clear.
      induction (tasks db) as [|t l IH]; cbn [List.filter length]; [lia|].
      destruct (live_task t), (String.eqb (bucket t) (tr_date r)),
        (has_status "done" t); cbn [andb length]; lia.
  - intros Hday Hweek. unfold trends_format.
    destruct period as [p|]; [|reflexivity]. simpl.
    destruct (String.eqb_spec p "day") as [->|_]; [congruence|].
    destruct (String.eqb_spec p "week") as [->|_]; [congruence|reflexivity].
Qed.
End Trends.

(** ** The CSV export *)

Section CsvExport.
Context `{Env} `{Formats}.

Lemma csvData_throws (l : list TaskView) (v : TaskView) :
  In v l -> tv_createdBy v = None -> csvData l = None.
Proof.
  induction l as [|x l IH]; simpl; [intros []|].
  intros [->|Hin] Hv.
  - unfold csv_values. now rewrite Hv.
  - destruct (csv_values x); [|reflexivity]. now rewrite (IH Hin Hv).
Qed.

Lemma csvData_rows (l : list TaskView) :
  (forall v, In v l -> tv_createdBy v <> None) ->
  exists rows,
    csvData l = Some rows
    /\ Forall2 (fun v row => csv_values v = Some row) l rows.
Proof.
  induction l as [|x l IH]; simpl; intros Hall.
  - exists []. split; [reflexivity|constructor].
  - destruct IH as (rows & -> & Hrows); [intros v Hv; apply Hall; now right|].
    assert (Hx : tv_createdBy x <> None) by (apply Hall; now left).
    unfold csv_values at 1.
    destruct (tv_createdBy x) as [c|] eqn:Ec; [|congruence].
    eexists. split; [reflexivity|]. constructor; [|exact Hrows].
    unfold csv_values. now rewrite Ec.
Qed.

(** X23: [exportTasks] answers the JSON list unless the format is [csv].
    As CSV, an export with no task to show is a server error, and so is
    one that shows a task whose creator is no longer a user; otherwise the
    reply is the line of the ten column names and one line for each task,
    in the order of the list, of ten values joined by commas, the title
    among them as it is stored. *)
Theorem csv_export (user : User.doc) (db : DB) :
  let shown := exportTasks_tasks user db in
  (forall format, format <> Some "csv" ->
     exportTasks user format db = (Ok 200%nat (ExportJson shown), db))
  /\ (shown = [] ->
      exportTasks user (Some "csv") db = (Err ServerError server_error, db))
  /\ (forall v, In v shown -> tv_createdBy v = None ->
      exportTasks user (Some "csv") db = (Err ServerError server_error, db))
  /\ (shown <> [] -> (forall v, In v shown -> tv_createdBy v <> None) ->
      exists rows,
        exportTasks user (Some "csv") db
        = (Ok 200%nat
             (ExportCsv
                (String.concat newline
                   ("id,title,description,status,priority,dueDate,assignedTo,createdBy,createdAt,updatedAt"
                    :: List.map (String.concat ",") rows))),
           db)
        /\ Forall2 (fun v row =>
                      length row = 10%nat
                      /\ nth_error row 1 = Some (Task.title (tv_doc v))
                      /\ nth_error row 3 = Some (Task.status (tv_doc v)))
                   shown rows).
Proof.
  intros shown. split; [|split; [|split]].
  - intros format Hf. unfold exportTasks. fold shown.
    destruct format as [f|]; [|reflexivity]. cbn [from_opt].
    destruct (String.eqb_spec f "csv") as [->|_]; [congruence|reflexivity].
  - intros Hnone. unfold exportTasks. fold shown. rewrite Hnone. reflexivity.
  - intros v Hv Hc. unfold exportTasks. fold shown.
    cbn [from_opt]. rewrite String.eqb_refl.
    now rewrite (csvData_throws _ _ Hv Hc).
  - intros Hsome Hall. unfold exportTasks. fold shown.
    cbn [from_opt]. rewrite String.eqb_refl.
    destruct (csvData_rows _ Hall) as (rows & -> & Hrows).
    exists rows. split.
    + destruct rows as [|row rows]; [|reflexivity].
      inversion Hrows as [E|]. congruence.
    + eapply Forall2_impl; [exact Hrows|].
      intros v row Hrow. unfold csv_values in Hrow.
      destruct (tv_createdBy v); [|discriminate].
      injection Hrow as <-. repeat split; reflexivity.
Qed.
End CsvExport.

(** ** The client's forms *)

Lemma filter_index_In {A} (p : nat -> bool) (l : list A) :
  forall i x, In x (filter_index p i l) -> In x l.
Proof.
  induction l as [|y l IH]; simpl; intros i x; [tauto|].
  destruct (p i); simpl; intros Hx.
  - destruct Hx as [->|Hx]; [now left|right; eauto].
  - right; eauto.
Qed.







Section UploadQueue.
Import FileUpload.

Lemma rejection_acceptable (f : LocalFile) :
  match rejection f with
  | None => acceptable f = true
  | Some m => acceptable f = false /\ m <> ""
  end.
Proof.
  unfold rejection, acceptable.
  destruct (Z.gtb_spec (size f) maxSize) as [Hbig|Hok].
  - split; [|discriminate].
    destruct (Z.leb_spec (size f) maxSize); [lia|reflexivity].
  - destruct (Z.leb_spec (size f) maxSize); [|lia].
    destruct (includes allowedTypes (type f)); simpl; [reflexivity|].
    split; [reflexivity|discriminate].
Qed.

Lemma validFiles_acceptable (l : list LocalFile) :
  List.filter (fun file => match rejection file with
                           | None => true
                           | Some _ => false
                           end) l
  = List.filter acceptable l.
Proof.
  apply filter_ext. intros f. pose proof (rejection_acceptable f) as Hf.
  destruct (rejection f); [now destruct Hf as [-> _]|now rewrite Hf].
Qed.

Lemma validateAndSetFiles_files (l : list LocalFile) (st : state) :
  files (validateAndSetFiles l st) = (files st ++ List.filter acceptable l)%list.
Proof.
  unfold validateAndSetFiles. rewrite validFiles_acceptable.
  destruct (List.filter acceptable l); simpl; [now rewrite app_nil_r|reflexivity].
Qed.

(** X24: the upload queue of the client only ever holds files of at most
    10 MiB and of a listed type, whatever is selected, dropped or removed.
    A selection adds its acceptable files, in order, after the queued
    ones; as soon as one of them is acceptable no error is shown, so the
    others are left out without a message, and an error is shown only
    when the selection has files and none is acceptable. *)
Theorem upload_queue_policy :
  (forall events,
     Forall (fun f => acceptable f = true)
       (files (fold_left (fun st e => fire e st) events init)))
  /\ (forall l st,
        files (validateAndSetFiles l st)
        = (files st ++ List.filter acceptable l)%list)
  /\ (forall l st f,
        In f l -> acceptable f = true ->
        error (validateAndSetFiles l st) = "")
  /\ (forall l st,
        l <> [] -> (forall f, In f l -> acceptable f = false) ->
        files (validateAndSetFiles l st) = files st
        /\ error (validateAndSetFiles l st) <> "").
Proof.
  split; [|split; [|split]].
  - intros events.
    enough (Hinv : forall st, Forall (fun f => acceptable f = true) (files st) ->
              Forall (fun f => acceptable f = true)
                (files (fold_left (fun st e => fire e st) events st))).
    { apply Hinv. constructor. }
    induction events as [|e events IH]; intros st Hst; simpl; [exact Hst|].
    apply IH. destruct e as [l|i]; simpl.
    + rewrite validateAndSetFiles_files. apply List.Forall_app. split; [exact Hst|].
      apply List.Forall_forall. intros f Hf. now apply filter_In in Hf.
    + apply List.Forall_forall. intros f Hf. apply filter_index_In in Hf.
      revert f Hf. now apply List.Forall_forall.
  - exact validateAndSetFiles_files.
  - intros l st f Hf Hok. unfold validateAndSetFiles.
    rewrite validFiles_acceptable.
    assert (Hin : In f (List.filter acceptable l)) by (apply filter_In; auto).
    destruct (List.filter acceptable l); [destruct Hin|reflexivity].
  - intros l st Hne Hbad. unfold validateAndSetFiles.
    rewrite validFiles_acceptable.
    assert (Hnone : List.filter acceptable l = []).
    { clear Hne. induction l as [|x l IH]; simpl; [reflexivity|].
      rewrite (Hbad x) by now left. apply IH. intros f Hf. apply Hbad. now right. }
    rewrite Hnone. simpl. split; [reflexivity|].
    destruct (exists_last Hne) as (l' & x & ->).
    rewrite fold_left_app. simpl.
    pose proof (rejection_acceptable x) as Hx.
    destruct (rejection x) as [m|]; [tauto|].
    rewrite (Hbad x) in Hx; [discriminate|]. apply in_or_app. right. now left.
Qed.
End UploadQueue.

Section BulkFormFacts.
Import BulkForm.




End BulkFormFacts.


(** ** The pagination bar of the task list *)

Section TaskListPager.
Context `{Env}.

Lemma getTasks_limit_ten (q : TaskQuery.t) (db db' : DB) code body :
  TaskQuery.limit q = Some "10" ->
  getTasks q db = (Ok code body, db') ->
  (length (tp_tasks body) <= 10)%nat.
Proof.
  intros Hl. unfold getTasks, window, getTasks_limit. rewrite Hl.
  destruct (getTasks_query q); [|discriminate].
  change (js_mul (ToNumber_opt (Some "10")) (Num 1)) with (Num 10).
  cbn [store_count].
  destruct (store_count (getTasks_skip q)) as [s|]; [|discriminate].
  destruct (s <? 0); [discriminate|].
  intros [= <- <- <-]. cbn [tp_tasks]. rewrite length_map.
  change (Z.to_nat (Z.abs 10)) with 10%nat. cbn [Z.eqb].
  apply firstn_le_length.
Qed.

(** X26: the task list asks for ten tasks at a time and computes its
    number of pages from the rows of the reply, not from the reply's
    total: whatever the filters, the search term, the sort and the page,
    a reply has at most ten rows, that number is at most 1, and the
    pagination bar is not rendered. *)
Theorem pager_never_shown (filters : TaskList.Filters)
    (searchTerm sortBy sortOrder page : string) (db db' : DB) code body :
  get_tasks (TaskList.params filters searchTerm sortBy sortOrder page) db
  = (Ok code body, db') ->
  (length (tp_tasks body) <= 10)%nat
  /\ TaskList.totalPages (tp_tasks body) <= 1
  /\ TaskList.pagination_shown (tp_tasks body) = false.
Proof.
  unfold get_tasks, validateQuery.
  destruct (taskQuerySchema _); [|discriminate].
  intros E. apply getTasks_limit_ten in E; [|reflexivity].
  assert (Hp : TaskList.totalPages (tp_tasks body) <= 1).
  { unfold TaskList.totalPages, TaskList.tasksPerPage.
    assert (-1 <= - Z.of_nat (length (tp_tasks body)) / 10); [|lia].
    apply Z.div_le_lower_bound; lia. }
  split; [exact E|]. split; [exact Hp|].
  unfold TaskList.pagination_shown.
  destruct (Z.gtb_spec (TaskList.totalPages (tp_tasks body)) 1); [lia|reflexivity].
Qed.
End TaskListPager.

Lemma pager_never_shown_witness :
  exists body,
    get_tasks (TaskList.params (TaskList.Build_Filters None None None None)
                 "" "createdAt" "desc" "1") Demo.db0
    = (Ok 200%nat body, Demo.db0)
    /\ pg_total (tp_pagination body) = 3%nat
    /\ TaskList.pagination_shown (tp_tasks body) = false.
Proof.
  eexists. split; [reflexivity|]. split; [reflexivity|].
  exact (proj2 (proj2 (@pager_never_shown Demo.env
                         (TaskList.Build_Filters None None None None)
                         "" "createdAt" "desc" "1" Demo.db0 _ _ _ eq_refl))).
Defined.
